(** * Evernote backup GUI: the sync/export controller, embedded and verified

  Two controllers of the repository are embedded, each from its source file:

  - [Exe]: [src/evernote_backup_gui.py], the controller [main_gui.py] loads
    ([EvernoteBackupApp.start_backup], [backup_task], [is_ignorable_error]);
  - [V2]: [evernote_backup_gui 2.0.py] of the archive folder, the only
    controller with interactive rate-limit handling ([_backup_task],
    [_handle_rate_limit], [_auto_wait_and_retry], [_backup_ui_finish]).

  Text is modelled with [string] (one [ascii] per character, read as ASCII:
  characters above 127 are neither digits, nor spaces, nor letters).
  Python integers are [Z].  A child process is its finite list of output
  lines followed by its exit code.  Widget styling (colours, the progress
  bar and its floating-point percentage) is left out; the messages sent to
  the log, the status line, the progress labels and the dialogs are kept. *)

From Stdlib Require Import String Ascii ZArith List Lia Bool.
From Stdlib Require Import DecimalString DecimalPos DecimalZ.
Import ListNotations.

Open Scope string_scope.
Open Scope Z_scope.

(** ** Python string primitives used by the controllers *)

Module Py.

(** [c.isdigit()] / the class [\d]. *)
Definition isdigit (c : ascii) : bool :=
  let n := nat_of_ascii c in (48 <=? n)%nat && (n <=? 57)%nat.

(** [c.isspace()] / the class [\s]. *)
Definition isspace (c : ascii) : bool :=
  let n := nat_of_ascii c in
  ((9 <=? n)%nat && (n <=? 13)%nat) || ((28 <=? n)%nat && (n <=? 32)%nat).

Definition lower_char (c : ascii) : ascii :=
  let n := nat_of_ascii c in
  if (65 <=? n)%nat && (n <=? 90)%nat then ascii_of_nat (n + 32) else c.

(** [s.lower()] *)
Fixpoint lower (s : string) : string :=
  match s with
  | EmptyString => EmptyString
  | String c t => String (lower_char c) (lower t)
  end.

(** [s.startswith(p)], keeping what follows the prefix. *)
Fixpoint strip_prefix (p s : string) : option string :=
  match p, s with
  | EmptyString, _ => Some s
  | String a p', String b s' =>
      if Ascii.eqb a b then strip_prefix p' s' else None
  | String _ _, EmptyString => None
  end.

Definition startswith (p s : string) : bool :=
  match strip_prefix p s with Some _ => true | None => false end.

(** [p in s] *)
Fixpoint contains (p s : string) : bool :=
  startswith p s ||
  match s with
  | EmptyString => false
  | String _ t => contains p t
  end.

(** The longest prefix of [s] whose characters satisfy [f], and the rest:
    what a greedy [\d+] or [\s+] consumes. *)
Fixpoint span (f : ascii -> bool) (s : string) : string * string :=
  match s with
  | EmptyString => (EmptyString, EmptyString)
  | String c t =>
      if f c then let (a, b) := span f t in (String c a, b)
      else (EmptyString, s)
  end.

Definition digit_value (c : ascii) : Z := Z.of_nat (nat_of_ascii c) - 48.

Fixpoint int_acc (s : string) (acc : Z) : Z :=
  match s with
  | EmptyString => acc
  | String c t => int_acc t (10 * acc + digit_value c)
  end.

(** [int(s)] for a string of decimal digits, of any length. *)
Definition int (s : string) : Z := int_acc s 0.

(** [str(n)] for an integer. *)
Definition str (n : Z) : string := NilZero.string_of_int (Z.to_int n).

Fixpoint lstrip (s : string) : string :=
  match s with
  | EmptyString => EmptyString
  | String c t => if isspace c then lstrip t else s
  end.

Fixpoint rev_acc (s acc : string) : string :=
  match s with
  | EmptyString => acc
  | String c t => rev_acc t (String c acc)
  end.

Definition rev (s : string) : string := rev_acc s EmptyString.

Definition rstrip (s : string) : string := rev (lstrip (rev s)).

(** [s.strip()] *)
Definition strip (s : string) : string := rstrip (lstrip s).

(** [s[:n]] *)
Fixpoint take (n : nat) (s : string) : string :=
  match n, s with
  | O, _ => EmptyString
  | S _, EmptyString => EmptyString
  | S k, String c t => String c (take k t)
  end.

(** [re.search]: the match at the leftmost position where the anchored
    matcher [m] succeeds, the end of the string included. *)
Fixpoint search {A : Type} (m : string -> option A) (s : string) : option A :=
  match m s with
  | Some r => Some r
  | None =>
      match s with
      | EmptyString => None
      | String _ t => search m t
      end
  end.

(** [any(p.lower() in line_lower for p in patterns)] *)
Definition any_in (patterns : list string) (line_lower : string) : bool :=
  existsb (fun p => contains (lower p) line_lower) patterns.

(** All characters of [s] satisfy [f]. *)
Fixpoint all (f : ascii -> bool) (s : string) : bool :=
  match s with
  | EmptyString => true
  | String c t => f c && all f t
  end.

(** [s] does not begin with a character satisfying [f]. *)
Definition stops (f : ascii -> bool) (s : string) : bool :=
  match s with
  | EmptyString => true
  | String c _ => negb (f c)
  end.

End Py.

(** ** Notifications shared by both controllers *)

(** The [level] argument of [set_status]. *)
Inductive Level := info | success | warning | error.

(** What reaches the observer: widget texts and modal dialogs. *)
Inductive Ui :=
| status_label (text : string) (level : Level)
| progress_detail (text : string)
| progress_numbers (text : string)
| btn_backup (state : option bool) (text : string)
| text_log (msg : string)
| showinfo (title msg : string)
| showwarning (title msg : string)
| showerror (title msg : string)
| askyesno (title msg : string)
| askyesnocancel (title msg : string).

(** ** The controller in use: [src/evernote_backup_gui.py] *)

Module Exe.

Record App := mkApp {
  evernote_exe : option string;
  is_logged_in : bool;
  is_working : bool;
  database_path : string;
  output_path : string;
  total_notes : Z;
  current_note : Z;
  sync_phase : string
}.

Definition set_is_working (b : bool) (a : App) : App :=
  mkApp (evernote_exe a) (is_logged_in a) b (database_path a) (output_path a)
        (total_notes a) (current_note a) (sync_phase a).
Definition set_total_notes (n : Z) (a : App) : App :=
  mkApp (evernote_exe a) (is_logged_in a) (is_working a) (database_path a)
        (output_path a) n (current_note a) (sync_phase a).
Definition set_current_note (n : Z) (a : App) : App :=
  mkApp (evernote_exe a) (is_logged_in a) (is_working a) (database_path a)
        (output_path a) (total_notes a) n (sync_phase a).
Definition set_sync_phase (p : string) (a : App) : App :=
  mkApp (evernote_exe a) (is_logged_in a) (is_working a) (database_path a)
        (output_path a) (total_notes a) (current_note a) p.

(** Functions handed to [self.root.after(0, ...)]. *)
Inductive Callback :=
| backup_ui_start
| backup_ui_success
| backup_ui_error (msg : string)
| backup_ui_finish
| set_status (msg : string) (level : Level)
| set_progress_detail (msg : string)
| update_progress_info
| progress_numbers_config (text : string).

(** What the worker thread does besides writing the fields of [App]. *)
Inductive Action :=
| queue_log (msg : string)
| after0 (cb : Callback)
| Popen (cmd : list string)
| sleep (seconds : Z)
| dialog (d : Ui)
| makedirs (path : string)
| Thread_start_backup_task.

(** [is_ignorable_error] *)
Definition ignorable_patterns : list string :=
  [ "Failed to download note";
    "Note.will be skipped";
    "LinkedNotebook.is not accessible";
    "RemoteServer returned system error";
    "PERMISSION_DENIED";
    "NOT_FOUND";
    "Authentication failed";
    "Shared notebook.not found";
    "Business notebook.expired" ].

Definition is_ignorable_error (line : string) : bool :=
  let line_lower := Py.lower line in
  Py.any_in ignorable_patterns line_lower.

(** [extract_note_info] *)
Definition extract_note_info (line : string) : string := line.

(** The three assignments at the end of [start_backup]. *)
Definition reset_progress (a : App) : App :=
  set_sync_phase "준비 중" (set_current_note 0 (set_total_notes 0 a)).

(** The invariant of the progress counters. *)
Definition within_total (a : App) : Prop :=
  0 < total_notes a -> current_note a <= total_notes a.

(** [start_backup].  [confirm] is the answer to the [askyesno] dialog and
    [mkdir_error] the text of the exception [os.makedirs] raised, if any. *)
Definition start_backup (confirm : bool) (mkdir_error : option string)
    (a : App) : App * list Action :=
  match evernote_exe a with
  | None =>
      (a, [dialog (showerror "오류" "evernote-backup.exe 파일을 찾을 수 없습니다.")])
  | Some _ =>
      if negb (is_logged_in a) then
        (a, [dialog (showwarning "경고" "먼저 OAuth 로그인을 완료해주세요")])
      else if is_working a then
        (a, [dialog (showwarning "진행 중" "이미 백업이 진행 중입니다.")])
      else
        let ask := dialog (askyesno "백업 시작"
                     "백업을 시작하시겠습니까?
시간이 오래 걸릴 수 있습니다.") in
        if negb confirm then (a, [ask])
        else
          match mkdir_error with
          | Some e =>
              (a, [ask; makedirs (output_path a);
                   dialog (showerror "폴더 오류" ("출력 폴더 생성 실패:
" ++ e))])
          | None =>
              (reset_progress a,
               [ask; makedirs (output_path a); Thread_start_backup_task])
          end
  end.

(** The worker's local variables together with [self]; [out] collects the
    actions in the order they are performed. *)
Record Worker := mkWorker {
  app : App;
  failed_notes : list string;
  rate_limit_detected : bool;
  out : list Action
}.

Definition emit (x : Action) (w : Worker) : Worker :=
  mkWorker (app w) (failed_notes w) (rate_limit_detected w) (out w ++ [x])%list.
Definition on_app (f : App -> App) (w : Worker) : Worker :=
  mkWorker (f (app w)) (failed_notes w) (rate_limit_detected w) (out w).
Definition append_failed (x : string) (w : Worker) : Worker :=
  mkWorker (app w) (failed_notes w ++ [x])%list (rate_limit_detected w) (out w).
Definition set_rate_limit_detected (b : bool) (w : Worker) : Worker :=
  mkWorker (app w) (failed_notes w) b (out w).

(** The pattern [(\d+) notes to download], anchored at the start of [s]. *)
Definition match_notes_to_download (s : string) : option Z :=
  let (digits, rest) := Py.span Py.isdigit s in
  match digits with
  | EmptyString => None
  | _ => if Py.startswith " notes to download" rest
         then Some (Py.int digits) else None
  end.

(** What the first statement of the sync loop body finds in [line]. *)
Definition announced (line : string) : option Z :=
  if Py.contains "notes to download" line
  then Py.search match_notes_to_download line else None.

(** Body of the sync loop for one [readline()] result. *)
Definition sync_line (output : string) (w : Worker) : Worker :=
  if String.eqb output "" then w else
  let line := Py.strip output in
  let w :=
    if Py.contains "notes to download" line then
      match Py.search match_notes_to_download line with
      | Some n => emit (after0 update_progress_info)
                       (on_app (set_total_notes n) w)
      | None => w
      end
    else w in
  let w :=
    if Py.contains "Downloading" line && Py.contains "notes" line then
      emit (after0 (set_progress_detail ("동기화: " ++ line)))
           (emit (queue_log ("SYNC: " ++ line)) w)
    else if is_ignorable_error line then
      append_failed (extract_note_info line)
                    (emit (queue_log ("SYNC-SKIP: " ++ line)) w)
    else
      emit (queue_log ("SYNC: " ++ line)) w in
  if Py.contains "rate limit" (Py.lower line)
     || Py.contains "throttle" (Py.lower line) then
    emit (sleep 2)
      (emit (after0 (progress_numbers_config "대기 중..."))
        (emit (after0 (set_status "Rate Limit - 자동으로 재시도됩니다..." success))
          (emit (queue_log "⏳ Rate Limit 감지. 자동으로 대기 중...")
            (set_rate_limit_detected true w))))
  else w.

(** Body of the export loop for one [readline()] result. *)
Definition export_line (output : string) (w : Worker) : Worker :=
  if String.eqb output "" then w else
  let line := Py.strip output in
  let w := emit (queue_log ("EXPORT: " ++ line)) w in
  if Py.contains "export" (Py.lower line)
     || Py.contains "file" (Py.lower line) then
    if 0 <? total_notes (app w) then
      emit (after0 (set_progress_detail ("내보내기: " ++ line)))
        (emit (after0 update_progress_info)
          (on_app (fun a => set_current_note
                    (Z.min (current_note a + 1) (total_notes a)) a) w))
    else w
  else w.

Definition sync_loop (lines : list string) (w : Worker) : Worker :=
  fold_left (fun w output => sync_line output w) lines w.

Definition export_loop (lines : list string) (w : Worker) : Worker :=
  fold_left (fun w output => export_line output w) lines w.

(** [self.evernote_exe]; [start_backup] lets the worker start only when it
    is set. *)
Definition exe_path (a : App) : string :=
  match evernote_exe a with Some e => e | None => "" end.

Definition cmd_sync (a : App) : list string :=
  [exe_path a; "sync"; "--database"; database_path a].

Definition cmd_export (a : App) : list string :=
  [exe_path a; "export"; "--database"; database_path a;
   "--output-dir"; output_path a; "--overwrite"].

(** [backup_task] up to the start of the sync process. *)
Definition begin_sync (a : App) : Worker :=
  let w := mkWorker (set_is_working true a) [] false [] in
  let w := emit (after0 backup_ui_start) w in
  let w := emit (queue_log "🚀 백업을 시작합니다...") w in
  let w := emit (queue_log ("📍 데이터베이스: " ++ database_path a)) w in
  let w := emit (queue_log ("📁 출력 폴더: " ++ output_path a)) w in
  let w := on_app (set_sync_phase "동기화") w in
  let w := emit (after0 (set_status "에버노트 서버와 동기화 중..." warning)) w in
  let w := emit (after0 (set_progress_detail "동기화 진행 중...")) w in
  emit (Popen (cmd_sync a)) w.

(** From the end of the sync stream to the start of the export process.
    The exit code of the sync process is not read. *)
Definition begin_export (w : Worker) : Worker :=
  let w :=
    match failed_notes w with
    | [] => w
    | _ =>
        emit (queue_log "건너뛰어진 노트들은 백업에 포함되지 않습니다")
          (emit (queue_log ("⚠️ 동기화 실패 노트: "
                   ++ Py.str (Z.of_nat (length (failed_notes w))) ++ "개")) w)
    end in
  let w := on_app (set_sync_phase "내보내기") w in
  let w := on_app (set_current_note 0) w in
  let w := emit (after0 (set_status "ENEX 파일로 내보내는 중..." warning)) w in
  let w := emit (after0 (set_progress_detail "ENEX 내보내기 중...")) w in
  emit (Popen (cmd_export (app w))) w.

(** After the export stream: the exit code, [except] and [finally]. *)
Definition end_export (returncode : Z) (w : Worker) : Worker :=
  let w :=
    if negb (returncode =? 0) then
      let error_message :=
        "내보내기 실패 (종료 코드: " ++ Py.str returncode ++ ")" in
      emit (after0 (backup_ui_error error_message)) w
    else
      emit (after0 backup_ui_success)
           (emit (queue_log "✅ 백업이 완료되었습니다!") w) in
  emit (after0 backup_ui_finish) w.

(** [backup_task]: [sync], [sync_rc] are the output and exit code of the
    sync process, [export], [export_rc] those of the export process. *)
Definition backup_task (sync : list string) (sync_rc : Z)
    (export : list string) (export_rc : Z) (a : App) : Worker :=
  end_export export_rc
    (export_loop export (begin_export (sync_loop sync (begin_sync a)))).

(** The callbacks that end a job: success or error. *)
Definition is_verdict (x : Action) : bool :=
  match x with
  | after0 backup_ui_success | after0 (backup_ui_error _) => true
  | _ => false
  end.

Definition verdicts (acts : list Action) : list Action := filter is_verdict acts.

(** The processes launched. *)
Definition launched (acts : list Action) : list (list string) :=
  flat_map (fun x => match x with Popen cmd => [cmd] | _ => [] end) acts.

(** The callbacks, run by the interface thread.  [backup_ui_finish] also
  cancels [self.rate_limit_timer] when it is set; this file never sets it, so
  the field is left out. *)
Definition run_callback (cb : Callback) (a : App) : App * list Ui :=
  match cb with
  | backup_ui_start => (a, [btn_backup (Some false) "백업 중..."])
  | backup_ui_success =>
      (a, [status_label "백업 완료!" success;
           progress_detail "백업이 성공적으로 완료되었습니다";
           showinfo "백업 완료" "백업이 성공적으로 완료되었습니다!"])
  | backup_ui_error msg =>
      (a, [text_log ("❌ 백업 오류: " ++ msg);
           showerror "백업 오류" ("백업 중 오류가 발생했습니다:
" ++ msg)])
  | backup_ui_finish =>
      (set_is_working false a,
       [btn_backup (Some true) "🚀 백업 시작"; progress_detail ""; progress_numbers ""])
  | set_status msg level => (a, [status_label msg level])
  | set_progress_detail msg => (a, [progress_detail msg])
  | update_progress_info =>
      if 0 <? total_notes a then
        let c := Py.str (current_note a) in
        let t := Py.str (total_notes a) in
        if String.eqb (sync_phase a) "동기화" then
          (a, [progress_numbers ("동기화: " ++ c ++ "/" ++ t ++ " 노트")])
        else if String.eqb (sync_phase a) "내보내기" then
          (a, [progress_numbers ("내보내기: " ++ c ++ "/" ++ t ++ " 파일")])
        else
          (a, [progress_numbers ("전체 " ++ t ++ "개 노트")])
      else (a, [])
  | progress_numbers_config text => (a, [progress_numbers text])
  end.

(** The interface thread running the callbacks the worker queued, in order. *)
Fixpoint drain (acts : list Action) (a : App) : App * list Ui :=
  match acts with
  | [] => (a, [])
  | after0 cb :: rest =>
      let (a1, u1) := run_callback cb a in
      let (a2, u2) := drain rest a1 in
      (a2, (u1 ++ u2)%list)
  | queue_log msg :: rest =>
      let (a2, u2) := drain rest a in (a2, text_log msg :: u2)
  | dialog d :: rest =>
      let (a2, u2) := drain rest a in (a2, d :: u2)
  | _ :: rest => drain rest a
  end.

End Exe.

(** ** The archived controller with rate-limit handling:
     [evernote_backup_gui 2.0.py] *)

Module V2.

Record App := mkApp {
  is_logged_in : bool;
  is_working : bool;
  database_path : string;
  output_path : string;
  total_notes : Z;
  current_note : Z;
  sync_phase : string;
  rate_limit_timer : option nat
}.

Definition set_is_working (b : bool) (a : App) : App :=
  mkApp (is_logged_in a) b (database_path a) (output_path a)
        (total_notes a) (current_note a) (sync_phase a) (rate_limit_timer a).
Definition set_total_notes (n : Z) (a : App) : App :=
  mkApp (is_logged_in a) (is_working a) (database_path a) (output_path a)
        n (current_note a) (sync_phase a) (rate_limit_timer a).
Definition set_current_note (n : Z) (a : App) : App :=
  mkApp (is_logged_in a) (is_working a) (database_path a) (output_path a)
        (total_notes a) n (sync_phase a) (rate_limit_timer a).
Definition set_sync_phase (p : string) (a : App) : App :=
  mkApp (is_logged_in a) (is_working a) (database_path a) (output_path a)
        (total_notes a) (current_note a) p (rate_limit_timer a).
Definition set_rate_limit_timer (t : option nat) (a : App) : App :=
  mkApp (is_logged_in a) (is_working a) (database_path a) (output_path a)
        (total_notes a) (current_note a) (sync_phase a) t.

Inductive Callback :=
| _backup_ui_start
| _backup_ui_rate_limit
| _backup_ui_success
| _backup_ui_error (msg : string)
| _backup_ui_finish
| set_status (msg : string) (level : Level)
| set_progress_detail (msg : string)
| _update_progress_info
| progress_numbers_config (text : string).

Inductive Action :=
| queue_log (msg : string)
| after0 (cb : Callback)
| Popen (cmd : list string)
| sleep (seconds : Z)
| dialog (d : Ui)
| makedirs (path : string)
| Timer_start (id : nat)
| Thread_start_backup_task.

(** A [threading.Timer(1.0, countdown_update)] object.  [wait_seconds] and
    [original_wait_seconds] are the variables its callback closes over; only
    [countdown_update] writes [wait_seconds], and only when a timer fires,
    so the value stored at creation is the value read at expiry.  Times are
    in milliseconds. *)
Record Timer := mkTimer {
  due : Z;
  wait_seconds : Z;
  original_wait_seconds : Z;
  cancelled : bool;
  fired : bool
}.

(** A running thread: [self], the timer objects, the time, the locals of
    [_backup_task] and the actions performed so far. *)
Record Thread := mkThread {
  app : App;
  timers : list Timer;
  clock : Z;
  failed_notes : list string;
  rate_limit_detected : bool;
  wait_time : option Z;
  out : list Action
}.

Definition emit (x : Action) (w : Thread) : Thread :=
  mkThread (app w) (timers w) (clock w) (failed_notes w)
           (rate_limit_detected w) (wait_time w) (out w ++ [x])%list.
Definition on_app (f : App -> App) (w : Thread) : Thread :=
  mkThread (f (app w)) (timers w) (clock w) (failed_notes w)
           (rate_limit_detected w) (wait_time w) (out w).
Definition append_failed (x : string) (w : Thread) : Thread :=
  mkThread (app w) (timers w) (clock w) (failed_notes w ++ [x])%list
           (rate_limit_detected w) (wait_time w) (out w).
Definition set_rate_limit_detected (b : bool) (w : Thread) : Thread :=
  mkThread (app w) (timers w) (clock w) (failed_notes w) b (wait_time w) (out w).
Definition set_wait_time (t : option Z) (w : Thread) : Thread :=
  mkThread (app w) (timers w) (clock w) (failed_notes w)
           (rate_limit_detected w) t (out w).
Definition add_timer (t : Timer) (w : Thread) : Thread :=
  mkThread (app w) (timers w ++ [t])%list (clock w) (failed_notes w)
           (rate_limit_detected w) (wait_time w) (out w).

(** [time.sleep(seconds)] in the running thread. *)
Definition sleep_for (seconds : Z) (w : Thread) : Thread :=
  emit (sleep seconds)
    (mkThread (app w) (timers w) (clock w + 1000 * seconds) (failed_notes w)
              (rate_limit_detected w) (wait_time w) (out w)).

(** [sys.executable]: the interpreter's path, which nothing here reads. *)
Definition sys_executable : string := "python".

(** [_is_ignorable_error] *)
Definition ignorable_patterns : list string :=
  [ "Failed to download note";
    "Note.*will be skipped";
    "LinkedNotebook.*is not accessible";
    "RemoteServer returned system error";
    "PERMISSION_DENIED";
    "NOT_FOUND";
    "Authentication failed";
    "Shared notebook.*not found";
    "Business notebook.*expired" ].

Definition _is_ignorable_error (line : string) : bool :=
  let line_lower := Py.lower line in
  if Py.contains "rate limit" line_lower then false
  else Py.any_in ignorable_patterns line_lower.

(** ** [_extract_note_info] and its three patterns (case-insensitive) *)

Definition quote : ascii := ascii_of_nat 34.
Definition is_colon_or_space (c : ascii) : bool :=
  Ascii.eqb c ":" || Py.isspace c.
Definition not_quote (c : ascii) : bool := negb (Ascii.eqb c quote).
Definition not_space (c : ascii) : bool := negb (Py.isspace c).

(** A literal matched under [re.IGNORECASE]; what follows it is returned.
    The case of ASCII letters is folded.  On text with characters above 127
    Python also lets [i] match U+0130 and U+0131 and lets the white-space
    class take other spaces: the patterns below are those of the code on
    ASCII lines. *)
Fixpoint istrip_prefix (p s : string) : option string :=
  match p, s with
  | EmptyString, _ => Some s
  | String a p', String b s' =>
      if Ascii.eqb (Py.lower_char a) (Py.lower_char b)
      then istrip_prefix p' s' else None
  | String _ _, EmptyString => None
  end.

Fixpoint last_char (s : string) : string :=
  match s with
  | EmptyString => EmptyString
  | String c EmptyString => s
  | String _ t => last_char t
  end.

(** The keyword [kw], one or more of colon and space, an optional double
    quote, then group 1: one or more characters other than a double quote.
    Anchored at the start of [s].  The separators are taken greedily; when
    nothing but a quote or the end follows them, the engine gives one
    separator back to the group. *)
Definition match_quoted (kw s : string) : option string :=
  match istrip_prefix kw s with
  | None => None
  | Some r =>
      let (seps, r1) := Py.span is_colon_or_space r in
      match seps with
      | EmptyString => None
      | String _ more =>
          let body :=
            match r1 with
            | String c r2 => if Ascii.eqb c quote then r2 else r1
            | EmptyString => r1
            end in
          let (g, _) := Py.span not_quote body in
          match g with
          | String _ _ => Some g
          | EmptyString =>
              match more with
              | EmptyString => None
              | String _ _ => Some (last_char seps)
              end
          end
      end
  end.

(** The keyword Note, one or more spaces, then group 1: one or more
    characters other than a space.  Anchored at the start of [s]. *)
Definition match_note_word (s : string) : option string :=
  match istrip_prefix "Note" s with
  | None => None
  | Some r =>
      let (ws, r1) := Py.span Py.isspace r in
      match ws with
      | EmptyString => None
      | String _ _ =>
          let (g, _) := Py.span not_space r1 in
          match g with
          | EmptyString => None
          | String _ _ => Some g
          end
      end
  end.

Definition _extract_note_info (line : string) : string :=
  match Py.search (match_quoted "note") line with
  | Some g => g
  | None =>
      match Py.search match_note_word line with
      | Some g => g
      | None =>
          match Py.search (match_quoted "title") line with
          | Some g => g
          | None => "Unknown"
          end
      end
  end.

(** ** [start_backup] *)

(** The three assignments at the end of [start_backup]. *)
Definition reset_progress (a : App) : App :=
  set_sync_phase "준비 중" (set_current_note 0 (set_total_notes 0 a)).

(** The invariant of the progress counters. *)
Definition within_total (a : App) : Prop :=
  0 < total_notes a -> current_note a <= total_notes a.

Definition start_backup (confirm : bool) (mkdir_error : option string)
    (a : App) : App * list Action :=
  if negb (is_logged_in a) then
    (a, [dialog (showwarning "알림" "먼저 OAuth 로그인을 완료해 주세요.")])
  else if is_working a then
    (a, [dialog (showwarning "알림" "백업이 이미 진행 중입니다.")])
  else
    let ask := dialog (askyesno "백업 시작"
                 "백업을 시작하시겠습니까?

노트 수량에 따라 시간이 오래 걸릴 수 있습니다.") in
    if negb confirm then (a, [ask])
    else
      match mkdir_error with
      | Some e =>
          (a, [ask; makedirs (output_path a);
               dialog (showerror "오류" ("백업 폴더 생성 실패:
" ++ e))])
      | None =>
          (reset_progress a,
           [ask; makedirs (output_path a); Thread_start_backup_task])
      end.

(** ** The sync loop *)

(** [Restart program in (\d+):(\d+)] anchored at the start of [s]:
    the two groups, converted with [int]. *)
Definition match_restart (s : string) : option (Z * Z) :=
  match Py.strip_prefix "Restart program in " s with
  | None => None
  | Some r =>
      let (m, r1) := Py.span Py.isdigit r in
      match m, r1 with
      | String _ _, String c r2 =>
          if Ascii.eqb c ":" then
            let (sec, _) := Py.span Py.isdigit r2 in
            match sec with
            | EmptyString => None
            | String _ _ => Some (Py.int m, Py.int sec)
            end
          else None
      | _, _ => None
      end
  end.

(** One or more [\s], then the literal [lit]; what follows is returned. *)
Definition spaces_then (lit s : string) : option string :=
  let (ws, r) := Py.span Py.isspace s in
  match ws with
  | EmptyString => None
  | String _ _ => Py.strip_prefix lit r
  end.

(** [(\d+)\s+note\(s\)\s+to\s+download] anchored at the start of [s]. *)
Definition match_notes_to_download (s : string) : option Z :=
  let (digits, r) := Py.span Py.isdigit s in
  match digits with
  | EmptyString => None
  | String _ _ =>
      match spaces_then "note(s)" r with
      | None => None
      | Some r1 =>
          match spaces_then "to" r1 with
          | None => None
          | Some r2 =>
              match spaces_then "download" r2 with
              | None => None
              | Some _ => Some (Py.int digits)
              end
          end
      end
  end.

(** The first test of the sync loop body, on a [readline()] result. *)
Definition is_rate_limit_line (output : string) : bool :=
  negb (String.eqb output "")
  && Py.contains "Rate limit reached" (Py.strip output).

(** The wait the loop body computes from the two groups, if they match. *)
Definition parsed_wait (output : string) : option Z :=
  match Py.search match_restart (Py.strip output) with
  | Some (minutes, seconds) => Some (minutes * 60 + seconds)
  | None => None
  end.

Definition bump_current_note (a : App) : App :=
  set_current_note (Z.min (current_note a + 1) (total_notes a)) a.

(** Body of the sync loop for one [readline()] result. *)
Definition sync_line (output : string) (w : Thread) : Thread :=
  if String.eqb output "" then w else
  let line := Py.strip output in
  if Py.contains "Rate limit reached" line then
    let w := set_rate_limit_detected true w in
    let w :=
      match Py.search match_restart line with
      | Some (minutes, seconds) => set_wait_time (Some (minutes * 60 + seconds)) w
      | None => w
      end in
    emit (queue_log ("[SYNC-LIMIT] " ++ line)) w
  else if Py.contains "note(s) to download" line then
    let w :=
      match Py.search match_notes_to_download line with
      | Some n => emit (after0 _update_progress_info)
                       (on_app (set_total_notes n) w)
      | None => w
      end in
    emit (queue_log ("[SYNC] " ++ line)) w
  else if Py.contains "Downloading" line && Py.contains "note(s)" line then
    emit (after0 (set_progress_detail "노트 다운로드 시작..."))
         (emit (queue_log ("[SYNC] " ++ line)) w)
  else if _is_ignorable_error line then
    append_failed (_extract_note_info line)
                  (emit (queue_log ("[SYNC-SKIP] " ++ line)) w)
  else
    let w := emit (queue_log ("[SYNC] " ++ line)) w in
    let low := Py.lower line in
    if Py.contains "notebook" low && negb (Py.contains "error" low) then
      emit (after0 (set_progress_detail
                      ("노트북: " ++ Py.take 50 line ++ "..."))) w
    else if (Py.contains "note" low || Py.contains "downloading" low)
            && negb (Py.contains "error" low) then
      let w :=
        if 0 <? total_notes (app w) then
          emit (after0 _update_progress_info) (on_app bump_current_note w)
        else w in
      emit (after0 (set_progress_detail
                      ("노트: " ++ Py.take 50 line ++ "..."))) w
    else w.

(** Body of the export loop for one [readline()] result. *)
Definition export_line (output : string) (w : Thread) : Thread :=
  if String.eqb output "" then w else
  let line := Py.strip output in
  let w := emit (queue_log ("[EXPORT] " ++ line)) w in
  if Py.contains "export" (Py.lower line)
     || Py.contains "file" (Py.lower line) then
    let w :=
      if 0 <? total_notes (app w) then
        emit (after0 _update_progress_info) (on_app bump_current_note w)
      else w in
    emit (after0 (set_progress_detail
                    ("파일: " ++ Py.take 50 line ++ "..."))) w
  else w.

Definition sync_loop (lines : list string) (w : Thread) : Thread :=
  fold_left (fun w output => sync_line output w) lines w.

Definition export_loop (lines : list string) (w : Thread) : Thread :=
  fold_left (fun w output => export_line output w) lines w.

(** ** The countdown *)

(** [f"{n:02d}"] *)
Definition fmt02 (n : Z) : string :=
  if (0 <=? n) && (n <? 10) then "0" ++ Py.str n else Py.str n.

(** The two notifications of one countdown tick with [wait] seconds left. *)
Definition tick_callbacks (original wait : Z) : list Action :=
  let elapsed := original - wait in
  [ after0 (set_progress_detail
              ("⏰ 대기 중: " ++ fmt02 (wait / 60) ++ ":" ++ fmt02 (wait mod 60)));
    after0 (progress_numbers_config
              ("⏰ 경과시간: " ++ fmt02 (elapsed / 60) ++ ":"
                 ++ fmt02 (elapsed mod 60))) ].

Definition emit_all (xs : list Action) (w : Thread) : Thread :=
  fold_left (fun w x => emit x w) xs w.

(** [countdown_update], the closure of [_auto_wait_and_retry], called with
    the current values of its variables [wait_seconds] and
    [original_wait_seconds]. *)
Definition countdown_update (original wait : Z) (w : Thread) : Thread :=
  if 0 <? wait then
    let w := emit_all (tick_callbacks original wait) w in
    let id := length (timers w) in
    let w := add_timer (mkTimer (clock w + 1000) (wait - 1) original
                                false false) w in
    let w := on_app (set_rate_limit_timer (Some id)) w in
    emit (Timer_start id) w
  else
    let w := emit (queue_log "✅ Rate Limit 대기 완료. 백업을 재시작합니다.") w in
    let w := emit (after0 (set_status "Rate Limit 대기 완료 - 재시작 중..." success)) w in
    let w := emit (after0 (progress_numbers_config "🔄 재시작 중...")) w in
    let w := sleep_for 2 w in
    let w := on_app (set_total_notes 0) w in
    let w := on_app (set_current_note 0) w in
    let w := on_app (set_sync_phase "재시작") w in
    emit Thread_start_backup_task w.

(** The actions of [countdown_update] once the wait is over. *)
Definition restart_actions : list Action :=
  [ queue_log "✅ Rate Limit 대기 완료. 백업을 재시작합니다.";
    after0 (set_status "Rate Limit 대기 완료 - 재시작 중..." success);
    after0 (progress_numbers_config "🔄 재시작 중...");
    sleep 2;
    Thread_start_backup_task ].

(** The thread of a timer created by [w], at the time the timer expires. *)
Definition at_expiry (w : Thread) : Thread :=
  mkThread (app w) (timers w) (clock w + 1000) (failed_notes w)
           (rate_limit_detected w) (wait_time w) (out w).

(** The countdown when every timer it starts is left to expire:
    [countdown_update] is run again by each of them. *)
Fixpoint countdown_uncancelled (fuel : nat) (original wait : Z) (w : Thread)
    : Thread :=
  let w' := countdown_update original wait w in
  if 0 <? wait then
    match fuel with
    | O => w'
    | S k => countdown_uncancelled k original (wait - 1) (at_expiry w')
    end
  else w'.

(** [n] ticks from [wait] seconds down, the first timer having index [id]. *)
Fixpoint expected_ticks (n : nat) (original wait : Z) (id : nat)
    : list Action :=
  match n with
  | O => []
  | S k =>
      (tick_callbacks original wait ++ [Timer_start id]
         ++ expected_ticks k original (wait - 1) (S id))%list
  end.

(** [_auto_wait_and_retry] *)
Definition _auto_wait_and_retry (wait : Z) (w : Thread) : Thread :=
  let w := emit (queue_log ("⏰ Rate Limit 자동 대기 시작: "
                    ++ Py.str wait ++ "초")) w in
  let w := emit (after0 (set_status "Rate Limit 대기 중..." warning)) w in
  countdown_update wait wait w.

Definition rate_limit_question (wait : Z) : Ui :=
  let minutes := Py.str (wait / 60) in
  let seconds := Py.str (wait mod 60) in
  askyesnocancel "Rate Limit 도달"
    ("에버노트 API 속도 제한에 도달했습니다.

⏰ 대기 시간: " ++ minutes ++ "분 " ++ seconds ++ "초

🤔 어떻게 하시겠습니까?

• '예': 자동 대기 후 재시도
• '아니오': 지금 중단
• '취소': 나중에 수동 재시도").

Definition cmd_sync (a : App) : list string :=
  [sys_executable; "-m"; "evernote_backup"; "sync";
   "--database"; database_path a].

Definition rate_limit_warning : Ui :=
  showwarning "Rate Limit"
    "에버노트 API 속도 제한에 도달했습니다.
잠시 후 다시 시도해주세요.".

(** Truth value of [wait_seconds] in [if wait_seconds:]: [None] and [0]
    are false. *)
Definition truthy (wait_seconds : option Z) : option Z :=
  match wait_seconds with
  | Some n => if n =? 0 then None else Some n
  | None => None
  end.

(** [_handle_rate_limit].  [choice] is the answer to [askyesnocancel]:
    [Some true] for yes, [Some false] for no, [None] for cancel. *)
Definition _handle_rate_limit (wait_seconds : option Z)
    (choice : option bool) (w : Thread) : Thread :=
  let w := emit (after0 _backup_ui_rate_limit) w in
  match truthy wait_seconds with
  | Some wait =>
      let w := emit (dialog (rate_limit_question wait)) w in
      match choice with
      | Some true => _auto_wait_and_retry wait w
      | Some false =>
          emit (after0 _backup_ui_finish)
            (emit (queue_log "❌ 사용자가 백업을 중단했습니다") w)
      | None =>
          emit (after0 _backup_ui_finish)
            (emit (queue_log ("⏸️ 백업 일시중단. " ++ Py.str (wait / 60)
                     ++ "분 " ++ Py.str (wait mod 60)
                     ++ "초 후 수동 재시도 바랍니다.")) w)
      end
  | None =>
      emit (after0 _backup_ui_finish) (emit (dialog rate_limit_warning) w)
  end.

(** ** [_backup_task] *)

(** What one run of the worker receives from outside: the output and exit
    code of the sync process, those of the export process, and the answer
    to the rate-limit question. *)
Record Run := mkRun {
  sync : list string;
  sync_rc : Z;
  export : list string;
  export_rc : Z;
  choice : option bool
}.

Definition begin_sync (w : Thread) : Thread :=
  let w := on_app (set_is_working true) w in
  let w := emit (after0 _backup_ui_start) w in
  let w := emit (queue_log "🚀 백업 작업 시작") w in
  let w := on_app (set_sync_phase "동기화") w in
  let w := emit (after0 (set_status "노트 동기화 중..." warning)) w in
  let w := emit (after0 (set_progress_detail
                           "에버노트 서버에서 노트 목록을 가져오는 중...")) w in
  emit (Popen (cmd_sync (app w))) w.

Definition begin_export (w : Thread) : Thread :=
  let w :=
    match failed_notes w with
    | [] => w
    | _ => emit (queue_log ("⚠️ 접근 불가능한 노트 "
                   ++ Py.str (Z.of_nat (length (failed_notes w)))
                   ++ "개 스킵됨")) w
    end in
  let w := emit (queue_log "✅ 동기화 완료") w in
  let w := on_app (set_sync_phase "내보내기") w in
  let w := on_app (set_current_note 0) w in
  let w := emit (after0 (set_status "ENEX 파일 생성 중..." warning)) w in
  let w := emit (after0 (set_progress_detail
                           "노트를 ENEX 형식으로 변환하는 중...")) w in
  emit (Popen [sys_executable; "-m"; "evernote_backup"; "export";
               "--database"; database_path (app w); output_path (app w)]) w.

(** The locals of [_backup_task] at its start. *)
Definition fresh (a : App) (ts : list Timer) (t : Z) : Thread :=
  mkThread a ts t [] false None [].

(** The callbacks that end a job: success or error. *)
Definition is_verdict (x : Action) : bool :=
  match x with
  | after0 _backup_ui_success | after0 (_backup_ui_error _) => true
  | _ => false
  end.

Definition verdicts (acts : list Action) : list Action := filter is_verdict acts.

(** The processes launched. *)
Definition launched_by (acts : list Action) : list (list string) :=
  flat_map (fun x => match x with Popen cmd => [cmd] | _ => [] end) acts.

(** The [except] clause followed by the [finally] clause. *)
Definition raise_exception (msg : string) (w : Thread) : Thread :=
  emit (after0 _backup_ui_finish) (emit (after0 (_backup_ui_error msg)) w).

(** [_backup_task], started on the thread state [w0] (fresh locals). *)
Definition _backup_task (r : Run) (w0 : Thread) : Thread :=
  let w := sync_loop (sync r) (begin_sync w0) in
  if rate_limit_detected w then
    emit (after0 _backup_ui_finish)
         (_handle_rate_limit (wait_time w) (choice r) w)
  else if negb (sync_rc r =? 0) then
    raise_exception "동기화에 실패했습니다" w
  else
    let w := export_loop (export r) (begin_export w) in
    if negb (export_rc r =? 0) then
      raise_exception "내보내기에 실패했습니다" w
    else
      emit (after0 _backup_ui_finish)
        (emit (after0 _backup_ui_success)
          (on_app (set_sync_phase "완료") w)).

(** ** The interface thread *)

(** [Timer.cancel()] on the timer object [id]. *)
Fixpoint cancel (id : nat) (ts : list Timer) : list Timer :=
  match ts, id with
  | [], _ => []
  | t :: rest, O =>
      mkTimer (due t) (wait_seconds t) (original_wait_seconds t) true (fired t)
      :: rest
  | t :: rest, S k => t :: cancel k rest
  end.

(** The text of the closing question of [_backup_ui_success]; opening the
    backup folder on a yes is left out. *)
Definition completion_msg (a : App) : string :=
  "🎉 백업이 완료되었습니다!

"
  ++ (if 0 <? total_notes a
      then "📊 처리된 노트: " ++ Py.str (total_notes a) ++ "개

"
      else "")
  ++ "📋 참고: 일부 노트가 스킵될 수 있습니다:
• 공유받은 노트북 (권한 없음)
• 이미 삭제된 노트의 잔재
• 비즈니스 계정의 제한된 노트

백업 폴더를 여시겠습니까?".

Definition run_callback (cb : Callback) (a : App) (ts : list Timer)
    : App * list Timer * list Ui :=
  match cb with
  | _backup_ui_start => (a, ts, [btn_backup (Some false) "⏳ 백업 중..."])
  | _backup_ui_rate_limit =>
      (a, ts, [btn_backup None "⏰ Rate Limit 대기 중...";
               status_label "에버노트 API 속도 제한 도달" warning])
  | _backup_ui_success =>
      let t := Py.str (total_notes a) in
      (a, ts, [text_log "🎉 백업 완료!";
               status_label "백업 완료" success;
               progress_detail "접근 가능한 모든 노트가 성공적으로 백업되었습니다.";
               progress_numbers ("✅ 완료: " ++ t ++ "/" ++ t ++ " (100%)");
               askyesno "완료" (completion_msg a)])
  | _backup_ui_error msg =>
      (a, ts, [text_log ("❌ 백업 실패: " ++ msg);
               status_label "백업 실패" error;
               progress_detail "백업 중 오류가 발생했습니다.";
               showerror "백업 실패" ("백업 중 오류가 발생했습니다:
" ++ msg)])
  | _backup_ui_finish =>
      let ts :=
        match rate_limit_timer a with
        | Some id => cancel id ts
        | None => ts
        end in
      (set_is_working false (set_rate_limit_timer None a), ts,
       [btn_backup (Some true) "📤 백업 시작";
        progress_detail ""; progress_numbers ""])
  | set_status msg level => (a, ts, [status_label msg level])
  | set_progress_detail msg => (a, ts, [progress_detail msg])
  | _update_progress_info =>
      if 0 <? total_notes a then
        (a, ts, [progress_numbers
                   ("📊 " ++ sync_phase a ++ ": " ++ Py.str (current_note a)
                      ++ "/" ++ Py.str (total_notes a))])
      else
        (a, ts, [progress_numbers ("📊 " ++ sync_phase a ++ ": 진행 중...")])
  | progress_numbers_config text => (a, ts, [progress_numbers text])
  end.

(** ** The threads together

    The worker, the interface thread and the timer threads are run on one
    virtual clock (milliseconds).  A thread body runs without interruption
    from start to end; a callback handed to [after(0, ...)] runs as soon as
    the interface thread is free, before any timer that still has time to
    wait; a timer that is neither cancelled nor fired runs at its due time. *)

Record World := mkWorld {
  w_app : App;
  w_timers : list Timer;
  now : Z;
  ui_queue : list Callback;
  to_start : nat;
  runs : list Run;
  started : nat;
  launched : list (list string);
  shown : list Ui
}.

(** The effects of a finished thread body on the world, action by action. *)
Fixpoint absorb (acts : list Action) (x : World) : World :=
  match acts with
  | [] => x
  | act :: rest =>
      let x :=
        match act with
        | queue_log msg =>
            mkWorld (w_app x) (w_timers x) (now x) (ui_queue x) (to_start x)
                    (runs x) (started x) (launched x) (shown x ++ [text_log msg])
        | after0 cb =>
            mkWorld (w_app x) (w_timers x) (now x) (ui_queue x ++ [cb])
                    (to_start x) (runs x) (started x) (launched x) (shown x)
        | Popen cmd =>
            mkWorld (w_app x) (w_timers x) (now x) (ui_queue x) (to_start x)
                    (runs x) (started x) (launched x ++ [cmd]) (shown x)
        | dialog d =>
            mkWorld (w_app x) (w_timers x) (now x) (ui_queue x) (to_start x)
                    (runs x) (started x) (launched x) (shown x ++ [d])
        | Thread_start_backup_task =>
            mkWorld (w_app x) (w_timers x) (now x) (ui_queue x)
                    (S (to_start x)) (runs x) (started x) (launched x) (shown x)
        | sleep _ | makedirs _ | Timer_start _ => x
        end in
      absorb rest x
  end.

(** The callbacks a thread body queued, in order. *)
Definition callbacks_of (acts : list Action) : list Callback :=
  flat_map (fun x => match x with after0 cb => [cb] | _ => [] end) acts.

Definition is_thread_start (x : Action) : bool :=
  match x with Thread_start_backup_task => true | _ => false end.

(** The worker threads a thread body started. *)
Definition restarts (acts : list Action) : list Action :=
  filter is_thread_start acts.

(** A thread body [body] run on the world [x]. *)
Definition run_thread (body : Thread -> Thread) (x : World) : World :=
  let w := body (fresh (w_app x) (w_timers x) (now x)) in
  absorb (out w)
    (mkWorld (app w) (timers w) (clock w) (ui_queue x) (to_start x)
             (runs x) (started x) (launched x) (shown x)).

Definition pending (t : Timer) : bool := negb (cancelled t) && negb (fired t).

(** The pending timer that expires first, with its index. *)
Fixpoint next_timer (ts : list Timer) (id : nat) : option (nat * Timer) :=
  match ts with
  | [] => None
  | t :: rest =>
      match next_timer rest (S id) with
      | Some (id', t') =>
          if pending t && (due t <=? due t') then Some (id, t)
          else Some (id', t')
      | None => if pending t then Some (id, t) else None
      end
  end.

Fixpoint mark_fired (id : nat) (ts : list Timer) : list Timer :=
  match ts, id with
  | [], _ => []
  | t :: rest, O =>
      mkTimer (due t) (wait_seconds t) (original_wait_seconds t)
              (cancelled t) true :: rest
  | t :: rest, S k => t :: mark_fired k rest
  end.

(** One scheduling decision; [None] when nothing is left to run. *)
Definition step (x : World) : option World :=
  match ui_queue x with
  | cb :: q =>
      let '(a, ts, ui) := run_callback cb (w_app x) (w_timers x) in
      Some (mkWorld a ts (now x) q (to_start x) (runs x) (started x)
                    (launched x) (shown x ++ ui))
  | [] =>
      match to_start x, runs x with
      | S k, r :: rs =>
          Some (run_thread (_backup_task r)
                  (mkWorld (w_app x) (w_timers x) (now x) [] k rs
                           (S (started x)) (launched x) (shown x)))
      | S _, [] => None
      | O, _ =>
          match next_timer (w_timers x) 0 with
          | Some (id, t) =>
              Some (run_thread
                      (countdown_update (original_wait_seconds t) (wait_seconds t))
                      (mkWorld (w_app x) (mark_fired id (w_timers x))
                               (Z.max (now x) (due t)) [] O (runs x)
                               (started x) (launched x) (shown x)))
          | None => None
          end
      end
  end.

Fixpoint simulate (fuel : nat) (x : World) : World :=
  match fuel with
  | O => x
  | S k =>
      match step x with
      | Some x' => simulate k x'
      | None => x
      end
  end.

(** The world just after [start_backup] started the worker on [a]. *)
Definition job (a : App) (rs : list Run) : World :=
  mkWorld a [] 0 [] 1 rs 0 [] [].

(** The one timer of the wait is, at every moment, either still referred to
    by [rate_limit_timer] or already cancelled; it has not fired. *)
Definition guarded (t : Timer) (x : World) : Prop :=
  exists c, w_timers x = [mkTimer (due t) (wait_seconds t)
                                  (original_wait_seconds t) c false]
            /\ (c = true \/ rate_limit_timer (w_app x) = Some 0%nat).

(** A countdown notification of the elapsed time, one per tick. *)
Definition is_tick (u : Ui) : bool :=
  match u with
  | progress_numbers text => Py.startswith "⏰ 경과시간: " text
  | _ => false
  end.

Definition ticks (x : World) : nat := length (filter is_tick (shown x)).

End V2.

(** ** What the loops of the controller in use see in a line *)

Module ExeStream.

(** The test of the export loop body, on a [readline()] result. *)
Definition is_export_progress (output : string) : bool :=
  negb (String.eqb output "")
  && (Py.contains "export" (Py.lower (Py.strip output))
      || Py.contains "file" (Py.lower (Py.strip output))).

(** The lines the sync loop appends to [failed_notes]: ignorable, and not
  taken by the progress branch before. *)
Definition is_skipped (output : string) : bool :=
  negb (String.eqb output "")
  && negb (Py.contains "Downloading" (Py.strip output)
           && Py.contains "notes" (Py.strip output))
  && Exe.is_ignorable_error (Py.strip output).

(** The lines that can change [total_notes]. *)
Definition mentions_total (output : string) : bool :=
  negb (String.eqb output "")
  && Py.contains "notes to download" (Py.strip output).

End ExeStream.

(** ** What the loops of the archived controller see in a line *)

Module V2Stream.

Definition is_export_progress (output : string) : bool :=
  negb (String.eqb output "")
  && (Py.contains "export" (Py.lower (Py.strip output))
      || Py.contains "file" (Py.lower (Py.strip output))).

Definition cmd_export (a : V2.App) : list string :=
  [V2.sys_executable; "-m"; "evernote_backup"; "export";
   "--database"; V2.database_path a; V2.output_path a].

End V2Stream.

(** ** The pattern tables, split by how they can match *)

Module PyAscii.

(** [str.isascii()] *)
Definition isascii (s : string) : bool :=
  Py.all (fun c => (nat_of_ascii c <? 128)%nat) s.

End PyAscii.

Module Patterns.

(** The patterns of both tables that are plain text. *)
Definition plain : list string :=
  [ "Failed to download note";
    "RemoteServer returned system error";
    "PERMISSION_DENIED";
    "NOT_FOUND";
    "Authentication failed" ].

End Patterns.

(** ** The login steps of the controller in use

  [start_oauth_terminal], [copy_oauth_url] with its two buttons,
  [open_browser] and [check_oauth_token] of [src/evernote_backup_gui.py],
  with the five buttons they enable and disable.  What comes from outside is
  an argument: the verdict of [test_database_path], the exception of a system
  call if it raised one, the clipboard, the text typed into the dialog, the
  content of the database.  [close_db_connection] does nothing in this file
  ([_db_connection] is never set) and is left out. *)

Module ExeLogin.

(** A button: [state] ([true] for normal, [false] for disabled) and text. *)
Record Btn := mkBtn { enabled : bool; label : string }.

(** The state of the backup button after the notifications [us]. *)
Definition button_after (us : list Ui) (b : Btn) : Btn :=
  fold_left (fun b u =>
               match u with
               | btn_backup (Some st) txt => mkBtn st txt
               | btn_backup None txt => mkBtn (enabled b) txt
               | _ => b
               end) us b.

Record Gui := mkGui {
  app : Exe.App;
  oauth_url : option string;
  btn_terminal : Btn;
  btn_copy : Btn;
  btn_browser : Btn;
  btn_complete : Btn;
  btn_backup : Btn;
  dialog : bool
}.

Inductive Out :=
| ui (u : Ui)
| oauth_status (text : string)
| os_system (cmd : string)
| webbrowser_open (url : string).

Definition set_app (a : Exe.App) (g : Gui) : Gui :=
  mkGui a (oauth_url g) (btn_terminal g) (btn_copy g) (btn_browser g)
        (btn_complete g) (btn_backup g) (dialog g).
Definition set_oauth_url (u : option string) (g : Gui) : Gui :=
  mkGui (app g) u (btn_terminal g) (btn_copy g) (btn_browser g)
        (btn_complete g) (btn_backup g) (dialog g).
Definition set_btn_terminal (b : Btn) (g : Gui) : Gui :=
  mkGui (app g) (oauth_url g) b (btn_copy g) (btn_browser g)
        (btn_complete g) (btn_backup g) (dialog g).
Definition set_btn_copy (b : Btn) (g : Gui) : Gui :=
  mkGui (app g) (oauth_url g) (btn_terminal g) b (btn_browser g)
        (btn_complete g) (btn_backup g) (dialog g).
Definition set_btn_browser (b : Btn) (g : Gui) : Gui :=
  mkGui (app g) (oauth_url g) (btn_terminal g) (btn_copy g) b
        (btn_complete g) (btn_backup g) (dialog g).
Definition set_btn_complete (b : Btn) (g : Gui) : Gui :=
  mkGui (app g) (oauth_url g) (btn_terminal g) (btn_copy g) (btn_browser g)
        b (btn_backup g) (dialog g).
Definition set_btn_backup (b : Btn) (g : Gui) : Gui :=
  mkGui (app g) (oauth_url g) (btn_terminal g) (btn_copy g) (btn_browser g)
        (btn_complete g) b (dialog g).
Definition set_dialog (d : bool) (g : Gui) : Gui :=
  mkGui (app g) (oauth_url g) (btn_terminal g) (btn_copy g) (btn_browser g)
        (btn_complete g) (btn_backup g) d.

(** [config(state=NORMAL)] keeps the text. *)
Definition normal (b : Btn) : Btn := mkBtn true (label b).

Definition set_is_logged_in (v : bool) (a : Exe.App) : Exe.App :=
  Exe.mkApp (Exe.evernote_exe a) v (Exe.is_working a) (Exe.database_path a)
            (Exe.output_path a) (Exe.total_notes a) (Exe.current_note a)
            (Exe.sync_phase a).

Definition dq : string := String (ascii_of_nat 34) "".

(** [s.replace('/', '\\')] *)
Fixpoint backslashes (s : string) : string :=
  match s with
  | EmptyString => EmptyString
  | String c t =>
      String (if Ascii.eqb c "/" then "\"%char else c) (backslashes t)
  end.

(** The command line [start_oauth_terminal] hands to [os.system]. *)
Definition oauth_command (exe database_path : string) : string :=
  let db_path := backslashes database_path in
  let exe_cmd := if Py.contains " " exe then dq ++ exe ++ dq else exe in
  "start cmd /k " ++ dq ++ exe_cmd ++ " init-db --force --database "
    ++ db_path ++ " --backend evernote" ++ dq.

(** [start_oauth_terminal].  [db_error] is the message of
  [test_database_path] when it does not return [True], [os_error] the text
  of the exception [os.system] raised, if any. *)
Definition start_oauth_terminal (db_error os_error : option string) (g : Gui)
    : Gui * list Out :=
  match Exe.evernote_exe (app g) with
  | None =>
      (g, [ui (showerror "오류" "evernote-backup.exe 파일을 찾을 수 없습니다.")])
  | Some exe =>
      if Exe.is_working (app g) then
        (g, [ui (showwarning "진행 중" "이미 작업이 진행 중입니다.")])
      else
        match db_error with
        | Some error_msg =>
            (g, [ui (showerror "DB 경로 오류"
                       ("데이터베이스 경로에 문제가 있습니다:
" ++ error_msg))])
        | None =>
            let cmd := oauth_command exe (Exe.database_path (app g)) in
            let before :=
              [ ui (text_log "🔐 OAuth 인증을 시작합니다...");
                ui (status_label "OAuth URL 생성 중..." info);
                ui (text_log ("🔧 실행 명령어: " ++ cmd)) ] in
            match os_error with
            | Some e =>
                (g, (before ++
                     [ ui (text_log ("❌ OAuth 터미널 오류: " ++ e));
                       ui (showerror "오류" ("OAuth 터미널 실행 실패:
" ++ e)) ])%list)
            | None =>
                (set_btn_copy (normal (btn_copy g))
                   (set_btn_terminal (mkBtn false "1️⃣ 실행됨") g),
                 (before ++
                  [ os_system cmd;
                    ui (text_log "✅ 터미널창이 정상적으로 실행되었습니다. OAuth URL을 복사하세요.");
                    ui (status_label "터미널이 열렸습니다. OAuth URL을 기다리세요..." success) ])%list)
            end
        end
  end.

(** The test on the clipboard in [copy_oauth_url]: [clip] is what
  [pyperclip.paste()] returned, [None] without the module or on an
  exception.  The result is the text put into the dialog. *)
Definition prefill (clip : option string) : string * list Out :=
  match clip with
  | Some c =>
      if negb (String.eqb c "")
         && (Py.contains "evernote.com" c && Py.contains "OAuth.action" c)
      then (c, [ui (text_log "📋 클립보드에서 OAuth URL을 감지했습니다")])
      else ("", [])
  | None => ("", [])
  end.

(** [copy_oauth_url]: the dialog opens and takes the input focus. *)
Definition copy_oauth_url (clip : option string) (g : Gui) : Gui * list Out :=
  (set_dialog true g, snd (prefill clip)).

Definition newline : string := String (ascii_of_nat 10) "".

(** The test of [on_confirm] on [url], the stripped text of the dialog. *)
Definition url_accepted (url : string) : bool :=
  negb (String.eqb url ""
        || (negb (Py.contains "evernote.com" url)
            && negb (Py.contains "OAuth.action" url))).

(** [on_confirm].  [content] is the text in the dialog;
  [text_url.get("1.0", "end")] is that text and a line end. *)
Definition on_confirm (content : string) (g : Gui) : Gui * list Out :=
  let url := Py.strip (content ++ newline) in
  if url_accepted url then
    (set_btn_browser (normal (btn_browser g))
       (set_btn_copy (mkBtn false "2️⃣ 완료")
          (set_dialog false (set_oauth_url (Some url) g))),
     [ ui (status_label "URL이 저장되었습니다. 브라우저로 이동하세요." success);
       ui (text_log "🔗 OAuth URL이 저장되었습니다") ])
  else
    (g, [ui (showerror "오류"
               "유효한 OAuth URL을 입력해주세요.
'evernote.com'과 'OAuth.action'이 포함되어야 합니다.")]).

(** [on_cancel] *)
Definition on_cancel (g : Gui) : Gui * list Out := (set_dialog false g, []).

(** Truth value of [self.oauth_url]. *)
Definition url_known (u : option string) : option string :=
  match u with
  | Some s => if String.eqb s "" then None else Some s
  | None => None
  end.

(** [open_browser].  [open_error] is the text of the exception
  [webbrowser.open] raised, if any. *)
Definition open_browser (open_error : option string) (g : Gui) : Gui * list Out :=
  match url_known (oauth_url g) with
  | None => (g, [ui (showwarning "경고" "먼저 OAuth URL을 입력해주세요.")])
  | Some url =>
      match open_error with
      | Some e => (g, [ui (showerror "오류" ("브라우저 열기 실패:
" ++ e))])
      | None =>
          (set_btn_complete (normal (btn_complete g))
             (set_btn_browser (mkBtn false "3️⃣ 완료") g),
           [ webbrowser_open url;
             ui (status_label "4단계: 인증 후 '로그인 완료' 버튼을 클릭하세요." info);
             ui (text_log "🌐 브라우저에서 OAuth URL을 열었습니다");
             ui (showinfo "브라우저 열림"
                   "브라우저가 열렸습니다!

1. 에버노트에 로그인하세요
2. '일괄 백업 허용(Allow Bulk Backup)' 버튼을 클릭하세요
3. 완료되면 4번 '로그인 완료' 버튼을 클릭하세요") ])
      end
  end.

(** A value of the [config] table as Python receives it (floating-point
  values left out). *)
Inductive Value := Null | Text (s : string) | Integer (n : Z) | Blob (b : string).

(** Truth value of [access_token_row[0]]. *)
Definition truth (v : Value) : bool :=
  match v with
  | Null => false
  | Text s => negb (String.eqb s "")
  | Integer n => negb (n =? 0)
  | Blob b => negb (String.eqb b "")
  end.

(** What [check_oauth_token] finds at [database_path]: no file, a file the
  queries fail on (exception text), or the rows [(name, value)] of the table
  [config] in the order a query returns them. *)
Inductive Db :=
| no_file
| unreadable (e : string)
| config (rows : list (string * Value)).

(** [SELECT value FROM config WHERE name='access_token'] *)
Definition select_access_token (rows : list (string * Value)) : list Value :=
  map snd (filter (fun r => String.eqb (fst r) "access_token") rows).

(** [name LIKE '%token%' OR name LIKE '%oauth%']; [LIKE] does not
  distinguish the case of ASCII letters. *)
Definition like_token (name : string) : bool :=
  Py.contains "token" (Py.lower name) || Py.contains "oauth" (Py.lower name).

Definition select_token_like (rows : list (string * Value)) : list Value :=
  map snd (filter (fun r => like_token (fst r)) rows).

(** The row [check_oauth_token] ends up with. *)
Definition access_token_row (rows : list (string * Value)) : option Value :=
  match hd_error (select_access_token rows) with
  | Some v => Some v
  | None => hd_error (select_token_like rows)
  end.

Definition login_incomplete : Out :=
  ui (showwarning "로그인 미완료"
        "아직 로그인이 완료되지 않았습니다.
브라우저에서 인증을 완료한 후 다시 시도해주세요.").

(** [check_oauth_token] *)
Definition check_oauth_token (db : Db) (g : Gui) : Gui * list Out :=
  match db with
  | no_file =>
      (g, [ui (showwarning "경고"
                 "데이터베이스 파일이 생성되지 않았습니다. OAuth 인증을 다시 시도하세요.")])
  | unreadable e =>
      (g, [ ui (text_log ("❌ 로그인 확인 오류: " ++ e));
            ui (showerror "오류" ("로그인 상태 확인 실패:
" ++ e)) ])
  | config rows =>
      match access_token_row rows with
      | Some v =>
          if truth v then
            (set_btn_backup (normal (btn_backup g))
               (set_btn_complete (mkBtn false "4️⃣ 완료")
                  (set_app (set_is_logged_in true (app g)) g)),
             [ oauth_status "✅ OAuth 로그인 완료!";
               ui (status_label "로그인 완료! 백업을 시작할 수 있습니다." success);
               ui (text_log "✅ OAuth 로그인이 완료되었습니다");
               ui (showinfo "로그인 완료"
                     "OAuth 로그인이 성공적으로 완료되었습니다!
이제 백업을 시작할 수 있습니다.") ])
          else (g, [login_incomplete])
      | None => (g, [login_incomplete])
      end
  end.

(** ** The window as a whole *)

(** The buttons a user can press and what happens outside meanwhile.  A
  disabled button does not call its command; while the URL dialog is open it
  holds the input focus ([grab_set]) and the buttons of the main window do
  not respond.  [job_done] is the end of the worker thread with the output
  and exit codes of its two processes; the worker's first statement and its
  first callback are taken together with the press on the backup button.
  [choose_paths] stands for [change_db_path], [browse_output] and typing into
  the output field, which write [database_path] and [output_path] and nothing
  else; the event carries the values they leave there. *)
Inductive Event :=
| click_terminal (db_error os_error : option string)
| click_copy (clip : option string)
| press_confirm (content : string)
| press_cancel
| click_browser (open_error : option string)
| click_complete (db : Db)
| click_backup (confirm : bool) (mkdir_error : option string)
| job_done (sync : list string) (sync_rc : Z) (export : list string) (export_rc : Z)
| choose_paths (database_path output_path : string).

Definition starts_worker (acts : list Exe.Action) : bool :=
  existsb (fun x => match x with
                    | Exe.Thread_start_backup_task => true
                    | _ => false
                    end) acts.

(** A press on the backup button: [start_backup], and when it starts the
  worker, the worker's [is_working = True] and [backup_ui_start]. *)
Definition press_backup (confirm : bool) (mkdir_error : option string)
    (g : Gui) : Gui :=
  let (a, acts) := Exe.start_backup confirm mkdir_error (app g) in
  if starts_worker acts then
    set_btn_backup (mkBtn false "백업 중...")
      (set_app (Exe.set_is_working true a) g)
  else set_app a g.

(** The end of the worker: the whole of [backup_task] on the two process
  outputs, then its callbacks run by the interface thread. *)
Definition finish_job (sync : list string) (sync_rc : Z)
    (export : list string) (export_rc : Z) (g : Gui) : Gui :=
  let w := Exe.backup_task sync sync_rc export export_rc (app g) in
  let (a, us) := Exe.drain (Exe.out w) (Exe.app w) in
  set_btn_backup (button_after us (btn_backup g)) (set_app a g).

Definition set_paths (database_path output_path : string) (a : Exe.App)
    : Exe.App :=
  Exe.mkApp (Exe.evernote_exe a) (Exe.is_logged_in a) (Exe.is_working a)
            database_path output_path (Exe.total_notes a) (Exe.current_note a)
            (Exe.sync_phase a).

Definition step (e : Event) (g : Gui) : Gui :=
  match e with
  | click_terminal db_error os_error =>
      if negb (dialog g) && enabled (btn_terminal g)
      then fst (start_oauth_terminal db_error os_error g) else g
  | click_copy clip =>
      if negb (dialog g) && enabled (btn_copy g)
      then fst (copy_oauth_url clip g) else g
  | press_confirm content =>
      if dialog g then fst (on_confirm content g) else g
  | press_cancel =>
      if dialog g then fst (on_cancel g) else g
  | click_browser open_error =>
      if negb (dialog g) && enabled (btn_browser g)
      then fst (open_browser open_error g) else g
  | click_complete db =>
      if negb (dialog g) && enabled (btn_complete g)
      then fst (check_oauth_token db g) else g
  | click_backup confirm mkdir_error =>
      if negb (dialog g) && enabled (btn_backup g)
      then press_backup confirm mkdir_error g else g
  | job_done sync sync_rc export export_rc =>
      if Exe.is_working (app g)
      then finish_job sync sync_rc export export_rc g else g
  | choose_paths database_path output_path =>
      if dialog g then g
      else set_app (set_paths database_path output_path (app g)) g
  end.

Definition run (events : list Event) (g : Gui) : Gui :=
  fold_left (fun g e => step e g) events g.

(** The window after [__init__]: [exe] is what [find_evernote_exe] found. *)
Definition initial (exe : option string) (database_path output_path : string)
    : Gui :=
  mkGui (Exe.mkApp exe false false database_path output_path 0 0 "준비 중")
        None
        (mkBtn true "1️⃣ 터미널 열기")
        (mkBtn false "2️⃣ URL 복사")
        (mkBtn false "3️⃣ 브라우저 열기")
        (mkBtn false "4️⃣ 로그인 완료")
        (mkBtn false "🚀 백업 시작")
        false.

(** Where the window stands: one of the four login steps is due, or the
  login is done and the backup can be started, or a job is running. *)
Inductive Stage := step1 | step2 | step3 | step4 | ready | working.

Definition rank (s : Stage) : nat :=
  match s with
  | step1 => 0 | step2 => 1 | step3 => 2 | step4 => 3
  | ready => 4 | working => 4
  end.

(** The states of the five buttons, in the order of the window. *)
Definition buttons (g : Gui) : list bool :=
  [ enabled (btn_terminal g); enabled (btn_copy g); enabled (btn_browser g);
    enabled (btn_complete g); enabled (btn_backup g) ].

(** The stage read off the buttons and the two flags; [None] for a
  combination that belongs to no stage. *)
Definition stage_of (g : Gui) : option Stage :=
  match buttons g, Exe.is_logged_in (app g), Exe.is_working (app g) with
  | [true; false; false; false; false], false, false => Some step1
  | [false; true; false; false; false], false, false => Some step2
  | [false; false; true; false; false], false, false => Some step3
  | [false; false; false; true; false], false, false => Some step4
  | [false; false; false; false; true], true, false => Some ready
  | [false; false; false; false; false], true, true => Some working
  | _, _, _ => None
  end.

Definition has_url (g : Gui) : bool :=
  match url_known (oauth_url g) with Some _ => true | None => false end.

Definition has_exe (g : Gui) : bool :=
  match Exe.evernote_exe (app g) with Some _ => true | None => false end.

(** What a stage needs besides the buttons: the dialog is open only in
  step 2, the executable is known from step 2 on, the URL from step 3 on. *)
Definition stage_ok (s : Stage) (g : Gui) : bool :=
  (if dialog g then match s with step2 => true | _ => false end else true)
  && (if (1 <=? rank s)%nat then has_exe g else true)
  && (if (2 <=? rank s)%nat then has_url g else true).

(** The window is at stage [s]. *)
Definition at_stage (s : Stage) (g : Gui) : Prop :=
  stage_of g = Some s /\ stage_ok s g = true.

(** The [click_complete] events that found a token. *)
Definition found_token (e : Event) : bool :=
  match e with
  | click_complete (config rows) =>
      match access_token_row rows with
      | Some v => truth v
      | None => false
      end
  | _ => false
  end.

End ExeLogin.

(** A login of the controller in use: the terminal opens, the dialog takes
  the URL, the browser opens, the database holds a token. *)
Definition login_session : list ExeLogin.Event :=
  [ ExeLogin.click_terminal None None;
    ExeLogin.click_copy None;
    ExeLogin.press_confirm "https://www.evernote.com/OAuth.action?oauth_token=abc";
    ExeLogin.click_browser None;
    ExeLogin.click_complete
      (ExeLogin.config [("access_token", ExeLogin.Text "S=s1:U=1")]) ].

(** ** Concrete states and runs used by the examples *)

(** The controller in use, logged in, a job running. *)
Definition worker0 : Exe.Worker :=
Exe.mkWorker (Exe.mkApp (Some "evernote-backup.exe") true true "db" "out" 0 0 "동기화")
             [] false [].

(** The controller in use, logged in, idle. *)
Definition exe_app0 : Exe.App :=
Exe.mkApp (Some "evernote-backup.exe") true false "db" "out" 0 0 "준비 중".

(** The archived controller, idle, and a worker thread of it. *)
Definition v2_app0 : V2.App :=
V2.mkApp true false "db" "out" 0 0 "준비 중" None.

Definition thread0 : V2.Thread :=
V2.fresh (V2.mkApp true true "db" "out" 0 0 "동기화" None) [] 0.

(** Scenario B: the sync process prints the rate-limit message with 2:05 and
  exits; the observer answers yes. *)
Definition scenario_B : V2.Run :=
V2.mkRun ["Rate limit reached. Restart program in 2:05
"] 1 [] 0 (Some true).

(** * Properties *)

Ltac split_ifs :=
repeat match goal with
       | |- context [if ?b then _ else _] => destruct b eqn:?
       | |- context [match ?x with Some _ => _ | None => _ end] => destruct x eqn:?
       | |- context [let (_, _) := ?p in _] => destruct p
       end.



(** ** Sanity checks of the string primitives *)

Example py_strip_ex : Py.strip "  12 notes to download
" = "12 notes to download".
Proof. reflexivity. Qed.

Example py_lower_ex : Py.lower "PERMISSION_DENIED: Note" = "permission_denied: note".
Proof. reflexivity. Qed.

Example py_int_ex : Py.int "0125" = 125.
Proof. reflexivity. Qed.

Example v2_extract_ex1 :
V2._extract_note_info "Failed to download note: abc def" = "abc def".
Proof. reflexivity. Qed.

Example v2_extract_ex2 : V2._extract_note_info "PERMISSION_DENIED" = "Unknown".
Proof. reflexivity. Qed.


(** ** Facts about the string primitives *)

Section StringFacts.

Lemma strip_prefix_app p r : Py.strip_prefix p (p ++ r) = Some r.
Proof.
  induction p as [|c p IH]; simpl; [reflexivity|].
  now rewrite Ascii.eqb_refl.
Qed.

Lemma startswith_app p r : Py.startswith p (p ++ r) = true.
Proof. unfold Py.startswith. now rewrite strip_prefix_app. Qed.

Lemma contains_here p s : Py.startswith p s = true -> Py.contains p s = true.
Proof. intros H. destruct s; simpl; rewrite H; reflexivity. Qed.

Lemma contains_app p a b : Py.contains p (a ++ p ++ b) = true.
Proof.
  induction a as [|c a IH]; simpl.
  - apply contains_here, startswith_app.
  - rewrite IH. apply orb_true_r.
Qed.

Lemma span_app f d r :
  Py.all f d = true -> Py.stops f r = true -> Py.span f (d ++ r) = (d, r).
Proof.
  intros Hd Hr. induction d as [|c d IH]; simpl in *.
  - destruct r as [|c r]; simpl in *; [reflexivity|].
    apply negb_true_iff in Hr. now rewrite Hr.
  - apply andb_true_iff in Hd as [Hc Hd]. rewrite Hc, (IH Hd). reflexivity.
Qed.

Lemma search_here {A} (m : string -> option A) s r :
  m s = Some r -> Py.search m s = Some r.
Proof. intros H. destruct s; simpl; rewrite H; reflexivity. Qed.

(** *** Reversal and stripping *)

Lemma append_assoc (a b c : string) : (a ++ b) ++ c = a ++ b ++ c.
Proof. induction a; simpl; congruence. Qed.

Lemma rev_acc_app s acc : Py.rev_acc s acc = Py.rev s ++ acc.
Proof.
  unfold Py.rev. revert acc.
  induction s as [|c s IH]; intros acc; simpl; [reflexivity|].
  rewrite IH, (IH (String c EmptyString)).
  rewrite append_assoc. reflexivity.
Qed.

Lemma append_empty_r s : s ++ "" = s.
Proof. induction s; simpl; congruence. Qed.

Lemma rev_app a b : Py.rev (a ++ b) = Py.rev b ++ Py.rev a.
Proof.
  induction a as [|c a IH]; simpl.
  - now rewrite append_empty_r.
  - unfold Py.rev at 1 3. simpl. rewrite !rev_acc_app, IH.
    now rewrite append_assoc.
Qed.

Lemma rev_cons c s : Py.rev (String c s) = Py.rev s ++ String c "".
Proof. unfold Py.rev at 1. simpl. apply rev_acc_app. Qed.

Lemma rev_involutive s : Py.rev (Py.rev s) = s.
Proof.
  induction s as [|c s IH]; [reflexivity|].
  rewrite rev_cons, rev_app, IH. reflexivity.
Qed.

Lemma all_rev f s : Py.all f (Py.rev s) = Py.all f s.
Proof.
  induction s as [|c s IH]; [reflexivity|].
  rewrite rev_cons. simpl. rewrite <- IH.
  generalize (Py.rev s). intros t.
  induction t as [|d t IHt]; simpl.
  - now rewrite andb_true_r.
  - rewrite IHt. now rewrite !andb_assoc, (andb_comm (f d) (f c)).
Qed.

Lemma lstrip_app ws s :
  Py.all Py.isspace ws = true -> Py.stops Py.isspace s = true ->
  Py.lstrip (ws ++ s) = s.
Proof.
  intros Hw Hs. induction ws as [|c ws IH]; simpl in *.
  - destruct s as [|c s]; simpl in *; [reflexivity|].
    apply negb_true_iff in Hs. now rewrite Hs.
  - apply andb_true_iff in Hw as [Hc Hw]. rewrite Hc. auto.
Qed.

Lemma all_app f a b : Py.all f (a ++ b) = Py.all f a && Py.all f b.
Proof.
  induction a as [|c a IH]; simpl; [reflexivity|].
  now rewrite IH, andb_assoc.
Qed.

Lemma lstrip_spaces ws : Py.all Py.isspace ws = true -> Py.lstrip ws = "".
Proof.
  induction ws as [|c ws IH]; simpl; [reflexivity|].
  intros H. apply andb_true_iff in H as [-> H]. auto.
Qed.

(** [strip] removes exactly the surrounding white space of a text that
    neither begins nor ends with white space. *)
Lemma strip_padded ws1 ws2 s :
  Py.all Py.isspace ws1 = true -> Py.all Py.isspace ws2 = true ->
  Py.stops Py.isspace s = true -> Py.stops Py.isspace (Py.rev s) = true ->
  Py.strip (ws1 ++ s ++ ws2) = s.
Proof.
  intros H1 H2 Hs Hr. unfold Py.strip, Py.rstrip.
  destruct s as [|c s].
  - change (ws1 ++ "" ++ ws2) with (ws1 ++ ws2).
    rewrite (lstrip_spaces (ws1 ++ ws2)); [reflexivity|].
    rewrite all_app, H1, H2. reflexivity.
  - rewrite (lstrip_app ws1); [|assumption|exact Hs].
    rewrite rev_app, (lstrip_app (Py.rev ws2)); [apply rev_involutive| |exact Hr].
    now rewrite all_rev.
Qed.

(** *** Decimal numerals: [str] and [int] *)

Lemma int_acc_of_lu d d' :
  Py.int_acc (NilEmpty.string_of_uint d) (Z.of_N (Unsigned.of_lu d'))
  = Z.of_N (Unsigned.of_lu (Decimal.revapp d d')).
Proof.
  revert d'. induction d as [|d IH|d IH|d IH|d IH|d IH|d IH|d IH|d IH|d IH|d IH];
    intros d'; cbn [NilEmpty.string_of_uint Py.int_acc Decimal.revapp];
    [reflexivity|..]; rewrite <- IH; f_equal;
    cbn [Unsigned.of_lu]; unfold Py.digit_value;
    match goal with
    | |- context [nat_of_ascii ?c] =>
        let v := eval vm_compute in (nat_of_ascii c) in
        change (nat_of_ascii c) with v
    end; lia.
Qed.

Lemma int_string_of_uint d :
  Py.int (NilEmpty.string_of_uint d) = Z.of_uint d.
Proof.
  unfold Py.int, Z.of_uint. rewrite Unsigned.of_uint_alt.
  exact (int_acc_of_lu d Decimal.Nil).
Qed.

Lemma all_digits_string_of_uint d :
  Py.all Py.isdigit (NilEmpty.string_of_uint d) = true.
Proof. induction d; simpl; auto. Qed.

(** The numeral of a natural number: its digits are a [uint] that is not
    empty and denotes the number. *)
Lemma str_uint z :
  0 <= z ->
  exists d, d <> Decimal.Nil /\ Py.str z = NilEmpty.string_of_uint d
            /\ Z.of_uint d = z.
Proof.
  intros Hz. destruct z as [|p|p]; [| |lia].
  - exists (Decimal.D0 Decimal.Nil). repeat split. discriminate.
  - exists (Pos.to_uint p). split; [apply Unsigned.to_uint_nonnil|]. split.
    + unfold Py.str. cbn [Z.to_int NilZero.string_of_int NilZero.string_of_uint].
      generalize (Unsigned.to_uint_nonnil p).
      destruct (Pos.to_uint p); intros H; try reflexivity. now elim H.
    + exact (DecimalZ.of_to (Z.pos p)).
Qed.

Lemma int_str z : 0 <= z -> Py.int (Py.str z) = z.
Proof.
  intros Hz. destruct (str_uint z Hz) as (d & _ & -> & <-).
  apply int_string_of_uint.
Qed.

Lemma all_digits_str z : 0 <= z -> Py.all Py.isdigit (Py.str z) = true.
Proof.
  intros Hz. destruct (str_uint z Hz) as (d & _ & -> & _).
  apply all_digits_string_of_uint.
Qed.

Lemma str_nonempty z : 0 <= z -> exists c t, Py.str z = String c t.
Proof.
  intros Hz. destruct (str_uint z Hz) as (d & Hd & -> & _).
  destruct d; try (now elim Hd); simpl; eauto.
Qed.

Lemma digit_not_space c : Py.isdigit c = true -> Py.isspace c = false.
Proof.
  destruct c as [[] [] [] [] [] [] [] []]; vm_compute; intros H;
    first [reflexivity | discriminate H].
Qed.

(** A numeral begins with a digit and ends with a digit. *)
Lemma stops_space_digits s r :
  Py.all Py.isdigit s = true -> s <> "" ->
  Py.stops Py.isspace (s ++ r) = true.
Proof.
  destruct s as [|c s]; [congruence|]. simpl. intros H _.
  apply andb_true_iff in H as [Hc _]. now rewrite (digit_not_space c Hc).
Qed.

End StringFacts.

(** ** The controller in use: frame lemmas of the two loops *)

Section ExeFrames.

Import Exe.

Lemma sync_line_total output w :
  total_notes (app (sync_line output w))
  = if String.eqb output "" then total_notes (app w)
    else match announced (Py.strip output) with
         | Some n => n
         | None => total_notes (app w)
         end.
Proof.
  unfold sync_line, announced. split_ifs; try discriminate; try reflexivity;
    simpl; congruence.
Qed.

Lemma sync_line_current output w :
  current_note (app (sync_line output w)) = current_note (app w).
Proof. unfold sync_line. split_ifs; reflexivity. Qed.


Lemma sync_loop_current lines w :
  current_note (app (sync_loop lines w)) = current_note (app w).
Proof.
  unfold sync_loop. revert w.
  induction lines as [|l lines IH]; intros w; simpl; [reflexivity|].
  now rewrite IH, sync_line_current.
Qed.

Lemma export_line_total output w :
  total_notes (app (export_line output w)) = total_notes (app w).
Proof. unfold export_line. split_ifs; reflexivity. Qed.

Lemma export_loop_total lines w :
  total_notes (app (export_loop lines w)) = total_notes (app w).
Proof.
  unfold export_loop. revert w.
  induction lines as [|l lines IH]; intros w; simpl; [reflexivity|].
  now rewrite IH, export_line_total.
Qed.

(** One export line leaves [current_note] as it is or sets it to
    [min(current_note + 1, total_notes)], the latter only if the total is
    known. *)
Lemma export_line_current output w :
  current_note (app (export_line output w)) = current_note (app w)
  \/ (0 < total_notes (app w)
      /\ current_note (app (export_line output w))
         = Z.min (current_note (app w) + 1) (total_notes (app w))).
Proof.
  unfold export_line. split_ifs; try (left; reflexivity).
  right. split; [|reflexivity].
  simpl in *. now apply Z.ltb_lt.
Qed.

End ExeFrames.

(** ** C5: the announced total *)

Section TotalCount.

Import Exe.

Lemma nonempty_eqb_false c t : String.eqb (String c t) "" = false.
Proof. reflexivity. Qed.

Lemma padded_not_empty pad_l s r :
  s <> "" -> String.eqb (pad_l ++ s ++ r) "" = false.
Proof.
  intros Hs. destruct pad_l; [|reflexivity].
  destruct s; [congruence|reflexivity].
Qed.

Lemma announcement_strip N pad_l pad_r :
  0 <= N ->
  Py.all Py.isspace pad_l = true -> Py.all Py.isspace pad_r = true ->
  Py.strip (pad_l ++ (Py.str N ++ " notes to download") ++ pad_r)
  = Py.str N ++ " notes to download".
Proof.
  intros HN Hl Hr. apply strip_padded; try assumption.
  - apply stops_space_digits; [now apply all_digits_str|].
    destruct (str_nonempty N HN) as (c & t & ->). discriminate.
  - rewrite rev_app. reflexivity.
Qed.

Lemma announcement_found N :
  0 <= N -> announced (Py.str N ++ " notes to download") = Some N.
Proof.
  intros HN. unfold announced.
  replace (Py.contains "notes to download" (Py.str N ++ " notes to download"))
    with true.
  - apply search_here. unfold match_notes_to_download.
    rewrite span_app; [|now apply all_digits_str|reflexivity].
    destruct (str_nonempty N HN) as (c & t & E).
    rewrite E at 1. rewrite startswith_app with (r := "").
    now rewrite int_str.
  - symmetry.
    replace (Py.str N ++ " notes to download")
      with ((Py.str N ++ " ") ++ "notes to download" ++ "").
    + apply contains_app.
    + now rewrite append_assoc.
Qed.

(** C5.  For every integer [N >= 0], the line [str(N) + " notes to download"],
    whatever white space surrounds it in the tool's output (the line
    terminator included), sets [total_notes] to exactly [N]. *)
Theorem C5_total_notes_extracted (N : Z) (pad_l pad_r : string) (w : Worker) :
  0 <= N ->
  Py.all Py.isspace pad_l = true -> Py.all Py.isspace pad_r = true ->
  total_notes
    (app (sync_line (pad_l ++ (Py.str N ++ " notes to download") ++ pad_r) w))
  = N.
Proof.
  intros HN Hl Hr. rewrite sync_line_total.
  rewrite padded_not_empty.
  - now rewrite announcement_strip, announcement_found.
  - destruct (str_nonempty N HN) as (c & t & ->). discriminate.
Qed.

End TotalCount.

Lemma C5_witness :
0 <= 120
/\ Py.all Py.isspace "" = true
/\ Py.all Py.isspace "
" = true
/\ Exe.total_notes (Exe.app (Exe.sync_line "120 notes to download
" worker0)) = 120.
Proof.
repeat (split; [first [lia | reflexivity]|]).
apply (C5_total_notes_extracted 120 "" "
" worker0); [lia | reflexivity | reflexivity].
Defined.

(** ** The archived controller: frame lemmas of the export loop *)

Section V2Frames.

Import V2.

Lemma v2_export_line_total output w :
  total_notes (app (export_line output w)) = total_notes (app w).
Proof. unfold export_line. split_ifs; reflexivity. Qed.

Lemma v2_export_line_current output w :
  current_note (app (export_line output w)) = current_note (app w)
  \/ (0 < total_notes (app w)
      /\ current_note (app (export_line output w))
         = Z.min (current_note (app w) + 1) (total_notes (app w))).
Proof.
  unfold export_line. split_ifs; try (left; reflexivity).
  right. split; [|reflexivity].
  simpl in *. now apply Z.ltb_lt.
Qed.

Lemma v2_export_line_within output w :
  within_total (app w) -> within_total (app (export_line output w)).
Proof.
  unfold within_total. intros H.
  rewrite v2_export_line_total.
  destruct (v2_export_line_current output w) as [-> | [Hpos ->]]; [exact H|].
  intros _. apply Z.le_min_r.
Qed.

Lemma v2_export_loop_within lines w :
  within_total (app w) -> within_total (app (export_loop lines w)).
Proof.
  unfold export_loop. revert w.
  induction lines as [|l lines IH]; intros w H; simpl; [exact H|].
  apply IH, v2_export_line_within, H.
Qed.

Lemma v2_begin_export_within w : within_total (app (begin_export w)).
Proof.
  unfold within_total, begin_export.
  destruct (failed_notes w); simpl; lia.
Qed.

End V2Frames.

(** ** C4: the processed count stays within the total *)

Section Clamping.

Import Exe.

Lemma export_line_within output w :
  within_total (app w) -> within_total (app (export_line output w)).
Proof.
  unfold within_total. intros H.
  rewrite export_line_total.
  destruct (export_line_current output w) as [-> | [Hpos ->]]; [exact H|].
  intros _. apply Z.le_min_r.
Qed.

Lemma export_loop_within lines w :
  within_total (app w) -> within_total (app (export_loop lines w)).
Proof.
  unfold export_loop. revert w.
  induction lines as [|l lines IH]; intros w H; simpl; [exact H|].
  apply IH, export_line_within, H.
Qed.

Lemma begin_export_within w : within_total (app (begin_export w)).
Proof.
  unfold within_total, begin_export.
  destruct (failed_notes w); simpl; lia.
Qed.

Lemma sync_within a lines :
  within_total (app (sync_loop lines (begin_sync (reset_progress a)))).
Proof.
  unfold within_total. rewrite sync_loop_current. simpl. lia.
Qed.

(** C4.  In a job of the controller in use, started by [start_backup], the
    processed count is within the total whenever the total is known: after
    any number [j] of sync lines and after any number [k] of export lines.
    An export line either leaves [current_note] alone or sets it to
    [min(current_note + 1, total_notes)], and at the bound it leaves it
    unchanged.  The export phase of the archived controller keeps the same
    invariant. *)
Theorem C4_processed_within_total
    (a : App) (sync export : list string) (j k : nat) :
  within_total (app (sync_loop (firstn j sync) (begin_sync (reset_progress a))))
  /\ within_total
       (app (export_loop (firstn k export)
               (begin_export (sync_loop sync (begin_sync (reset_progress a))))))
  /\ (forall output w,
        current_note (app (export_line output w)) = current_note (app w)
        \/ current_note (app (export_line output w))
           = Z.min (current_note (app w) + 1) (total_notes (app w)))
  /\ (forall output w,
        0 < total_notes (app w) -> current_note (app w) = total_notes (app w) ->
        current_note (app (export_line output w)) = total_notes (app w))
  /\ (forall (v : V2.Thread) (lines : list string),
        V2.within_total (V2.app (V2.export_loop lines (V2.begin_export v)))).
Proof.
  split; [apply sync_within|].
  split; [apply export_loop_within, begin_export_within|].
  split.
  - intros output w.
    destruct (export_line_current output w) as [H | [_ H]]; auto.
  - split.
    + intros output w Hpos Heq.
      destruct (export_line_current output w) as [-> | [_ ->]]; lia.
    + intros v lines. apply v2_export_loop_within, v2_begin_export_within.
Qed.

End Clamping.

(** ** C6: ignorable errors in the controller in use *)

Section Ignorable.

Import Exe.




End Ignorable.



(** ** The outcome of a job in the controller in use *)

Section ExeOutcome.

Import Exe.

Lemma verdicts_app xs ys : verdicts (xs ++ ys) = (verdicts xs ++ verdicts ys)%list.
Proof. apply filter_app. Qed.

Lemma launched_app xs ys : launched (xs ++ ys) = (launched xs ++ launched ys)%list.
Proof. apply flat_map_app. Qed.

Ltac frame_out :=
  cbn [out emit on_app append_failed set_rate_limit_detected];
  rewrite ?verdicts_app, ?launched_app; cbn [verdicts launched filter flat_map is_verdict];
  rewrite ?app_nil_r; try reflexivity.

Lemma sync_line_verdicts output w :
  verdicts (out (sync_line output w)) = verdicts (out w).
Proof. unfold sync_line. split_ifs; frame_out. Qed.

Lemma sync_line_launched output w :
  launched (out (sync_line output w)) = launched (out w).
Proof. unfold sync_line. split_ifs; frame_out. Qed.

Lemma export_line_verdicts output w :
  verdicts (out (export_line output w)) = verdicts (out w).
Proof. unfold export_line. split_ifs; frame_out. Qed.

Lemma export_line_launched output w :
  launched (out (export_line output w)) = launched (out w).
Proof. unfold export_line. split_ifs; frame_out. Qed.

Lemma sync_loop_frame lines w :
  verdicts (out (sync_loop lines w)) = verdicts (out w)
  /\ launched (out (sync_loop lines w)) = launched (out w)
  /\ evernote_exe (app (sync_loop lines w)) = evernote_exe (app w)
  /\ database_path (app (sync_loop lines w)) = database_path (app w)
  /\ output_path (app (sync_loop lines w)) = output_path (app w).
Proof.
  unfold sync_loop. revert w.
  induction lines as [|l lines IH]; intros w; simpl; [repeat split|].
  destruct (IH (sync_line l w)) as (-> & -> & -> & -> & ->).
  rewrite sync_line_verdicts, sync_line_launched.
  repeat split; unfold sync_line; split_ifs; reflexivity.
Qed.

Lemma export_loop_frame lines w :
  verdicts (out (export_loop lines w)) = verdicts (out w)
  /\ launched (out (export_loop lines w)) = launched (out w).
Proof.
  unfold export_loop. revert w.
  induction lines as [|l lines IH]; intros w; simpl; [repeat split|].
  destruct (IH (export_line l w)) as (-> & ->).
  now rewrite export_line_verdicts, export_line_launched.
Qed.

(** Up to the end of the export stream no verdict has been given, and the
    sync and the export commands have both been launched, whatever the sync
    process printed and returned. *)
Lemma before_end_export sync export a :
  let w := export_loop export (begin_export (sync_loop sync (begin_sync a))) in
  verdicts (out w) = [] /\ launched (out w) = [cmd_sync a; cmd_export a].
Proof.
  cbn zeta.
  destruct (export_loop_frame export
              (begin_export (sync_loop sync (begin_sync a)))) as (-> & ->).
  destruct (sync_loop_frame sync (begin_sync a)) as (Hv & Hl & He & Hd & Ho).
  unfold begin_export.
  destruct (failed_notes (sync_loop sync (begin_sync a)));
    cbn [out emit on_app app];
    rewrite ?verdicts_app, ?launched_app, Hv, Hl;
    unfold cmd_export, cmd_sync, exe_path;
    cbn [set_sync_phase set_current_note evernote_exe database_path output_path];
    rewrite He, Hd, Ho; split; reflexivity.
Qed.

Lemma drain_app xs ys a :
  drain (xs ++ ys) a
  = let (a1, u1) := drain xs a in
    let (a2, u2) := drain ys a1 in (a2, (u1 ++ u2)%list).
Proof.
  revert a. induction xs as [|x xs IH]; intros a; simpl.
  - now destruct (drain ys a).
  - destruct x as [msg|cb| | |d| |]; try apply IH.
    + rewrite IH. destruct (drain xs a) as [a1 u1].
      now destruct (drain ys a1).
    + destruct (run_callback cb a) as [a0 u0]. rewrite IH.
      destruct (drain xs a0) as [a1 u1]. destruct (drain ys a1) as [a2 u2].
      now rewrite app_assoc.
    + rewrite IH. destruct (drain xs a) as [a1 u1].
      now destruct (drain ys a1).
Qed.

End ExeOutcome.

(** ** C8: a failing export ends the job with the exit code in the detail *)

Section ExportFailure.

Import Exe.

(** The text of the exception raised after the export loop. *)
Lemma end_export_out rc w :
  out (end_export rc w)
  = (out w ++
     (if rc =? 0
      then [queue_log "✅ 백업이 완료되었습니다!"; after0 backup_ui_success]
      else [after0 (backup_ui_error
                      ("내보내기 실패 (종료 코드: " ++ Py.str rc ++ ")"))])
     ++ [after0 backup_ui_finish])%list.
Proof.
  unfold end_export. destruct (rc =? 0); cbn [negb out emit];
    now rewrite <- !app_assoc.
Qed.

Lemma drain_is_working_after_finish pre a :
  is_working (fst (drain (pre ++ [after0 backup_ui_finish]) a)) = false.
Proof.
  rewrite drain_app. destruct (drain pre a) as [a1 u1]. reflexivity.
Qed.

Lemma drain_shows_error pre post msg a :
  In (showerror "백업 오류" ("백업 중 오류가 발생했습니다:
" ++ msg))
     (snd (drain (pre ++ after0 (backup_ui_error msg) :: post) a)).
Proof.
  rewrite drain_app. destruct (drain pre a) as [a1 u1].
  cbn [drain run_callback]. destruct (drain post a1) as [a2 u2].
  cbn [snd]. apply in_or_app. right. simpl. auto.
Qed.

(** C8.  Whatever the sync and export processes printed (nothing, for
    instance), an export process that ends with a non-zero exit code ends
    the job with the error verdict alone: the detail handed to
    [backup_ui_error] is the text that ends with the exit code, the error
    dialog shows it, no success is reported, and [is_working] is false once
    the interface thread has run the callbacks. *)
Theorem C8_export_failure_detail
    (sync export : list string) (sync_rc export_rc : Z) (a : App) :
  export_rc <> 0 ->
  let w := backup_task sync sync_rc export export_rc a in
  let detail := "내보내기 실패 (종료 코드: " ++ Py.str export_rc ++ ")" in
  verdicts (out w) = [after0 (backup_ui_error detail)]
  /\ In (showerror "백업 오류" ("백업 중 오류가 발생했습니다:
" ++ detail)) (snd (drain (out w) (app w)))
  /\ is_working (fst (drain (out w) (app w))) = false
  /\ Py.contains (Py.str export_rc) detail = true.
Proof.
  intros Hrc w detail. subst w. unfold backup_task.
  set (w1 := export_loop export (begin_export (sync_loop sync (begin_sync a)))).
  destruct (before_end_export sync export a) as [Hv _]. fold w1 in Hv.
  rewrite end_export_out. apply Z.eqb_neq in Hrc. rewrite Hrc.
  fold detail. split; [|split; [|split]].
  - rewrite !verdicts_app, Hv. reflexivity.
  - exact (drain_shows_error (out w1) [after0 backup_ui_finish] detail _).
  - rewrite app_assoc. apply drain_is_working_after_finish.
  - subst detail.
    exact (contains_app (Py.str export_rc) "내보내기 실패 (종료 코드: " ")").
Qed.

End ExportFailure.

(** Scenario C: the export process prints nothing and exits with code 1. *)
Lemma C8_witness :
1 <> 0
/\ Exe.verdicts (Exe.out (Exe.backup_task [] 0 [] 1 exe_app0))
   = [Exe.after0 (Exe.backup_ui_error "내보내기 실패 (종료 코드: 1)")].
Proof.
split; [lia|].
refine (proj1 (C8_export_failure_detail [] [] 0 1 exe_app0 _)). lia.
Defined.

(** ** C3: the exit code of the sync process *)

Section SyncFailure.

Import Exe.

(** C3 at its failing input, in the controller in use: whatever the sync
    process printed and whatever exit code it returned (1, say), the export
    command is launched next, and with an export that exits with 0 the job
    reports success and no error. *)
Theorem C3_sync_exit_code_not_read
    (sync export : list string) (sync_rc : Z) (a : App) :
  let w := backup_task sync sync_rc export 0 a in
  launched (out w) = [cmd_sync a; cmd_export a]
  /\ verdicts (out w) = [after0 backup_ui_success].
Proof.
  cbn zeta. unfold backup_task.
  destruct (before_end_export sync export a) as [Hv Hl].
  rewrite end_export_out. cbn [Z.eqb].
  rewrite !launched_app, !verdicts_app, Hv, Hl. split; reflexivity.
Qed.

End SyncFailure.

Example C3_failing_input :
Exe.verdicts (Exe.out (Exe.backup_task [] 1 [] 0 exe_app0))
= [Exe.after0 Exe.backup_ui_success]
/\ snd (Exe.drain (Exe.out (Exe.backup_task [] 1 [] 0 exe_app0)) exe_app0)
   = [ btn_backup (Some false) "백업 중...";
       text_log "🚀 백업을 시작합니다...";
       text_log "📍 데이터베이스: db";
       text_log "📁 출력 폴더: out";
       status_label "에버노트 서버와 동기화 중..." warning;
       progress_detail "동기화 진행 중...";
       status_label "ENEX 파일로 내보내는 중..." warning;
       progress_detail "ENEX 내보내기 중...";
       text_log "✅ 백업이 완료되었습니다!";
       status_label "백업 완료!" success;
       progress_detail "백업이 성공적으로 완료되었습니다";
       showinfo "백업 완료" "백업이 성공적으로 완료되었습니다!";
       btn_backup (Some true) "🚀 백업 시작";
       progress_detail ""; progress_numbers "" ].
Proof. split; reflexivity. Qed.

(** ** The archived controller: the sync loop on rate-limit lines *)

Section V2Sync.

Import V2.

Lemma is_rate_limit_line_inv output :
  is_rate_limit_line output = true ->
  String.eqb output "" = false
  /\ Py.contains "Rate limit reached" (Py.strip output) = true.
Proof.
  unfold is_rate_limit_line. intros H. apply andb_true_iff in H as [H1 H2].
  apply negb_true_iff in H1. auto.
Qed.

(** A rate-limit line takes the first branch of the loop body and nothing
    else. *)
Lemma sync_line_rate_limit output w :
  is_rate_limit_line output = true ->
  sync_line output w
  = emit (queue_log ("[SYNC-LIMIT] " ++ Py.strip output))
      (match parsed_wait output with
       | Some t => set_wait_time (Some t) (set_rate_limit_detected true w)
       | None => set_rate_limit_detected true w
       end).
Proof.
  intros H. apply is_rate_limit_line_inv in H as [H1 H2].
  unfold sync_line, parsed_wait. rewrite H1, H2.
  destruct (Py.search match_restart (Py.strip output)) as [[m s]|]; reflexivity.
Qed.

(** Any other line leaves the two rate-limit variables alone. *)
Lemma sync_line_other output w :
  is_rate_limit_line output = false ->
  rate_limit_detected (sync_line output w) = rate_limit_detected w
  /\ wait_time (sync_line output w) = wait_time w.
Proof.
  unfold is_rate_limit_line, sync_line. intros H.
  destruct (String.eqb output ""); [split; reflexivity|].
  simpl in H. rewrite H. split_ifs; split; reflexivity.
Qed.

Lemma sync_line_timers output w :
  timers (sync_line output w) = timers w /\ clock (sync_line output w) = clock w.
Proof. unfold sync_line. split_ifs; split; reflexivity. Qed.

Lemma sync_loop_timers lines w :
  timers (sync_loop lines w) = timers w /\ clock (sync_loop lines w) = clock w.
Proof.
  unfold sync_loop. revert w.
  induction lines as [|l lines IH]; intros w; simpl; [split; reflexivity|].
  destruct (IH (sync_line l w)) as [-> ->]. apply sync_line_timers.
Qed.

Lemma sync_loop_detected lines w :
  rate_limit_detected (sync_loop lines w)
  = existsb is_rate_limit_line lines || rate_limit_detected w.
Proof.
  unfold sync_loop. revert w.
  induction lines as [|l lines IH]; intros w; simpl; [reflexivity|].
  rewrite IH. destruct (is_rate_limit_line l) eqn:E.
  - rewrite sync_line_rate_limit by exact E.
    destruct (parsed_wait l); simpl; now rewrite orb_true_r.
  - destruct (sync_line_other l w E) as [-> _]. reflexivity.
Qed.

(** The wait known at the end of the stream is the one of the last
    rate-limit line that carried a token; without any, it is the initial
    one. *)
Lemma sync_loop_wait_none lines w :
  (forall o, In o lines -> is_rate_limit_line o = true -> parsed_wait o = None) ->
  wait_time (sync_loop lines w) = wait_time w.
Proof.
  unfold sync_loop. revert w.
  induction lines as [|l lines IH]; intros w H; simpl; [reflexivity|].
  rewrite IH by (intros o Ho; apply H; now right).
  destruct (is_rate_limit_line l) eqn:E.
  - rewrite sync_line_rate_limit by exact E.
    rewrite (H l (or_introl eq_refl) E). reflexivity.
  - now destruct (sync_line_other l w E).
Qed.

End V2Sync.

(** ** C7: the place of the rate-limit test *)

Section Priority.

(** C7, amended.  In the archived controller the loop body is one chain
    with the rate-limit test first: a line containing [Rate limit reached]
    sets the rate-limit flag and is logged, and the total, the processed
    count and the skip list are unchanged.  In the controller in use the
    rate-limit test is a statement of its own after the chain: a line
    containing [rate limit] or [throttle] in any case sets the flag,
    whichever branch of the chain handled the line before. *)
Theorem C7_rate_limit_test :
  (forall output w,
      V2.is_rate_limit_line output = true ->
      let w' := V2.sync_line output w in
      V2.rate_limit_detected w' = true
      /\ V2.app w' = V2.app w
      /\ V2.failed_notes w' = V2.failed_notes w
      /\ V2.out w'
         = (V2.out w ++ [V2.queue_log ("[SYNC-LIMIT] " ++ Py.strip output)])%list)
  /\ (forall output w,
        output <> "" ->
        Py.contains "rate limit" (Py.lower (Py.strip output))
          || Py.contains "throttle" (Py.lower (Py.strip output)) = true ->
        Exe.rate_limit_detected (Exe.sync_line output w) = true).
Proof.
  split.
  - intros output w H. cbn zeta. rewrite (sync_line_rate_limit output w H).
    destruct (V2.parsed_wait output); repeat split.
  - intros output w Hne H. unfold Exe.sync_line.
    destruct (String.eqb_spec output ""); [contradiction|].
    rewrite H. reflexivity.
Qed.

End Priority.

Lemma C7_witness :
V2.failed_notes
  (V2.sync_line "Rate limit reached. Failed to download note x" thread0) = []
/\ Exe.rate_limit_detected
     (Exe.sync_line "Throttle: Rate Limit" worker0) = true.
Proof.
split.
- refine (proj1 (proj2 (proj2
    (proj1 C7_rate_limit_test
       "Rate limit reached. Failed to download note x" thread0 _)))).
  reflexivity.
- refine (proj2 C7_rate_limit_test "Throttle: Rate Limit" worker0 _ _).
  + discriminate.
  + reflexivity.
Defined.

(** The claim as stated fails in the controller in use: this line carries the
  rate-limit marker and the flag is set, yet the chain has also taken it as
  an ignorable error and appended it to the skip list. *)
Lemma C7_counterexample :
Py.contains "rate limit" (Py.lower "Rate limit: PERMISSION_DENIED") = true
/\ Exe.rate_limit_detected
     (Exe.sync_line "Rate limit: PERMISSION_DENIED" worker0) = true
/\ Exe.failed_notes (Exe.sync_line "Rate limit: PERMISSION_DENIED" worker0)
   = ["Rate limit: PERMISSION_DENIED"].
Proof. repeat split. Qed.

(** ** C1 and C10: the wait duration and what the controller does with it *)

Section WaitDuration.

Import V2.

Lemma search_skip {A} (m : string -> option A) c t :
  m (String c t) = None -> Py.search m (String c t) = Py.search m t.
Proof. intros H. simpl. now rewrite H. Qed.

Lemma rev_not_empty s : s <> "" -> Py.rev s <> "".
Proof.
  destruct s as [|c s]; [congruence|]. intros _ H.
  rewrite rev_cons in H. destruct (Py.rev s); discriminate.
Qed.

(** The pattern on the numerals of [mm] and [ss]. *)
Lemma match_restart_numerals mm ss :
  0 <= mm -> 0 <= ss ->
  match_restart ("Restart program in " ++ Py.str mm ++ ":" ++ Py.str ss)
  = Some (mm, ss).
Proof.
  intros Hm Hs. unfold match_restart. rewrite strip_prefix_app.
  rewrite span_app; [|now apply all_digits_str|reflexivity].
  destruct (str_nonempty mm Hm) as (c & t & E). rewrite E at 1.
  cbn [append Ascii.eqb Bool.eqb]. cbn match.
  rewrite <- (append_empty_r (Py.str ss)) at 1.
  rewrite span_app; [|now apply all_digits_str|reflexivity].
  destruct (str_nonempty ss Hs) as (c' & t' & E'). rewrite E' at 1.
  now rewrite !int_str.
Qed.

Lemma rate_limit_message_strip mm ss :
  0 <= ss ->
  Py.strip ("Rate limit reached. Restart program in "
              ++ Py.str mm ++ ":" ++ Py.str ss)
  = "Rate limit reached. Restart program in " ++ Py.str mm ++ ":" ++ Py.str ss.
Proof.
  intros Hs.
  set (line := "Rate limit reached. Restart program in "
                 ++ Py.str mm ++ ":" ++ Py.str ss).
  rewrite <- (append_empty_r line) at 1.
  apply (strip_padded "" "" line); try reflexivity.
  subst line.
  replace ("Rate limit reached. Restart program in " ++ Py.str mm ++ ":" ++ Py.str ss)
    with (("Rate limit reached. Restart program in " ++ Py.str mm ++ ":") ++ Py.str ss)
    by (rewrite !append_assoc; reflexivity).
  rewrite rev_app. apply stops_space_digits.
  - rewrite all_rev. now apply all_digits_str.
  - apply rev_not_empty. destruct (str_nonempty ss Hs) as (c & t & ->).
    discriminate.
Qed.

(** The tool's message with the numerals of [mm] and [ss] is a rate-limit
    line whose token parses to [mm * 60 + ss]. *)
Lemma rate_limit_message_parsed mm ss :
  0 <= mm -> 0 <= ss ->
  let output := "Rate limit reached. Restart program in "
                  ++ Py.str mm ++ ":" ++ Py.str ss in
  is_rate_limit_line output = true
  /\ parsed_wait output = Some (mm * 60 + ss).
Proof.
  intros Hm Hs output. subst output.
  unfold is_rate_limit_line, parsed_wait.
  rewrite rate_limit_message_strip by assumption. split.
  - apply andb_true_iff. split; [reflexivity|].
    apply contains_here.
    exact (startswith_app "Rate limit reached"
             (". Restart program in " ++ Py.str mm ++ ":" ++ Py.str ss)).
  - change ("Rate limit reached. Restart program in " ++ Py.str mm ++ ":" ++ Py.str ss)
      with ("Rate limit reached. "
              ++ ("Restart program in " ++ Py.str mm ++ ":" ++ Py.str ss)).
    cbn [append].
    repeat (rewrite search_skip by reflexivity).
    rewrite (search_here match_restart _ (mm, ss)); [reflexivity|].
    now apply match_restart_numerals.
Qed.

(** What [_backup_task] does once the stream has ended with the flag set
    and no usable wait: a warning, and the end of the job. *)
Lemma backup_task_without_wait r w0 :
  let w := sync_loop (sync r) (begin_sync w0) in
  rate_limit_detected w = true ->
  truthy (wait_time w) = None ->
  out (_backup_task r w0)
  = (out w ++ [after0 _backup_ui_rate_limit; dialog rate_limit_warning;
               after0 _backup_ui_finish; after0 _backup_ui_finish])%list
  /\ timers (_backup_task r w0) = timers w0
  /\ app (_backup_task r w0) = app w.
Proof.
  intros w Hdet Hwait. unfold _backup_task. fold w. rewrite Hdet.
  unfold _handle_rate_limit. cbn [wait_time emit]. rewrite Hwait.
  cbn [out emit timers app]. rewrite <- !app_assoc.
  split; [reflexivity|]. split; [|reflexivity].
  subst w. now destruct (sync_loop_timers (sync r) (begin_sync w0)).
Qed.

(** C1, amended.  (1) A rate-limit line whose token matches with groups
    [mm] and [ss] sets the wait to [60 * mm + ss]; the tool's message with
    the numerals of [mm] and [ss] is such a line.  (2) When the sync stream
    has a rate-limit line and none of its rate-limit lines carries a token
    that matches, the wait is absent at the end of the stream, and the
    controller shows the warning and ends the job: no question is asked, no
    timer is created and no retry is started. *)
Theorem C1_wait_duration :
  (forall output w mm ss,
      is_rate_limit_line output = true ->
      Py.search match_restart (Py.strip output) = Some (mm, ss) ->
      wait_time (sync_line output w) = Some (60 * mm + ss))
  /\ (forall mm ss w,
        0 <= mm -> 0 <= ss ->
        wait_time (sync_line ("Rate limit reached. Restart program in "
                                ++ Py.str mm ++ ":" ++ Py.str ss) w)
        = Some (60 * mm + ss))
  /\ (forall r a ts t,
        existsb is_rate_limit_line (sync r) = true ->
        (forall o, In o (sync r) -> is_rate_limit_line o = true ->
                   Py.search match_restart (Py.strip o) = None) ->
        let w := sync_loop (sync r) (begin_sync (fresh a ts t)) in
        wait_time w = None
        /\ out (_backup_task r (fresh a ts t))
           = (out w ++ [after0 _backup_ui_rate_limit; dialog rate_limit_warning;
                        after0 _backup_ui_finish; after0 _backup_ui_finish])%list
        /\ timers (_backup_task r (fresh a ts t)) = ts).
Proof.
  split; [|split].
  - intros output w mm ss H Hm.
    rewrite sync_line_rate_limit by exact H.
    unfold parsed_wait. rewrite Hm.
    cbn [wait_time emit set_wait_time]. f_equal. lia.
  - intros mm ss w Hm Hs.
    destruct (rate_limit_message_parsed mm ss Hm Hs) as [H1 H2].
    rewrite sync_line_rate_limit by exact H1. rewrite H2.
    cbn [wait_time emit set_wait_time]. f_equal. lia.
  - intros r a ts t Hex Hnone w.
    assert (Hw : wait_time w = None).
    { subst w. rewrite sync_loop_wait_none; [reflexivity|].
      intros o Ho Hrl. unfold parsed_wait. now rewrite (Hnone o Ho Hrl). }
    split; [exact Hw|].
    destruct (backup_task_without_wait r (fresh a ts t)) as (Hout & Hts & _).
    + rewrite sync_loop_detected, Hex. reflexivity.
    + fold w. now rewrite Hw.
    + split; [exact Hout | exact Hts].
Qed.

(** C10, amended.  What counts is the wait known at the end of the sync
    stream, which is the one of the last rate-limit line whose token
    matches.  When that line carries a token of zero seconds, the wait at
    the end of the stream is zero, [_handle_rate_limit] does with it what it
    does with an absent wait whatever the answer would be, and the job shows
    the warning and ends: no question is asked, no timer is created and no
    retry is started. *)
Theorem C10_zero_wait_as_absent
    (r : Run) (a : App) (ts : list Timer) (t : Z)
    (before after : list string) (o : string) :
  sync r = (before ++ o :: after)%list ->
  is_rate_limit_line o = true ->
  parsed_wait o = Some 0 ->
  (forall o', In o' after -> is_rate_limit_line o' = true ->
              parsed_wait o' = None) ->
  let w := sync_loop (sync r) (begin_sync (fresh a ts t)) in
  wait_time w = Some 0
  /\ (forall answer v, _handle_rate_limit (wait_time w) answer v
                       = _handle_rate_limit None answer v)
  /\ out (_backup_task r (fresh a ts t))
     = (out w ++ [after0 _backup_ui_rate_limit; dialog rate_limit_warning;
                  after0 _backup_ui_finish; after0 _backup_ui_finish])%list
  /\ timers (_backup_task r (fresh a ts t)) = ts.
Proof.
  intros Hs Hrl Hp Hafter w.
  assert (Hwait : wait_time w = Some 0).
  { subst w. rewrite Hs. unfold sync_loop. rewrite fold_left_app.
    cbn [fold_left].
    change (wait_time (sync_loop after
              (sync_line o (sync_loop before (begin_sync (fresh a ts t)))))
            = Some 0).
    rewrite sync_loop_wait_none by exact Hafter.
    rewrite sync_line_rate_limit by exact Hrl. rewrite Hp. reflexivity. }
  assert (Hdet : rate_limit_detected w = true).
  { subst w. rewrite sync_loop_detected, Hs, existsb_app.
    cbn [existsb]. rewrite Hrl. cbn [orb]. now rewrite orb_true_r. }
  split; [exact Hwait|]. split; [now rewrite Hwait|].
  destruct (backup_task_without_wait r (fresh a ts t)) as (Hout & Hts & _).
  - exact Hdet.
  - fold w. now rewrite Hwait.
  - split; [exact Hout | exact Hts].
Qed.

End WaitDuration.

Lemma C1_witness :
V2.wait_time
  (V2.sync_line "Rate limit reached. Restart program in 2:05
" thread0) = Some 125
/\ V2.wait_time
     (V2.sync_loop ["Rate limit reached
"] (V2.begin_sync (V2.fresh v2_app0 [] 0))) = None.
Proof.
split.
- refine (proj1 C1_wait_duration _ thread0 2 5 _ _); reflexivity.
- refine (proj1 (proj2 (proj2 C1_wait_duration)
                   (V2.mkRun ["Rate limit reached
"] 1 [] 0 (Some true)) v2_app0 [] 0 _ _)).
  + reflexivity.
  + intros o [<- | []] _. reflexivity.
Defined.

(** The claim as stated fails: the second line carries the marker and no
  token, yet the wait of the first line is still known at the end of the
  stream and the three-way question is asked. *)
Lemma C1_counterexample :
let r := V2.mkRun [ "Rate limit reached. Restart program in 2:05";
                    "Rate limit reached" ] 1 [] 0 None in
V2.is_rate_limit_line "Rate limit reached" = true
/\ Py.search V2.match_restart (Py.strip "Rate limit reached") = None
/\ V2.wait_time (V2.sync_loop (V2.sync r) (V2.begin_sync (V2.fresh v2_app0 [] 0)))
   = Some 125
/\ In (V2.dialog (V2.rate_limit_question 125))
      (V2.out (V2._backup_task r (V2.fresh v2_app0 [] 0))).
Proof.
cbn zeta. repeat split. vm_compute. tauto.
Qed.

Lemma C10_witness :
let zero := "Rate limit reached. Restart program in 0:00" in
let r := V2.mkRun [ "Rate limit reached. Restart program in 2:05";
                    zero; "Rate limit reached" ] 1 [] 0 (Some true) in
V2.is_rate_limit_line zero = true
/\ V2.parsed_wait zero = Some 0
/\ V2.wait_time (V2.sync_loop (V2.sync r) (V2.begin_sync (V2.fresh v2_app0 [] 0)))
   = Some 0
/\ V2.timers (V2._backup_task r (V2.fresh v2_app0 [] 0)) = [].
Proof.
cbn zeta. split; [reflexivity|]. split; [reflexivity|].
destruct (C10_zero_wait_as_absent
            (V2.mkRun [ "Rate limit reached. Restart program in 2:05";
                        "Rate limit reached. Restart program in 0:00";
                        "Rate limit reached" ] 1 [] 0 (Some true))
            v2_app0 [] 0
            ["Rate limit reached. Restart program in 2:05"]
            ["Rate limit reached"]
            "Rate limit reached. Restart program in 0:00")
  as (H1 & _ & _ & H4).
- reflexivity.
- reflexivity.
- reflexivity.
- intros o' [<- | []] _. reflexivity.
- split; [exact H1 | exact H4].
Defined.

(** The claim as stated fails twice.  A line with a token of zero seconds
  followed by a line with a token of 2:05: the wait at the end of the stream
  is 125, the three-way question is asked and, with the answer yes, a timer
  is created.  And a zero token is not handled as an absent one: after a
  line with 2:05, a line with 0:00 ends the job with the warning, while a
  line without token leaves the wait at 125 and the question is asked. *)
Lemma C10_counterexample :
let zero := "Rate limit reached. Restart program in 0:00" in
let later := "Rate limit reached. Restart program in 2:05" in
let start := V2.fresh v2_app0 [] 0 in
let r := V2.mkRun [zero; later] 1 [] 0 (Some true) in
let r0 := V2.mkRun [later; zero] 1 [] 0 (Some true) in
let r1 := V2.mkRun [later; "Rate limit reached"] 1 [] 0 (Some true) in
V2.is_rate_limit_line zero = true
/\ V2.parsed_wait zero = Some 0
/\ In (V2.dialog (V2.rate_limit_question 125)) (V2.out (V2._backup_task r start))
/\ length (V2.timers (V2._backup_task r start)) = 1%nat
/\ V2.wait_time (V2.sync_loop (V2.sync r0) (V2.begin_sync start)) = Some 0
/\ In (V2.dialog V2.rate_limit_warning) (V2.out (V2._backup_task r0 start))
/\ V2.wait_time (V2.sync_loop (V2.sync r1) (V2.begin_sync start)) = Some 125
/\ In (V2.dialog (V2.rate_limit_question 125)) (V2.out (V2._backup_task r1 start)).
Proof.
cbn zeta. repeat split; vm_compute; tauto.
Qed.

(** ** C9: a start request while a job is running *)

Section SingleJob.

(** C9.  In both controllers, [start_backup] called while [is_working] is
    true returns after a single dialog: the fields of the running job are
    unchanged, no confirmation is asked, no directory is created, no worker
    thread and no process is started, and nothing is queued.  When the user
    is logged in (and, in the controller in use, the executable is known)
    the dialog is the warning that a backup is already running. *)
Theorem C9_start_rejected_while_working
    (confirm : bool) (mkdir_error : option string)
    (a : Exe.App) (b : V2.App) :
  Exe.is_working a = true ->
  V2.is_working b = true ->
  (fst (Exe.start_backup confirm mkdir_error a) = a
   /\ (exists d, snd (Exe.start_backup confirm mkdir_error a) = [Exe.dialog d])
   /\ (Exe.evernote_exe a <> None -> Exe.is_logged_in a = true ->
       snd (Exe.start_backup confirm mkdir_error a)
       = [Exe.dialog (showwarning "진행 중" "이미 백업이 진행 중입니다.")]))
  /\ (fst (V2.start_backup confirm mkdir_error b) = b
      /\ (exists d, snd (V2.start_backup confirm mkdir_error b) = [V2.dialog d])
      /\ (V2.is_logged_in b = true ->
          snd (V2.start_backup confirm mkdir_error b)
          = [V2.dialog (showwarning "알림" "백업이 이미 진행 중입니다.")])).
Proof.
  intros Ha Hb. split.
  - unfold Exe.start_backup. rewrite Ha.
    destruct (Exe.evernote_exe a) as [e|], (Exe.is_logged_in a);
      cbn [negb fst snd]; repeat split; eauto; congruence.
  - unfold V2.start_backup. rewrite Hb.
    destruct (V2.is_logged_in b);
      cbn [negb fst snd]; repeat split; eauto; congruence.
Qed.

End SingleJob.

Lemma C9_witness :
Exe.is_working (Exe.app worker0) = true
/\ V2.is_working (V2.app thread0) = true
/\ Exe.start_backup true None (Exe.app worker0)
   = (Exe.app worker0,
      [Exe.dialog (showwarning "진행 중" "이미 백업이 진행 중입니다.")])
/\ V2.start_backup true None (V2.app thread0)
   = (V2.app thread0,
      [V2.dialog (showwarning "알림" "백업이 이미 진행 중입니다.")]).
Proof.
pose proof (C9_start_rejected_while_working true None
              (Exe.app worker0) (V2.app thread0) eq_refl eq_refl)
  as [(H1 & _ & H2) (H3 & _ & H4)].
split; [reflexivity|]. split; [reflexivity|]. split.
- rewrite (surjective_pairing (Exe.start_backup _ _ _)), H1, H2;
    [reflexivity | discriminate | reflexivity].
- rewrite (surjective_pairing (V2.start_backup _ _ _)), H3, H4; reflexivity.
Defined.

(** ** C2: the countdown and its timer *)

Section Countdown.

Import V2.

Lemma emit_all_out xs w : out (emit_all xs w) = (out w ++ xs)%list.
Proof.
  unfold emit_all. revert w.
  induction xs as [|x xs IH]; intros w; simpl; [now rewrite app_nil_r|].
  rewrite IH. cbn [emit out]. now rewrite <- app_assoc.
Qed.

Lemma emit_all_frame xs w :
  app (emit_all xs w) = app w /\ timers (emit_all xs w) = timers w.
Proof.
  unfold emit_all. revert w.
  induction xs as [|x xs IH]; intros w; simpl; [split; reflexivity|].
  destruct (IH (emit x w)) as [-> ->]. split; reflexivity.
Qed.

(** One tick: the two notifications, one new timer of one second. *)
Lemma countdown_tick original wait w :
  0 < wait ->
  out (countdown_update original wait w)
  = (out w ++ tick_callbacks original wait
           ++ [Timer_start (length (timers w))])%list
  /\ length (timers (countdown_update original wait w)) = S (length (timers w))
  /\ total_notes (app (countdown_update original wait w)) = total_notes (app w)
  /\ rate_limit_timer (app (countdown_update original wait w))
     = Some (length (timers w)).
Proof.
  intros Hw. unfold countdown_update. apply Z.ltb_lt in Hw. rewrite Hw.
  destruct (emit_all_frame (tick_callbacks original wait) w) as [Ha Ht].
  cbn [out emit on_app add_timer timers app]. rewrite emit_all_out, Ht, Ha.
  rewrite length_app, <- app_assoc. cbn [length].
  repeat split. lia.
Qed.

(** The end of the wait: the counters are reset and the worker restarted. *)
Lemma countdown_end original w :
  out (countdown_update original 0 w) = (out w ++ restart_actions)%list
  /\ total_notes (app (countdown_update original 0 w)) = 0
  /\ current_note (app (countdown_update original 0 w)) = 0
  /\ sync_phase (app (countdown_update original 0 w)) = "재시작".
Proof.
  unfold countdown_update, restart_actions, sleep_for.
  cbn [Z.ltb Z.compare out emit on_app app]. rewrite <- !app_assoc.
  repeat split.
Qed.

(** Left alone, the countdown from [n] seconds makes exactly [n] ticks, the
    [k]-th with [n - k] seconds remaining, then resets the counters and
    starts [_backup_task] again. *)
Lemma countdown_if_never_cancelled n : forall fuel original w,
  (n <= fuel)%nat ->
  let w' := countdown_uncancelled fuel original (Z.of_nat n) w in
  out w' = (out w ++ expected_ticks n original (Z.of_nat n) (length (timers w))
                  ++ restart_actions)%list
  /\ total_notes (app w') = 0 /\ current_note (app w') = 0.
Proof.
  induction n as [|n IH]; intros fuel original w Hfuel; cbn zeta.
  - destruct (countdown_end original w) as (Ho & Ht & Hc & _).
    destruct fuel; cbn [countdown_uncancelled Z.of_nat Z.ltb Z.compare];
      rewrite Ho; auto.
  - destruct fuel as [|fuel]; [lia|].
    assert (Hpos : 0 < Z.of_nat (S n)) by lia.
    cbn [countdown_uncancelled]. apply Z.ltb_lt in Hpos as Hb. rewrite Hb.
    replace (Z.of_nat (S n) - 1) with (Z.of_nat n) by lia.
    destruct (countdown_tick original (Z.of_nat (S n)) w Hpos)
      as (Ho & Hl & _ & _).
    destruct (IH fuel original
                (at_expiry (countdown_update original (Z.of_nat (S n)) w)))
      as (Ho' & Ht' & Hc'); [lia|].
    cbn zeta in Ho'. rewrite Ho'. cbn [at_expiry out timers].
    rewrite Ho, Hl. cbn [expected_ticks].
    replace (Z.of_nat (S n) - 1) with (Z.of_nat n) by lia.
    rewrite <- !app_assoc. auto.
Qed.

Lemma expected_ticks_timers n original wait id :
  length (filter (fun x => match x with Timer_start _ => true | _ => false end)
                 (expected_ticks n original wait id)) = n.
Proof.
  revert wait id. induction n as [|n IH]; intros wait id; [reflexivity|].
  cbn [expected_ticks]. rewrite !filter_app, !length_app, IH. reflexivity.
Qed.

(** [_backup_ui_finish] cancels the timer [rate_limit_timer] refers to. *)
Lemma cancel_not_pending id ts t :
  nth_error ts id = Some t ->
  exists t', nth_error (cancel id ts) id = Some t' /\ pending t' = false.
Proof.
  revert id. induction ts as [|u ts IH]; intros [|id] H; try discriminate.
  - simpl. eexists. split; [reflexivity|]. reflexivity.
  - simpl in *. apply IH, H.
Qed.

Lemma finish_cancels_timer a ts id t :
  rate_limit_timer a = Some id -> nth_error ts id = Some t ->
  let '(a', ts', _) := run_callback _backup_ui_finish a ts in
  rate_limit_timer a' = None /\ is_working a' = false
  /\ exists t', nth_error ts' id = Some t' /\ pending t' = false.
Proof.
  intros Ha Ht. cbn [run_callback]. rewrite Ha.
  repeat split. now apply (cancel_not_pending id ts t).
Qed.

Lemma simulate_add n m x : simulate (n + m) x = simulate m (simulate n x).
Proof.
  revert x. induction n as [|n IH]; intros x; simpl; [reflexivity|].
  destruct (step x) eqn:E; [apply IH|].
  destruct m; simpl; [reflexivity|]. now rewrite E.
Qed.

Lemma simulate_stable n x : step x = None -> simulate n x = x.
Proof. intros H. destruct n; simpl; [reflexivity|]. now rewrite H. Qed.

End Countdown.

(** C2 at its failing input.  After scenario B, however long the threads are
  left to run: one tick has been shown (02:05 remaining, 00:00 elapsed); the
  only timer ever created, due one second later with 124 seconds left, has
  been cancelled by the [_backup_ui_finish] that the [finally] clause of
  [_backup_task] queued; nothing is left to run; [_backup_task] has been
  started once and the sync command launched once; [is_working] is false. *)
Theorem C2_countdown_cancelled_after_first_tick (extra : nat) :
let x := V2.simulate (9 + extra) (V2.job v2_app0 [scenario_B; scenario_B]) in
V2.step x = None
/\ V2.ticks x = 1%nat
/\ In (progress_detail "⏰ 대기 중: 02:05") (V2.shown x)
/\ In (progress_numbers "⏰ 경과시간: 00:00") (V2.shown x)
/\ V2.w_timers x = [V2.mkTimer 1000 124 125 true false]
/\ V2.started x = 1%nat
/\ V2.launched x = [V2.cmd_sync v2_app0]
/\ V2.runs x = [scenario_B]
/\ V2.is_working (V2.w_app x) = false.
Proof.
cbn zeta. rewrite simulate_add.
set (x := V2.simulate 9 (V2.job v2_app0 [scenario_B; scenario_B])).
assert (Hq : V2.step x = None) by (vm_compute; reflexivity).
rewrite (simulate_stable extra x Hq).
split; [exact Hq|]. vm_compute. intuition.
Qed.

(** What the countdown of scenario B would do if its timers were left alone:
  125 ticks, then the restart with the counters at zero. *)
Example scenario_B_uncancelled :
let w := V2.countdown_uncancelled 125 125 125 thread0 in
length (filter (fun x => match x with V2.Timer_start _ => true | _ => false end)
               (V2.out w)) = 125%nat
/\ last (V2.out w) (V2.sleep 0) = V2.Thread_start_backup_task
/\ V2.total_notes (V2.app w) = 0 /\ V2.current_note (V2.app w) = 0.
Proof. vm_compute. repeat split. Qed.

(** ** The archived controller on the same claims *)

Section V2Outcome.

Import V2.

Lemma v2_verdicts_app xs ys :
  verdicts (xs ++ ys) = (verdicts xs ++ verdicts ys)%list.
Proof. apply filter_app. Qed.

Lemma v2_launched_app xs ys :
  launched_by (xs ++ ys) = (launched_by xs ++ launched_by ys)%list.
Proof. apply flat_map_app. Qed.

Ltac v2_frame_out :=
  cbn [out emit on_app append_failed set_rate_limit_detected set_wait_time];
  rewrite ?v2_verdicts_app, ?v2_launched_app;
  cbn [verdicts launched_by filter flat_map is_verdict];
  rewrite ?app_nil_r; try reflexivity.

Lemma v2_sync_line_frame output w :
  verdicts (out (sync_line output w)) = verdicts (out w)
  /\ launched_by (out (sync_line output w)) = launched_by (out w).
Proof. unfold sync_line. split_ifs; split; v2_frame_out. Qed.

Lemma v2_sync_loop_frame lines w :
  verdicts (out (sync_loop lines w)) = verdicts (out w)
  /\ launched_by (out (sync_loop lines w)) = launched_by (out w).
Proof.
  unfold sync_loop. revert w.
  induction lines as [|l lines IH]; intros w; simpl; [split; reflexivity|].
  destruct (IH (sync_line l w)) as [-> ->]. apply v2_sync_line_frame.
Qed.

(** The archived controller does what C3 says: a sync process that ends
    with a non-zero exit code, no rate-limit line having been seen, ends
    the job with the error verdict; only the sync command has been
    launched; the callback sets the status line with level [error]. *)
Lemma v2_sync_failure r a ts t :
  existsb is_rate_limit_line (sync r) = false ->
  sync_rc r <> 0 ->
  let w := _backup_task r (fresh a ts t) in
  verdicts (out w) = [after0 (_backup_ui_error "동기화에 실패했습니다")]
  /\ launched_by (out w) = [cmd_sync a]
  /\ In (status_label "백업 실패" error)
        (snd (run_callback (_backup_ui_error "동기화에 실패했습니다") (app w) (timers w))).
Proof.
  intros Hno Hrc. cbn zeta. unfold _backup_task.
  rewrite sync_loop_detected, Hno. cbn [orb begin_sync fresh rate_limit_detected
    on_app emit].
  apply Z.eqb_neq in Hrc. rewrite Hrc. cbn [negb].
  unfold raise_exception. cbn [out emit].
  rewrite !v2_verdicts_app, !v2_launched_app.
  match goal with
  | |- context [sync_loop ?l ?w0] =>
      destruct (v2_sync_loop_frame l w0) as [-> ->]
  end.
  repeat split. simpl. auto.
Qed.

(** Choosing the automatic wait leaves one new timer behind, referred to by
    [rate_limit_timer], and the [finally] clause queues
    [_backup_ui_finish] after it. *)
Lemma auto_wait_then_finish r w0 wait :
  let w := sync_loop (sync r) (begin_sync w0) in
  rate_limit_detected w = true ->
  wait_time w = Some wait -> 0 < wait ->
  choice r = Some true ->
  let done := _backup_task r w0 in
  rate_limit_timer (app done) = Some (length (timers w0))
  /\ timers done
     = (timers w0 ++ [mkTimer (clock w0 + 1000) (wait - 1) wait false false])%list
  /\ last (out done) (sleep 0) = after0 _backup_ui_finish.
Proof.
  intros w Hdet Hwait Hpos Hyes done. subst done.
  unfold _backup_task. fold w. rewrite Hdet, Hwait, Hyes.
  unfold _handle_rate_limit, truthy.
  assert (Hz : (wait =? 0) = false) by (apply Z.eqb_neq; lia). rewrite Hz.
  unfold _auto_wait_and_retry, countdown_update.
  apply Z.ltb_lt in Hpos. rewrite Hpos.
  destruct (sync_loop_timers (sync r) (begin_sync w0)) as [Ht Hc].
  fold w in Ht, Hc. cbn [begin_sync on_app emit timers clock] in Ht, Hc.
  cbn [out emit on_app add_timer timers app clock set_rate_limit_timer
       rate_limit_timer].
  match goal with
  | |- context [emit_all ?xs ?v] =>
      destruct (emit_all_frame xs v) as [Ha Hts];
      assert (Hck : clock (emit_all xs v) = clock v)
        by (unfold emit_all; simpl; reflexivity)
  end.
  rewrite Hts, Hck. cbn [timers clock emit]. rewrite Ht, Hc.
  repeat split. apply last_last.
Qed.

End V2Outcome.

(** The archived controller reads another wording of the announcement. *)
Example v2_total_count_wording :
V2.total_notes (V2.app (V2.sync_line "381 note(s) to download..." thread0)) = 381
/\ V2.total_notes (V2.app (V2.sync_line "381 notes to download" thread0)) = 0.
Proof. split; reflexivity. Qed.

(** In the sync phase of the archived controller a second, smaller
  announcement leaves the processed count above the total. *)
Example v2_sync_second_announcement :
let w := V2.sync_loop [ "3 note(s) to download"; "note a"; "note b"; "note c";
                        "1 note(s) to download" ] thread0 in
V2.total_notes (V2.app w) = 1 /\ V2.current_note (V2.app w) = 3.
Proof. split; reflexivity. Qed.

(** The detail of a failed export in the archived controller is a fixed
  text. *)
Example v2_export_failure_detail :
V2.verdicts (V2.out (V2._backup_task (V2.mkRun [] 0 [] 1 None) thread0))
= [V2.after0 (V2._backup_ui_error "내보내기에 실패했습니다")].
Proof. reflexivity. Qed.

(** ** The automatic wait, for every stream that leads to it *)

Section AutoWait.

Import V2.

Lemma absorb_frame acts x :
  w_app (absorb acts x) = w_app x
  /\ w_timers (absorb acts x) = w_timers x
  /\ now (absorb acts x) = now x
  /\ runs (absorb acts x) = runs x
  /\ started (absorb acts x) = started x
  /\ ui_queue (absorb acts x) = (ui_queue x ++ callbacks_of acts)%list
  /\ to_start (absorb acts x) = (to_start x + length (restarts acts))%nat.
Proof.
  revert x. induction acts as [|act acts IH]; intros x.
  - cbn. rewrite app_nil_r. repeat split. lia.
  - cbn [absorb].
    match goal with |- context [absorb acts ?y] =>
      destruct (IH y) as (-> & -> & -> & -> & -> & -> & ->) end.
    destruct act;
      cbn [w_app w_timers now runs started ui_queue to_start callbacks_of
           restarts flat_map filter is_thread_start length];
      rewrite <- ?app_assoc; cbn [app length]; repeat split;
      unfold restarts; lia.
Qed.

Lemma restarts_app xs ys : restarts (xs ++ ys) = (restarts xs ++ restarts ys)%list.
Proof. apply filter_app. Qed.

Lemma sync_line_restarts output w :
  restarts (out (sync_line output w)) = restarts (out w).
Proof.
  unfold sync_line. split_ifs;
    cbn [out emit on_app append_failed set_rate_limit_detected set_wait_time];
    rewrite ?restarts_app; cbn [restarts filter is_thread_start];
    rewrite ?app_nil_r; reflexivity.
Qed.

Lemma sync_loop_restarts lines w :
  restarts (out (sync_loop lines w)) = restarts (out w).
Proof.
  unfold sync_loop. revert w.
  induction lines as [|l lines IH]; intros w; simpl; [reflexivity|].
  now rewrite IH, sync_line_restarts.
Qed.

(** A worker that takes the automatic wait queues its callbacks, the last one
    being [_backup_ui_finish], and starts no thread. *)
Lemma auto_wait_actions r a wait :
  let w := sync_loop (sync r) (begin_sync (fresh a [] 0)) in
  rate_limit_detected w = true ->
  wait_time w = Some wait -> 0 < wait ->
  choice r = Some true ->
  let done := _backup_task r (fresh a [] 0) in
  restarts (out done) = []
  /\ exists cbs, callbacks_of (out done) = (cbs ++ [_backup_ui_finish])%list.
Proof.
  intros w Hdet Hwait Hpos Hyes done. subst done.
  unfold _backup_task. fold w. rewrite Hdet, Hwait, Hyes.
  match goal with
  | |- context [emit (after0 _backup_ui_finish) ?v] =>
      change (out (emit (after0 _backup_ui_finish) v))
        with (out v ++ [after0 _backup_ui_finish])%list;
      set (handled := v)
  end.
  split.
  - rewrite restarts_app. cbn [restarts filter is_thread_start].
    rewrite app_nil_r. subst handled.
    unfold _handle_rate_limit, truthy.
    assert (Hz : (wait =? 0) = false) by (apply Z.eqb_neq; lia). rewrite Hz.
    unfold _auto_wait_and_retry, countdown_update.
    apply Z.ltb_lt in Hpos. rewrite Hpos.
    cbn [out emit on_app add_timer]. rewrite emit_all_out.
    cbn [out emit]. rewrite !restarts_app. subst w.
    rewrite sync_loop_restarts. reflexivity.
  - exists (callbacks_of (out handled)).
    unfold callbacks_of. rewrite flat_map_app. reflexivity.
Qed.

Lemma callback_guarded t cb x a ts ui :
  guarded t x ->
  run_callback cb (w_app x) (w_timers x) = (a, ts, ui) ->
  exists c, ts = [mkTimer (due t) (wait_seconds t) (original_wait_seconds t) c false]
            /\ (c = true \/ rate_limit_timer a = Some 0%nat)
            /\ (cb = _backup_ui_finish -> c = true /\ is_working a = false).
Proof.
  intros (c & Hts & Hc) Hrun. rewrite Hts in Hrun.
  destruct cb; cbn [run_callback] in Hrun;
    try (injection Hrun as <- <- _; exists c; repeat split; auto; discriminate).
  - destruct Hc as [-> | Href].
    + destruct (rate_limit_timer (w_app x)) as [[|id]|];
        injection Hrun as <- <- _; exists true; cbn; repeat split; auto.
      now destruct id.
    + rewrite Href in Hrun. injection Hrun as <- <- _. exists true. cbn.
      repeat split; auto.
  - destruct (0 <? total_notes (w_app x));
      injection Hrun as <- <- _; exists c; repeat split; auto; discriminate.
Qed.

Lemma step_queue x cb q :
  ui_queue x = cb :: q ->
  step x
  = Some (let '(a, ts, ui) := run_callback cb (w_app x) (w_timers x) in
          mkWorld a ts (now x) q (to_start x) (runs x) (started x)
                  (launched x) (shown x ++ ui)).
Proof.
  unfold step. intros ->.
  now destruct (run_callback cb (w_app x) (w_timers x)) as [[a ts] ui].
Qed.

(** The interface thread running a queue that ends with
    [_backup_ui_finish]: afterwards the timer is cancelled and nothing is
    left to run. *)
Lemma drain_to_finish t cbs : forall x,
  guarded t x -> to_start x = 0%nat ->
  ui_queue x = (cbs ++ [_backup_ui_finish])%list ->
  let y := simulate (S (length cbs)) x in
  step y = None
  /\ w_timers y = [mkTimer (due t) (wait_seconds t) (original_wait_seconds t)
                           true false]
  /\ is_working (w_app y) = false
  /\ started y = started x /\ runs y = runs x.
Proof.
  induction cbs as [|cb cbs IH]; intros x Hg Hs Hq; cbn zeta.
  - cbn [length simulate]. rewrite (step_queue x _ _ Hq).
    destruct (run_callback _backup_ui_finish (w_app x) (w_timers x))
      as [[a ts] ui] eqn:E.
    destruct (callback_guarded t _ x a ts ui Hg E) as (c & -> & _ & Hfin).
    destruct (Hfin eq_refl) as [-> Hw].
    unfold step. cbn [ui_queue to_start w_timers next_timer pending cancelled
                      fired negb andb w_app started runs]. rewrite Hs.
    repeat split; assumption.
  - cbn [length]. cbn [simulate]. rewrite (step_queue x _ _ Hq).
    destruct (run_callback cb (w_app x) (w_timers x)) as [[a ts] ui] eqn:E.
    destruct (callback_guarded t _ x a ts ui Hg E) as (c & -> & Hc & _).
    match goal with |- context [match step ?x' with _ => _ end] =>
      destruct (IH x') as (H1 & H2 & H3 & H4 & H5) end.
    + exists c. cbn [w_timers w_app]. auto.
    + exact Hs.
    + reflexivity.
    + cbn zeta in *. cbn [simulate] in H1, H2, H3, H4, H5.
      cbn [started runs] in H4, H5. repeat split; assumption.
Qed.

(** For every sync stream that ends with the rate-limit flag set and a known
    positive wait, and the answer yes: the threads come to rest with the only
    timer cancelled before it fired; the countdown has not gone past its
    first tick and [_backup_task] has not been started again. *)
Lemma auto_wait_is_cancelled r rs a wait :
  let w := sync_loop (sync r) (begin_sync (fresh a [] 0)) in
  rate_limit_detected w = true ->
  wait_time w = Some wait -> 0 < wait ->
  choice r = Some true ->
  exists fuel,
    let x := simulate fuel (job a (r :: rs)) in
    step x = None
    /\ w_timers x = [mkTimer 1000 (wait - 1) wait true false]
    /\ started x = 1%nat /\ runs x = rs
    /\ is_working (w_app x) = false.
Proof.
  intros w Hdet Hwait Hpos Hyes.
  destruct (auto_wait_then_finish r (fresh a [] 0) wait Hdet Hwait Hpos Hyes)
    as (Href & Hts & _).
  destruct (auto_wait_actions r a wait Hdet Hwait Hpos Hyes) as (Hre & cbs & Hcbs).
  exists (S (S (length cbs))).
  cbn zeta. change (simulate (S (S (length cbs))) (job a (r :: rs)))
    with (simulate (S (length cbs))
            (run_thread (_backup_task r)
               (mkWorld a [] 0 [] 0 rs 1 [] []))).
  unfold run_thread. cbn [w_app w_timers now ui_queue to_start runs started
                          launched shown].
  set (done := _backup_task r (fresh a [] 0)) in *.
  set (x0 := mkWorld (app done) (timers done) (clock done) [] 0 rs 1 [] []).
  destruct (absorb_frame (out done) x0) as (Ha & Ht & _ & Hr & Hst & Hq & Hto).
  destruct (drain_to_finish (mkTimer 1000 (wait - 1) wait false false) cbs
              (absorb (out done) x0)) as (H1 & H2 & H3 & H4 & H5).
  - exists false. rewrite Ht, Ha. subst x0. cbn [w_timers w_app].
    rewrite Hts, Href. cbn. auto.
  - rewrite Hto, Hre. reflexivity.
  - rewrite Hq, Hcbs. reflexivity.
  - cbn zeta in *. rewrite Hst in H4. rewrite Hr in H5.
    repeat split; assumption.
Qed.

End AutoWait.

(** * Further properties of the two controllers *)

(** ** The export loop counts progress lines up to the total *)

Section ExportCount.

Lemma exe_export_line_step output w :
  Exe.current_note (Exe.app (Exe.export_line output w))
  = if ExeStream.is_export_progress output && (0 <? Exe.total_notes (Exe.app w))
    then Z.min (Exe.current_note (Exe.app w) + 1) (Exe.total_notes (Exe.app w))
    else Exe.current_note (Exe.app w).
Proof.
  unfold Exe.export_line, ExeStream.is_export_progress.
  destruct (String.eqb output ""); [reflexivity|].
  cbn [negb andb Exe.emit Exe.app].
  destruct (Py.contains "export" (Py.lower (Py.strip output))
            || Py.contains "file" (Py.lower (Py.strip output))); [|reflexivity].
  cbn [andb]. destruct (0 <? Exe.total_notes (Exe.app w)); reflexivity.
Qed.

Lemma exe_export_loop_count lines : forall w,
  0 < Exe.total_notes (Exe.app w) ->
  0 <= Exe.current_note (Exe.app w) <= Exe.total_notes (Exe.app w) ->
  Exe.current_note (Exe.app (Exe.export_loop lines w))
  = Z.min (Exe.current_note (Exe.app w)
           + Z.of_nat (length (filter ExeStream.is_export_progress lines)))
          (Exe.total_notes (Exe.app w)).
Proof.
  unfold Exe.export_loop.
  induction lines as [|l lines IH]; intros w Hpos Hc; cbn [fold_left filter].
  - cbn. lia.
  - rewrite IH; rewrite ?export_line_total, ?exe_export_line_step; try assumption.
    + apply Z.ltb_lt in Hpos as Hb. rewrite Hb, andb_true_r.
      destruct (ExeStream.is_export_progress l); cbn [length]; lia.
    + apply Z.ltb_lt in Hpos as Hb. rewrite Hb, andb_true_r.
      destruct (ExeStream.is_export_progress l); lia.
Qed.

Lemma exe_export_loop_unknown lines : forall w,
  Exe.total_notes (Exe.app w) <= 0 ->
  Exe.current_note (Exe.app (Exe.export_loop lines w))
  = Exe.current_note (Exe.app w).
Proof.
  unfold Exe.export_loop.
  induction lines as [|l lines IH]; intros w Hz; cbn [fold_left]; [reflexivity|].
  rewrite IH by (now rewrite export_line_total).
  rewrite exe_export_line_step.
  assert (Hb : (0 <? Exe.total_notes (Exe.app w)) = false) by (apply Z.ltb_ge; lia).
  now rewrite Hb, andb_false_r.
Qed.

(** At the end of the export phase of the controller in use, the processed
  count is the number of export lines that mention [export] or [file] in any
  case, cut at the total; it is 0 when the total is unknown. *)
Theorem exe_export_phase_count (a : Exe.App) (sync export : list string) :
  let before := Exe.begin_export (Exe.sync_loop sync (Exe.begin_sync a)) in
  let total := Exe.total_notes (Exe.app before) in
  Exe.current_note (Exe.app (Exe.export_loop export before))
  = if 0 <? total
    then Z.min (Z.of_nat (length (filter ExeStream.is_export_progress export))) total
    else 0.
Proof.
  cbn zeta.
  set (before := Exe.begin_export (Exe.sync_loop sync (Exe.begin_sync a))).
  assert (Hc : Exe.current_note (Exe.app before) = 0).
  { subst before. unfold Exe.begin_export.
    destruct (Exe.failed_notes (Exe.sync_loop sync (Exe.begin_sync a))); reflexivity. }
  destruct (0 <? Exe.total_notes (Exe.app before)) eqn:E.
  - apply Z.ltb_lt in E. rewrite exe_export_loop_count by lia. now rewrite Hc.
  - apply Z.ltb_ge in E. now rewrite exe_export_loop_unknown.
Qed.

End ExportCount.

Section V2ExportCount.

Lemma v2_export_line_step output w :
  V2.current_note (V2.app (V2.export_line output w))
  = if V2Stream.is_export_progress output && (0 <? V2.total_notes (V2.app w))
    then Z.min (V2.current_note (V2.app w) + 1) (V2.total_notes (V2.app w))
    else V2.current_note (V2.app w).
Proof.
  unfold V2.export_line, V2Stream.is_export_progress.
  destruct (String.eqb output ""); [reflexivity|].
  cbn [negb andb V2.emit V2.app].
  destruct (Py.contains "export" (Py.lower (Py.strip output))
            || Py.contains "file" (Py.lower (Py.strip output))); [|reflexivity].
  cbn [andb]. destruct (0 <? V2.total_notes (V2.app w)); reflexivity.
Qed.

Lemma v2_export_loop_total lines w :
  V2.total_notes (V2.app (V2.export_loop lines w)) = V2.total_notes (V2.app w).
Proof.
  unfold V2.export_loop. revert w.
  induction lines as [|l lines IH]; intros w; simpl; [reflexivity|].
  now rewrite IH, v2_export_line_total.
Qed.

Lemma v2_export_loop_count lines : forall w,
  0 < V2.total_notes (V2.app w) ->
  0 <= V2.current_note (V2.app w) <= V2.total_notes (V2.app w) ->
  V2.current_note (V2.app (V2.export_loop lines w))
  = Z.min (V2.current_note (V2.app w)
           + Z.of_nat (length (filter V2Stream.is_export_progress lines)))
          (V2.total_notes (V2.app w)).
Proof.
  unfold V2.export_loop.
  induction lines as [|l lines IH]; intros w Hpos Hc; cbn [fold_left filter].
  - cbn. lia.
  - rewrite IH; rewrite ?v2_export_line_total, ?v2_export_line_step; try assumption.
    + apply Z.ltb_lt in Hpos as Hb. rewrite Hb, andb_true_r.
      destruct (V2Stream.is_export_progress l); cbn [length]; lia.
    + apply Z.ltb_lt in Hpos as Hb. rewrite Hb, andb_true_r.
      destruct (V2Stream.is_export_progress l); lia.
Qed.

Lemma v2_export_loop_unknown lines : forall w,
  V2.total_notes (V2.app w) <= 0 ->
  V2.current_note (V2.app (V2.export_loop lines w))
  = V2.current_note (V2.app w).
Proof.
  unfold V2.export_loop.
  induction lines as [|l lines IH]; intros w Hz; cbn [fold_left]; [reflexivity|].
  rewrite IH by (now rewrite v2_export_line_total).
  rewrite v2_export_line_step.
  assert (Hb : (0 <? V2.total_notes (V2.app w)) = false) by (apply Z.ltb_ge; lia).
  now rewrite Hb, andb_false_r.
Qed.

(** The same count in the export phase of the archived controller, whatever
  the sync phase left in [current_note]. *)
Theorem v2_export_phase_count (w : V2.Thread) (export : list string) :
  let total := V2.total_notes (V2.app w) in
  V2.current_note (V2.app (V2.export_loop export (V2.begin_export w)))
  = if 0 <? total
    then Z.min (Z.of_nat (length (filter V2Stream.is_export_progress export))) total
    else 0.
Proof.
  cbn zeta.
  assert (Hc : V2.current_note (V2.app (V2.begin_export w)) = 0
               /\ V2.total_notes (V2.app (V2.begin_export w))
                  = V2.total_notes (V2.app w)).
  { unfold V2.begin_export. destruct (V2.failed_notes w); split; reflexivity. }
  destruct Hc as [Hc Ht].
  destruct (0 <? V2.total_notes (V2.app w)) eqn:E.
  - apply Z.ltb_lt in E. rewrite v2_export_loop_count; rewrite ?Hc, ?Ht; lia.
  - apply Z.ltb_ge in E. rewrite v2_export_loop_unknown; rewrite ?Ht; auto.
Qed.

End V2ExportCount.

(** ** The skip list of the controller in use *)

Section SkipList.

Lemma exe_sync_line_failed output w :
  Exe.failed_notes (Exe.sync_line output w)
  = (Exe.failed_notes w
       ++ if ExeStream.is_skipped output then [Py.strip output] else [])%list.
Proof.
  unfold Exe.sync_line, ExeStream.is_skipped, Exe.extract_note_info.
  destruct (String.eqb output ""); [now rewrite app_nil_r|].
  cbn [negb andb].
  destruct (Py.contains "Downloading" (Py.strip output)
            && Py.contains "notes" (Py.strip output));
    cbn [negb andb];
    [|destruct (Exe.is_ignorable_error (Py.strip output))];
    split_ifs; cbn; rewrite ?app_nil_r; reflexivity.
Qed.

(** The skip list after the sync loop is the list before it followed by the
  stripped lines, in order, that match an ignorable-error pattern and were
  not taken as progress. *)
Theorem exe_skip_list (lines : list string) (w : Exe.Worker) :
  Exe.failed_notes (Exe.sync_loop lines w)
  = (Exe.failed_notes w
       ++ map Py.strip (filter ExeStream.is_skipped lines))%list.
Proof.
  unfold Exe.sync_loop. revert w.
  induction lines as [|l lines IH]; intros w; cbn [fold_left filter map].
  - now rewrite app_nil_r.
  - rewrite IH, exe_sync_line_failed.
    destruct (ExeStream.is_skipped l); cbn [map];
      rewrite <- app_assoc; reflexivity.
Qed.

End SkipList.

(** ** Every job of the controller in use ends the same way *)

Section ExeJobEnd.

Import Exe.

Lemma exe_sync_line_working output w :
  is_working (app (sync_line output w)) = is_working (app w).
Proof. unfold sync_line. split_ifs; reflexivity. Qed.

Lemma exe_export_line_working output w :
  is_working (app (export_line output w)) = is_working (app w).
Proof. unfold export_line. split_ifs; reflexivity. Qed.

Lemma exe_sync_loop_working lines w :
  is_working (app (sync_loop lines w)) = is_working (app w).
Proof.
  unfold sync_loop. revert w.
  induction lines as [|l lines IH]; intros w; simpl; [reflexivity|].
  now rewrite IH, exe_sync_line_working.
Qed.

Lemma exe_export_loop_working lines w :
  is_working (app (export_loop lines w)) = is_working (app w).
Proof.
  unfold export_loop. revert w.
  induction lines as [|l lines IH]; intros w; simpl; [reflexivity|].
  now rewrite IH, exe_export_line_working.
Qed.

(** Whatever the two processes print and return, a job of the controller in
  use holds [is_working] until its last action, gives exactly one verdict,
  success exactly when the export exit code is 0, and ends by queuing
  [backup_ui_finish]; once the callbacks have run, [is_working] is false. *)
Theorem exe_job_end
    (sync export : list string) (sync_rc export_rc : Z) (a : App) :
  let w := backup_task sync sync_rc export export_rc a in
  is_working (app w) = true
  /\ (exists pre, out w = (pre ++ [after0 backup_ui_finish])%list)
  /\ (exists v, verdicts (out w) = [v]
                /\ (v = after0 backup_ui_success <-> export_rc = 0))
  /\ is_working (fst (drain (out w) (app w))) = false.
Proof.
  cbn zeta. unfold backup_task.
  set (w1 := export_loop export (begin_export (sync_loop sync (begin_sync a)))).
  assert (Hw : is_working (app w1) = true).
  { subst w1. rewrite exe_export_loop_working. unfold begin_export.
    destruct (failed_notes (sync_loop sync (begin_sync a)));
      cbn [app emit on_app set_sync_phase set_current_note is_working];
      now rewrite exe_sync_loop_working. }
  destruct (before_end_export sync export a) as [Hv _]. fold w1 in Hv.
  assert (Happ : app (end_export export_rc w1) = app w1).
  { unfold end_export. destruct (negb (export_rc =? 0)); reflexivity. }
  rewrite Happ, end_export_out.
  split; [exact Hw|]. split; [|split].
  - eexists. rewrite app_assoc. reflexivity.
  - rewrite !verdicts_app, Hv.
    destruct (Z.eqb_spec export_rc 0) as [E|E]; cbn; eexists; split;
      try reflexivity; split; intros H; try congruence; discriminate.
  - rewrite app_assoc. apply drain_is_working_after_finish.
Qed.

(** When no sync line mentions [notes to download], the total stays unknown
  for the whole job started by [start_backup], and the processed count is
  still 0 at its end, however many files the export reports. *)
Theorem exe_no_announcement_no_progress
    (sync export : list string) (sync_rc export_rc : Z) (a : App) :
  (forall o, In o sync -> ExeStream.mentions_total o = false) ->
  let w := backup_task sync sync_rc export export_rc (reset_progress a) in
  total_notes (app w) = 0 /\ current_note (app w) = 0.
Proof.
  intros Hno. cbn zeta. unfold backup_task.
  assert (Happ : forall rc v, app (end_export rc v) = app v).
  { intros rc v. unfold end_export. destruct (negb (rc =? 0)); reflexivity. }
  rewrite Happ.
  assert (Ht : total_notes (app (sync_loop sync (begin_sync (reset_progress a)))) = 0).
  { assert (G : forall w, (forall o, In o sync -> ExeStream.mentions_total o = false) ->
                          total_notes (app (sync_loop sync w)) = total_notes (app w)).
    { clear. unfold sync_loop. induction sync as [|l sync IH]; intros w H;
        cbn [fold_left]; [reflexivity|].
      rewrite IH by (intros o Ho; apply H; now right).
      rewrite sync_line_total. specialize (H l (or_introl eq_refl)).
      unfold ExeStream.mentions_total in H. unfold announced.
      destruct (String.eqb l ""); [reflexivity|]. cbn [negb andb] in H.
      now rewrite H. }
    rewrite G by exact Hno. reflexivity. }
  assert (Hb : total_notes (app (begin_export
                 (sync_loop sync (begin_sync (reset_progress a))))) = 0
               /\ current_note (app (begin_export
                 (sync_loop sync (begin_sync (reset_progress a))))) = 0).
  { unfold begin_export.
    destruct (failed_notes (sync_loop sync (begin_sync (reset_progress a))));
      cbn [app emit on_app set_sync_phase set_current_note total_notes current_note];
      rewrite Ht; split; reflexivity. }
  destruct Hb as [Hb1 Hb2].
  rewrite export_loop_total, Hb1. split; [reflexivity|].
  rewrite exe_export_loop_unknown; [exact Hb2 | lia].
Qed.

End ExeJobEnd.

Lemma exe_no_announcement_no_progress_witness :
  (forall o, In o ["381 note(s) to download..."] ->
             ExeStream.mentions_total o = false)
  /\ Exe.current_note
       (Exe.app (Exe.backup_task ["381 note(s) to download..."] 0
                   ["export file a"; "export file b"] 0
                   (Exe.reset_progress exe_app0))) = 0.
Proof.
  assert (H : forall o, In o ["381 note(s) to download..."] ->
                        ExeStream.mentions_total o = false).
  { intros o [<- | []]. reflexivity. }
  split; [exact H|].
  exact (proj2 (exe_no_announcement_no_progress
                  ["381 note(s) to download..."] ["export file a"; "export file b"]
                  0 0 exe_app0 H)).
Defined.

(** ** When [start_backup] starts the worker *)

Section StartBackup.

(** [start_backup] of the controller in use starts the worker exactly when
  the executable is known, the user is logged in, no job is running, the
  user confirms and the output folder can be created; it then resets the
  progress fields, and in every other case it leaves all fields as they
  are. *)
Theorem exe_start_backup_starts_iff
    (confirm : bool) (mkdir_error : option string) (a : Exe.App) :
  let ready := Exe.evernote_exe a <> None /\ Exe.is_logged_in a = true
               /\ Exe.is_working a = false /\ confirm = true
               /\ mkdir_error = None in
  (In Exe.Thread_start_backup_task (snd (Exe.start_backup confirm mkdir_error a))
   <-> ready)
  /\ (ready -> fst (Exe.start_backup confirm mkdir_error a) = Exe.reset_progress a)
  /\ (~ ready -> fst (Exe.start_backup confirm mkdir_error a) = a).
Proof.
  cbn zeta. unfold Exe.start_backup.
  destruct (Exe.evernote_exe a) as [e|], (Exe.is_logged_in a), (Exe.is_working a),
    confirm, mkdir_error as [m|]; cbn [negb fst snd In];
    repeat split; intros; try tauto; try congruence;
    repeat match goal with
           | H : _ \/ _ |- _ => destruct H
           | H : _ /\ _ |- _ => destruct H
           end; try discriminate; try congruence; try tauto;
    try (exfalso; match goal with H : ~ _ |- _ => apply H end;
         repeat split; congruence).
Qed.

(** The same for the archived controller, which has no executable to find. *)
Theorem v2_start_backup_starts_iff
    (confirm : bool) (mkdir_error : option string) (a : V2.App) :
  let ready := V2.is_logged_in a = true /\ V2.is_working a = false
               /\ confirm = true /\ mkdir_error = None in
  (In V2.Thread_start_backup_task (snd (V2.start_backup confirm mkdir_error a))
   <-> ready)
  /\ (ready -> fst (V2.start_backup confirm mkdir_error a) = V2.reset_progress a)
  /\ (~ ready -> fst (V2.start_backup confirm mkdir_error a) = a).
Proof.
  cbn zeta. unfold V2.start_backup.
  destruct (V2.is_logged_in a), (V2.is_working a),
    confirm, mkdir_error as [m|]; cbn [negb fst snd In];
    repeat split; intros; try tauto; try congruence;
    repeat match goal with
           | H : _ \/ _ |- _ => destruct H
           | H : _ /\ _ |- _ => destruct H
           end; try discriminate; try congruence; try tauto;
    try (exfalso; match goal with H : ~ _ |- _ => apply H end;
         repeat split; congruence).
Qed.

End StartBackup.

(** ** The outcome of a job of the archived controller *)

Section V2JobOutcome.

Import V2.

Ltac v2_frame :=
  cbn [out emit on_app append_failed set_rate_limit_detected set_wait_time
       add_timer sleep_for];
  rewrite ?emit_all_out;
  cbn [out emit on_app append_failed set_rate_limit_detected set_wait_time
       add_timer sleep_for];
  rewrite ?v2_verdicts_app, ?v2_launched_app;
  cbn [verdicts launched_by filter flat_map is_verdict tick_callbacks];
  rewrite ?app_nil_r; try reflexivity.

Lemma v2_export_line_frame output w :
  verdicts (out (export_line output w)) = verdicts (out w)
  /\ launched_by (out (export_line output w)) = launched_by (out w).
Proof. unfold export_line. split_ifs; split; v2_frame. Qed.

Lemma v2_export_loop_frame lines w :
  verdicts (out (export_loop lines w)) = verdicts (out w)
  /\ launched_by (out (export_loop lines w)) = launched_by (out w).
Proof.
  unfold export_loop. revert w.
  induction lines as [|l lines IH]; intros w; simpl; [split; reflexivity|].
  destruct (IH (export_line l w)) as [-> ->]. apply v2_export_line_frame.
Qed.

Lemma v2_handle_frame wt ch w :
  verdicts (out (_handle_rate_limit wt ch w)) = verdicts (out w)
  /\ launched_by (out (_handle_rate_limit wt ch w)) = launched_by (out w).
Proof.
  unfold _handle_rate_limit, _auto_wait_and_retry, countdown_update.
  destruct (truthy wt) as [wait|]; [|split; v2_frame].
  destruct ch as [[|]|];
    [destruct (0 <? wait); split; v2_frame | split; v2_frame | split; v2_frame].
Qed.

Lemma v2_sync_line_paths output w :
  database_path (app (sync_line output w)) = database_path (app w)
  /\ output_path (app (sync_line output w)) = output_path (app w).
Proof. unfold sync_line. split_ifs; split; reflexivity. Qed.

Lemma v2_sync_loop_paths lines w :
  database_path (app (sync_loop lines w)) = database_path (app w)
  /\ output_path (app (sync_loop lines w)) = output_path (app w).
Proof.
  unfold sync_loop. revert w.
  induction lines as [|l lines IH]; intros w; simpl; [split; reflexivity|].
  destruct (IH (sync_line l w)) as [-> ->]. apply v2_sync_line_paths.
Qed.

(** The archived controller gives its verdict from three facts, in this
  order: a rate-limit line was seen (no verdict at all, whatever the exit
  code); the sync exit code is not 0 (sync error); the export exit code is
  not 0 (export error); otherwise success.  The export command is launched
  only when the sync phase ended without rate-limit line and with exit code
  0, and every run ends by queuing [_backup_ui_finish]. *)
Theorem v2_job_outcome (r : Run) (a : App) (ts : list Timer) (t : Z) :
  let w := _backup_task r (fresh a ts t) in
  let limited := existsb is_rate_limit_line (sync r) in
  verdicts (out w)
  = (if limited then []
     else if negb (sync_rc r =? 0)
          then [after0 (_backup_ui_error "동기화에 실패했습니다")]
     else if negb (export_rc r =? 0)
          then [after0 (_backup_ui_error "내보내기에 실패했습니다")]
     else [after0 _backup_ui_success])
  /\ launched_by (out w)
     = (if limited || negb (sync_rc r =? 0)
        then [cmd_sync a] else [cmd_sync a; V2Stream.cmd_export a])
  /\ last (out w) (sleep 0) = after0 _backup_ui_finish.
Proof.
  cbn zeta. unfold _backup_task.
  set (w1 := sync_loop (sync r) (begin_sync (fresh a ts t))).
  assert (Hd : rate_limit_detected w1 = existsb is_rate_limit_line (sync r)).
  { subst w1. rewrite sync_loop_detected. cbn. apply orb_false_r. }
  destruct (v2_sync_loop_frame (sync r) (begin_sync (fresh a ts t))) as [Hv Hl].
  fold w1 in Hv, Hl. cbn in Hv, Hl.
  destruct (v2_sync_loop_paths (sync r) (begin_sync (fresh a ts t))) as [Hdb Hop].
  fold w1 in Hdb, Hop. cbn in Hdb, Hop.
  rewrite Hd. destruct (existsb is_rate_limit_line (sync r)).
  - cbn [orb]. cbn [out emit]. rewrite v2_verdicts_app, v2_launched_app.
    destruct (v2_handle_frame (wait_time w1) (choice r) w1) as [-> ->].
    rewrite Hv, Hl. repeat split. apply last_last.
  - cbn [orb]. destruct (negb (sync_rc r =? 0)).
    + unfold raise_exception. cbn [out emit].
      rewrite !v2_verdicts_app, !v2_launched_app, Hv, Hl.
      repeat split. apply last_last.
    + set (w2 := export_loop (export r) (begin_export w1)).
      assert (Hb : verdicts (out w2) = []
                   /\ launched_by (out w2) = [cmd_sync a; V2Stream.cmd_export a]).
      { subst w2. destruct (v2_export_loop_frame (export r) (begin_export w1))
          as [-> ->].
        unfold begin_export. destruct (failed_notes w1);
          cbn [out emit on_app app set_sync_phase set_current_note
               database_path output_path];
          rewrite ?v2_verdicts_app, ?v2_launched_app, Hv, Hl;
          unfold V2Stream.cmd_export; rewrite Hdb, Hop; split; reflexivity. }
      destruct Hb as [Hv2 Hl2].
      destruct (negb (export_rc r =? 0)).
      * unfold raise_exception. cbn [out emit].
        rewrite !v2_verdicts_app, !v2_launched_app, Hv2, Hl2.
        repeat split. apply last_last.
      * cbn [out emit on_app].
        rewrite !v2_verdicts_app, !v2_launched_app, Hv2, Hl2.
        repeat split. apply last_last.
Qed.

(** A timer exists after a run only if the run created it for the automatic
  wait: a rate-limit line was seen, the wait known at the end of the stream is
  not zero, and the answer was yes.  No other path creates a timer. *)
Theorem v2_timer_only_after_yes (r : Run) (a : App) (ts : list Timer) (t : Z) :
  timers (_backup_task r (fresh a ts t)) <> ts ->
  existsb is_rate_limit_line (sync r) = true
  /\ (exists wait, wait <> 0
        /\ wait_time (sync_loop (sync r) (begin_sync (fresh a ts t))) = Some wait)
  /\ choice r = Some true.
Proof.
  unfold _backup_task.
  set (w1 := sync_loop (sync r) (begin_sync (fresh a ts t))).
  assert (Ht : timers w1 = ts).
  { subst w1. now destruct (sync_loop_timers (sync r) (begin_sync (fresh a ts t))). }
  assert (Hd : rate_limit_detected w1 = existsb is_rate_limit_line (sync r)).
  { subst w1. rewrite sync_loop_detected. cbn. apply orb_false_r. }
  assert (He : forall lines v, timers (export_loop lines v) = timers v).
  { clear. unfold export_loop. induction lines as [|l lines IH]; intros v;
      simpl; [reflexivity|]. rewrite IH. unfold export_line.
    split_ifs; reflexivity. }
  rewrite Hd. destruct (existsb is_rate_limit_line (sync r)).
  - unfold _handle_rate_limit, truthy.
    destruct (wait_time w1) as [wait|] eqn:Ew;
      [destruct (Z.eqb_spec wait 0)|]; cbn [timers emit];
      try (intros H; now elim H).
    destruct (choice r) as [[|]|]; cbn [timers emit];
      try (intros H; now elim H).
    intros _. split; [reflexivity|]. split; [|reflexivity].
    exists wait. auto.
  - destruct (negb (sync_rc r =? 0)).
    + unfold raise_exception. cbn [timers emit]. intros H. now elim H.
    + assert (Hb : timers (begin_export w1) = ts)
        by (unfold begin_export; destruct (failed_notes w1); exact Ht).
      destruct (negb (export_rc r =? 0)); unfold raise_exception;
        cbn [timers emit on_app]; rewrite He, Hb; intros H; now elim H.
Qed.

End V2JobOutcome.

Lemma v2_timer_only_after_yes_witness :
  V2.timers (V2._backup_task scenario_B (V2.fresh v2_app0 [] 0)) <> []
  /\ V2.choice scenario_B = Some true.
Proof.
  assert (H : V2.timers (V2._backup_task scenario_B (V2.fresh v2_app0 [] 0)) <> [])
    by (vm_compute; discriminate).
  split; [exact H|].
  exact (proj2 (proj2 (v2_timer_only_after_yes scenario_B v2_app0 [] 0 H))).
Defined.

(** ** The announcement in the archived controller *)

Section V2TotalCount.

Import V2.

Lemma v2_announcement_matches N rest :
  0 <= N ->
  match_notes_to_download (Py.str N ++ " note(s) to download" ++ rest) = Some N.
Proof.
  intros HN. unfold match_notes_to_download.
  rewrite span_app; [|now apply all_digits_str|reflexivity].
  destruct (str_nonempty N HN) as (c & t & E). rewrite E at 1.
  cbn. now rewrite int_str.
Qed.

(** For every integer [N >= 0], the line [str(N) + " note(s) to download"]
  followed by any text, with any white space around it, sets [total_notes]
  to [N] in the archived controller, provided the line does not end with
  white space and does not contain [Rate limit reached]. *)
Theorem v2_total_notes_extracted
    (N : Z) (pad_l pad_r rest : string) (w : Thread) :
  0 <= N ->
  Py.all Py.isspace pad_l = true -> Py.all Py.isspace pad_r = true ->
  let line := Py.str N ++ " note(s) to download" ++ rest in
  Py.stops Py.isspace (Py.rev line) = true ->
  Py.contains "Rate limit reached" line = false ->
  total_notes (app (sync_line (pad_l ++ line ++ pad_r) w)) = N.
Proof.
  intros HN Hl Hr line Hend Hno.
  assert (Hne : String.eqb (pad_l ++ line ++ pad_r) "" = false).
  { apply padded_not_empty. subst line.
    destruct (str_nonempty N HN) as (c & t & ->). discriminate. }
  assert (Hs : Py.strip (pad_l ++ line ++ pad_r) = line).
  { apply strip_padded; try assumption. subst line.
    apply stops_space_digits; [now apply all_digits_str|].
    destruct (str_nonempty N HN) as (c & t & ->). discriminate. }
  unfold sync_line. rewrite Hne, Hs, Hno.
  replace (Py.contains "note(s) to download" line) with true.
  - rewrite (search_here match_notes_to_download line N);
      [reflexivity | now apply v2_announcement_matches].
  - symmetry. subst line.
    replace (Py.str N ++ " note(s) to download" ++ rest)
      with ((Py.str N ++ " ") ++ "note(s) to download" ++ rest)
      by (now rewrite append_assoc).
    apply contains_app.
Qed.

End V2TotalCount.

Lemma v2_total_notes_extracted_witness :
  0 <= 381
  /\ V2.total_notes
       (V2.app (V2.sync_line "381 note(s) to download...
" thread0)) = 381.
Proof.
  split; [lia|].
  apply (v2_total_notes_extracted 381 "" "
" "..." thread0); first [lia | reflexivity].
Defined.

(** ** The countdown and its cancellation, for any wait *)

Lemma countdown_if_never_cancelled_witness :
  (3 <= 5)%nat
  /\ V2.out (V2.countdown_uncancelled 5 3 3 thread0)
     = (V2.out thread0
          ++ V2.expected_ticks 3 3 3 (length (V2.timers thread0))
          ++ V2.restart_actions)%list.
Proof.
  split; [lia|].
  refine (proj1 (countdown_if_never_cancelled 3 5 3 thread0 _)). lia.
Defined.

Lemma auto_wait_is_cancelled_witness :
  exists fuel,
    V2.w_timers (V2.simulate fuel (V2.job v2_app0 [scenario_B]))
    = [V2.mkTimer 1000 124 125 true false].
Proof.
  destruct (auto_wait_is_cancelled scenario_B [] v2_app0 125)
    as (fuel & _ & H & _); try reflexivity.
  exists fuel. exact H.
Defined.

(** ** Substrings *)

Section Substrings.

Lemma strip_prefix_spec p : forall s r,
  Py.strip_prefix p s = Some r -> s = p ++ r.
Proof.
  induction p as [|a p IH]; intros s r H; simpl in *.
  - now injection H as <-.
  - destruct s as [|b s]; [discriminate|].
    destruct (Ascii.eqb_spec a b) as [<-|]; [|discriminate].
    now rewrite (IH s r H).
Qed.

Lemma contains_split p : forall s,
  Py.contains p s = true -> exists a b, s = a ++ p ++ b.
Proof.
  induction s as [|c s IH]; intros H; simpl in H.
  - rewrite orb_false_r in H. unfold Py.startswith in H.
    destruct (Py.strip_prefix p "") as [r|] eqn:E; [|discriminate].
    exists "", r. exact (strip_prefix_spec p _ _ E).
  - apply orb_true_iff in H as [H|H].
    + unfold Py.startswith in H.
      destruct (Py.strip_prefix p (String c s)) as [r|] eqn:E; [|discriminate].
      exists "", r. exact (strip_prefix_spec p _ _ E).
    + destruct (IH H) as (a & b & ->). now exists (String c a), b.
Qed.

(** A text that contains [a ++ q ++ b] contains [q]. *)
Lemma contains_sub a q b s :
  Py.contains (a ++ q ++ b) s = true -> Py.contains q s = true.
Proof.
  intros H. destruct (contains_split _ _ H) as (x & y & ->).
  replace (x ++ (a ++ q ++ b) ++ y) with ((x ++ a) ++ q ++ (b ++ y))
    by (now rewrite !append_assoc).
  apply contains_app.
Qed.

Lemma not_contains_sub a q b s :
  Py.contains q s = false -> Py.contains (a ++ q ++ b) s = false.
Proof.
  intros H. destruct (Py.contains (a ++ q ++ b) s) eqn:E; [|reflexivity].
  now rewrite (contains_sub a q b s E) in H.
Qed.

End Substrings.

(** ** Patterns written as regular expressions, matched as text *)

Section DeadPatterns.

(** In the archived controller four of the nine patterns contain [.*], and
  all nine are matched as plain substrings: a line without the two characters
  [.*] is ignorable only through one of the five plain patterns. *)
Theorem v2_wildcard_patterns_need_literal (line : string) :
  Py.contains ".*" (Py.lower line) = false ->
  V2._is_ignorable_error line = true ->
  Py.any_in Patterns.plain (Py.lower line) = true.
Proof.
  intros Hno. unfold V2._is_ignorable_error.
  destruct (Py.contains "rate limit" (Py.lower line)); [discriminate|].
  unfold Py.any_in, V2.ignorable_patterns, Patterns.plain. cbn [existsb].
  change (Py.lower "Note.*will be skipped")
    with ("note" ++ ".*" ++ "will be skipped").
  change (Py.lower "LinkedNotebook.*is not accessible")
    with ("linkednotebook" ++ ".*" ++ "is not accessible").
  change (Py.lower "Shared notebook.*not found")
    with ("shared notebook" ++ ".*" ++ "not found").
  change (Py.lower "Business notebook.*expired")
    with ("business notebook" ++ ".*" ++ "expired").
  rewrite !(not_contains_sub _ ".*" _ _ Hno).
  cbn [orb]. rewrite !orb_false_r. intros H.
  repeat (apply orb_true_iff in H as [H|H]; [rewrite H; cbn [orb];
            rewrite ?orb_true_r; reflexivity|]).
  rewrite H. now rewrite !orb_true_r.
Qed.

(** In the controller in use the same four patterns contain a dot: a line
  without any dot is ignorable only through one of the five plain
  patterns. *)
Theorem exe_dotted_patterns_need_literal (line : string) :
  Py.contains "." (Py.lower line) = false ->
  Exe.is_ignorable_error line = true ->
  Py.any_in Patterns.plain (Py.lower line) = true.
Proof.
  intros Hno. unfold Exe.is_ignorable_error.
  unfold Py.any_in, Exe.ignorable_patterns, Patterns.plain. cbn [existsb].
  change (Py.lower "Note.will be skipped")
    with ("note" ++ "." ++ "will be skipped").
  change (Py.lower "LinkedNotebook.is not accessible")
    with ("linkednotebook" ++ "." ++ "is not accessible").
  change (Py.lower "Shared notebook.not found")
    with ("shared notebook" ++ "." ++ "not found").
  change (Py.lower "Business notebook.expired")
    with ("business notebook" ++ "." ++ "expired").
  rewrite !(not_contains_sub _ "." _ _ Hno).
  cbn [orb]. rewrite !orb_false_r. intros H.
  repeat (apply orb_true_iff in H as [H|H]; [rewrite H; cbn [orb];
            rewrite ?orb_true_r; reflexivity|]).
  rewrite H. now rewrite !orb_true_r.
Qed.

End DeadPatterns.

Lemma v2_wildcard_patterns_need_literal_witness :
  Py.contains ".*" (Py.lower "PERMISSION_DENIED for note 12") = false
  /\ Py.any_in Patterns.plain (Py.lower "PERMISSION_DENIED for note 12") = true.
Proof.
  split; [reflexivity|].
  apply v2_wildcard_patterns_need_literal; reflexivity.
Defined.

Lemma exe_dotted_patterns_need_literal_witness :
  Py.contains "." (Py.lower "Failed to download note 12") = false
  /\ Py.any_in Patterns.plain (Py.lower "Failed to download note 12") = true.
Proof.
  split; [reflexivity|].
  apply exe_dotted_patterns_need_literal; reflexivity.
Defined.

(** A line of the tool saying that a note will be skipped matches none of
  the patterns in either controller. *)
Example skipped_note_line_not_ignorable :
  V2._is_ignorable_error "Note abc will be skipped" = false
  /\ Exe.is_ignorable_error "Note abc will be skipped" = false.
Proof. split; reflexivity. Qed.

(** ** What [_extract_note_info] returns *)

Section ExtractNoteInfo.

Import V2.

Lemma search_found {A} (m : string -> option A) : forall s g,
  Py.search m s = Some g -> exists pre t, s = pre ++ t /\ m t = Some g.
Proof.
  induction s as [|c s IH]; intros g H; simpl in H.
  - destruct (m "") eqn:E; [|discriminate]. injection H as <-.
    now exists "", "".
  - destruct (m (String c s)) eqn:E.
    + injection H as <-. now exists "", (String c s).
    + destruct (IH g H) as (pre & t & -> & Ht).
      now exists (String c pre), t.
Qed.

Lemma lower_app a b : Py.lower (a ++ b) = Py.lower a ++ Py.lower b.
Proof. induction a as [|c a IH]; simpl; congruence. Qed.

(** A keyword matched without regard to case is found, in lower case, at the
  start of the lowered text. *)
Lemma istrip_prefix_lower p : forall s r,
  istrip_prefix p s = Some r -> Py.lower s = Py.lower p ++ Py.lower r.
Proof.
  induction p as [|a p IH]; intros s r H; simpl in *.
  - now injection H as <-.
  - destruct s as [|b s]; [discriminate|].
    destruct (Ascii.eqb_spec (Py.lower_char a) (Py.lower_char b)) as [E|];
      [|discriminate].
    simpl. now rewrite E, (IH s r H).
Qed.

Lemma istrip_prefix_contains p s pre r :
  istrip_prefix p s = Some r ->
  Py.contains (Py.lower p) (Py.lower (pre ++ s)) = true.
Proof.
  intros H. rewrite lower_app, (istrip_prefix_lower p s r H).
  apply contains_app.
Qed.

Lemma last_char_not_empty c s : last_char (String c s) <> "".
Proof.
  revert c. induction s as [|d s IH]; intros c; simpl; [discriminate|].
  apply IH.
Qed.

Lemma match_quoted_not_empty kw s g : match_quoted kw s = Some g -> g <> "".
Proof.
  unfold match_quoted.
  destruct (istrip_prefix kw s) as [r|]; [|discriminate].
  destruct (Py.span is_colon_or_space r) as [seps r1].
  destruct seps as [|c more]; [discriminate|].
  match goal with |- context [Py.span not_quote ?b] =>
    destruct (Py.span not_quote b) as [g' rest] end.
  destruct g' as [|x g'].
  - destruct more as [|y more]; [discriminate|].
    intros H. injection H as <-. apply last_char_not_empty.
  - intros H. injection H as <-. discriminate.
Qed.

Lemma match_note_word_not_empty s g : match_note_word s = Some g -> g <> "".
Proof.
  unfold match_note_word.
  destruct (istrip_prefix "Note" s) as [r|]; [|discriminate].
  destruct (Py.span Py.isspace r) as [ws r1].
  destruct ws; [discriminate|].
  destruct (Py.span not_space r1) as [g' rest].
  destruct g'; [discriminate|]. intros H. injection H as <-. discriminate.
Qed.

Lemma match_quoted_keyword kw s g :
  match_quoted kw s = Some g -> exists r, istrip_prefix kw s = Some r.
Proof.
  unfold match_quoted. destruct (istrip_prefix kw s) as [r|]; [eauto|discriminate].
Qed.

Lemma match_note_word_keyword s g :
  match_note_word s = Some g -> exists r, istrip_prefix "Note" s = Some r.
Proof.
  unfold match_note_word.
  destruct (istrip_prefix "Note" s) as [r|]; [eauto|discriminate].
Qed.

(** On an ASCII line [_extract_note_info] never returns the empty text, and
  for an ASCII line that contains neither [note] nor [title] in any case it
  returns [Unknown]. *)
Theorem extract_note_info_result (line : string) :
  PyAscii.isascii line = true ->
  _extract_note_info line <> ""
  /\ (Py.contains "note" (Py.lower line) = false ->
      Py.contains "title" (Py.lower line) = false ->
      _extract_note_info line = "Unknown").
Proof.
  intros _. unfold _extract_note_info. split.
  - destruct (Py.search (match_quoted "note") line) as [g|] eqn:E1.
    { destruct (search_found _ _ _ E1) as (pre & t & _ & Ht).
      exact (match_quoted_not_empty _ _ _ Ht). }
    destruct (Py.search match_note_word line) as [g|] eqn:E2.
    { destruct (search_found _ _ _ E2) as (pre & t & _ & Ht).
      exact (match_note_word_not_empty _ _ Ht). }
    destruct (Py.search (match_quoted "title") line) as [g|] eqn:E3.
    { destruct (search_found _ _ _ E3) as (pre & t & _ & Ht).
      exact (match_quoted_not_empty _ _ _ Ht). }
    discriminate.
  - intros Hn Ht.
    destruct (Py.search (match_quoted "note") line) as [g|] eqn:E1.
    { destruct (search_found _ _ _ E1) as (pre & t & -> & Hm).
      destruct (match_quoted_keyword _ _ _ Hm) as [r Hr].
      pose proof (istrip_prefix_contains "note" t pre r Hr) as Hc.
      change (Py.lower "note") with "note" in Hc. congruence. }
    destruct (Py.search match_note_word line) as [g|] eqn:E2.
    { destruct (search_found _ _ _ E2) as (pre & t & -> & Hm).
      destruct (match_note_word_keyword _ _ Hm) as [r Hr].
      pose proof (istrip_prefix_contains "Note" t pre r Hr) as Hc.
      change (Py.lower "Note") with "note" in Hc. congruence. }
    destruct (Py.search (match_quoted "title") line) as [g|] eqn:E3.
    { destruct (search_found _ _ _ E3) as (pre & t & -> & Hm).
      destruct (match_quoted_keyword _ _ _ Hm) as [r Hr].
      pose proof (istrip_prefix_contains "title" t pre r Hr) as Hc.
      change (Py.lower "title") with "title" in Hc. congruence. }
    reflexivity.
Qed.

End ExtractNoteInfo.

Lemma extract_note_info_result_witness :
  PyAscii.isascii "PERMISSION_DENIED" = true
  /\ Py.contains "note" (Py.lower "PERMISSION_DENIED") = false
  /\ Py.contains "title" (Py.lower "PERMISSION_DENIED") = false
  /\ V2._extract_note_info "PERMISSION_DENIED" = "Unknown".
Proof.
  split; [reflexivity|]. split; [reflexivity|]. split; [reflexivity|].
  apply (proj2 (extract_note_info_result "PERMISSION_DENIED" eq_refl));
    reflexivity.
Defined.

(** ** The login steps: the URL dialog *)

Section UrlDialog.

Import ExeLogin.

Lemma lstrip_keeps p b : forall a,
  Py.stops Py.isspace p = true -> p <> "" ->
  exists a', Py.lstrip (a ++ p ++ b) = a' ++ p ++ b.
Proof.
  intros a Hp Hne. induction a as [|c a IH].
  - exists "". cbn [append]. destruct p as [|x p]; [congruence|].
    cbn in Hp |- *. apply negb_true_iff in Hp. now rewrite Hp.
  - cbn [append Py.lstrip]. destruct (Py.isspace c).
    + exact IH.
    + now exists (String c a).
Qed.

(** Stripping a text does not remove an occurrence of a pattern that
  neither begins nor ends with white space. *)
Lemma contains_strip p s :
  p <> "" -> Py.stops Py.isspace p = true ->
  Py.stops Py.isspace (Py.rev p) = true ->
  Py.contains p s = true -> Py.contains p (Py.strip s) = true.
Proof.
  intros Hne Hp Hr H. destruct (contains_split p s H) as (a & b & ->).
  unfold Py.strip, Py.rstrip.
  destruct (lstrip_keeps p b a Hp Hne) as (a' & ->).
  replace (a' ++ p ++ b) with ((a' ++ p) ++ b) by (now rewrite append_assoc).
  rewrite rev_app, (rev_app a' p).
  assert (Hrne : Py.rev p <> "") by (now apply rev_not_empty).
  destruct (lstrip_keeps (Py.rev p) (Py.rev a') (Py.rev b) Hr Hrne) as (b' & ->).
  replace (b' ++ Py.rev p ++ Py.rev a') with ((b' ++ Py.rev p) ++ Py.rev a')
    by (now rewrite append_assoc).
  rewrite rev_app, (rev_app b'), !rev_involutive.
  apply contains_app.
Qed.

Lemma contains_not_empty p s :
  p <> "" -> Py.contains p s = true -> s <> "".
Proof.
  intros Hne H ->. destruct p; [congruence|]. discriminate.
Qed.

Lemma contains_app_left p s t :
  Py.contains p s = true -> Py.contains p (s ++ t) = true.
Proof.
  intros H. destruct (contains_split p s H) as (a & b & ->).
  rewrite !append_assoc. apply contains_app.
Qed.

(** [on_confirm] accepts the text of the dialog exactly when, stripped, it
  is not empty and contains [evernote.com] or [OAuth.action]: one of the two
  is enough.  An accepted text is stored as [oauth_url], the dialog closes,
  the copy button is disabled and the browser button enabled; a rejected
  text changes nothing and the dialog stays open.  A clipboard text that
  [copy_oauth_url] puts into the dialog is always accepted. *)
Theorem exe_url_dialog (content : string) (g : Gui) :
  let url := Py.strip (content ++ newline) in
  (url_accepted url = true
   <-> url <> "" /\ (Py.contains "evernote.com" url = true
                    \/ Py.contains "OAuth.action" url = true))
  /\ (url_accepted url = true ->
      let g' := fst (on_confirm content g) in
      oauth_url g' = Some url /\ dialog g' = false
      /\ enabled (btn_copy g') = false /\ enabled (btn_browser g') = true)
  /\ (url_accepted url = false -> fst (on_confirm content g) = g)
  /\ (forall clip, fst (prefill clip) <> "" ->
        url_accepted (Py.strip (fst (prefill clip) ++ newline)) = true).
Proof.
  cbn zeta. split; [|split; [|split]].
  - unfold url_accepted.
    destruct (String.eqb_spec (Py.strip (content ++ newline)) "") as [E|E];
      destruct (Py.contains "evernote.com" (Py.strip (content ++ newline)));
      destruct (Py.contains "OAuth.action" (Py.strip (content ++ newline)));
      cbn; split; intros H; try discriminate; try tauto;
      destruct H as [H1 [H2|H2]]; congruence.
  - intros H. unfold on_confirm. rewrite H. repeat split.
  - intros H. unfold on_confirm. now rewrite H.
  - intros [clip|]; cbn [prefill fst]; [|congruence].
    destruct (String.eqb clip ""); cbn [negb andb fst]; [congruence|].
    destruct (Py.contains "evernote.com" clip) eqn:E1; cbn [andb fst];
      [|congruence].
    destruct (Py.contains "OAuth.action" clip) eqn:E2; cbn [fst]; [|congruence].
    intros _. unfold url_accepted.
    assert (Hc : Py.contains "evernote.com" (Py.strip (clip ++ newline)) = true).
    { apply contains_strip; try reflexivity; [discriminate|].
      now apply contains_app_left. }
    rewrite Hc. cbn [negb andb]. rewrite orb_false_r.
    apply negb_true_iff. apply String.eqb_neq.
    apply (contains_not_empty "evernote.com"); [discriminate | exact Hc].
Qed.

End UrlDialog.

Lemma exe_url_dialog_witness :
  ExeLogin.url_accepted
    (Py.strip ("https://www.evernote.com/OAuth.action?oauth_token=x"
                 ++ ExeLogin.newline)) = true
  /\ ExeLogin.oauth_url
       (fst (ExeLogin.on_confirm
               "https://www.evernote.com/OAuth.action?oauth_token=x"
               (ExeLogin.initial (Some "evernote-backup.exe") "db" "out")))
     = Some "https://www.evernote.com/OAuth.action?oauth_token=x".
Proof.
  split; [reflexivity|].
  refine (proj1 (proj1 (proj2 (exe_url_dialog
    "https://www.evernote.com/OAuth.action?oauth_token=x"
    (ExeLogin.initial (Some "evernote-backup.exe") "db" "out"))) _)).
  reflexivity.
Defined.

(** The error text asks for both markers; the test is satisfied by one. *)
Example exe_url_one_marker_is_enough :
  ExeLogin.url_accepted "https://evernote.com/" = true
  /\ ExeLogin.url_accepted "OAuth.action" = true.
Proof. split; reflexivity. Qed.

(** ** The login steps: the token check and the terminal *)

Section TokenCheck.

Import ExeLogin.

(** [check_oauth_token] logs in exactly when the database can be read and
  the value of the row it settles on is true in Python's sense; it then
  enables the backup button and disables its own.  In every other case the
  window is unchanged: a failed check does not log out.  The row is the
  first one named [access_token] when there is one, even if its value is
  empty and another row holds a token. *)
Theorem exe_check_oauth_token (db : Db) (g : Gui) :
  let g' := fst (check_oauth_token db g) in
  let found := exists rows v, db = config rows
                              /\ access_token_row rows = Some v
                              /\ truth v = true in
  (found ->
   Exe.is_logged_in (app g') = true /\ enabled (btn_backup g') = true
   /\ enabled (btn_complete g') = false /\ oauth_url g' = oauth_url g)
  /\ (~ found -> g' = g)
  /\ (forall rows v,
        db = config rows ->
        hd_error (select_access_token rows) = Some v -> truth v = false ->
        g' = g).
Proof.
  cbn zeta. split; [|split].
  - intros (rows & v & -> & Hrow & Hv). unfold check_oauth_token.
    rewrite Hrow, Hv. repeat split.
  - intros Hnot. destruct db as [|e|rows]; try reflexivity.
    unfold check_oauth_token.
    destruct (access_token_row rows) as [v|] eqn:Hrow; [|reflexivity].
    destruct (truth v) eqn:Hv; [|reflexivity].
    exfalso. apply Hnot. now exists rows, v.
  - intros rows v -> Hhd Hv. unfold check_oauth_token, access_token_row.
    now rewrite Hhd, Hv.
Qed.

Lemma backslashes_no_slash s : Py.contains "/" (backslashes s) = false.
Proof.
  induction s as [|c s IH]; [reflexivity|].
  cbn [backslashes Py.contains]. rewrite IH, orb_false_r.
  unfold Py.startswith. cbn [Py.strip_prefix].
  destruct (Ascii.eqb_spec c "/") as [->|Hc]; [reflexivity|].
  destruct (Ascii.eqb_spec "/"%char c) as [E|E]; [congruence|reflexivity].
Qed.

Lemma backslashes_length s :
  String.length (backslashes s) = String.length s.
Proof. induction s as [|c s IH]; simpl; congruence. Qed.

(** [start_oauth_terminal] runs its command exactly when the executable is
  known, no job is running, the database path passes its test and the call
  raises nothing; it then disables its button and enables the copy button,
  and otherwise leaves the window as it is.  In the command the database
  path appears with every slash turned into a backslash, at its length. *)
Theorem exe_start_oauth_terminal (db_error os_error : option string) (g : Gui) :
  let r := start_oauth_terminal db_error os_error g in
  let ready := Exe.evernote_exe (app g) <> None
               /\ Exe.is_working (app g) = false
               /\ db_error = None /\ os_error = None in
  ((exists cmd, In (os_system cmd) (snd r)) <-> ready)
  /\ (ready ->
      enabled (btn_terminal (fst r)) = false
      /\ enabled (btn_copy (fst r)) = true /\ app (fst r) = app g)
  /\ (~ ready -> fst r = g)
  /\ (forall exe db,
        Py.contains "/" (backslashes db) = false
        /\ String.length (backslashes db) = String.length db
        /\ Py.contains (backslashes db) (oauth_command exe db) = true).
Proof.
  cbn zeta. unfold start_oauth_terminal.
  split; [|split; [|split]].
  - split.
    + intros (cmd & H).
      destruct (Exe.evernote_exe (app g)) as [exe|], (Exe.is_working (app g)),
        db_error as [d|], os_error as [o|]; simpl in H;
        repeat (destruct H as [H|H]; try discriminate); try contradiction.
      repeat split; congruence.
    + intros (H1 & H2 & -> & ->).
      destruct (Exe.evernote_exe (app g)) as [exe|]; [|congruence].
      rewrite H2. eexists. simpl. right. right. right. left. reflexivity.
  - intros (H1 & H2 & -> & ->).
    destruct (Exe.evernote_exe (app g)) as [exe|]; [|congruence].
    rewrite H2. repeat split.
  - intros Hnot.
    destruct (Exe.evernote_exe (app g)) as [exe|] eqn:E1; [|reflexivity].
    destruct (Exe.is_working (app g)) eqn:E2; [reflexivity|].
    destruct db_error as [d|]; [reflexivity|].
    destruct os_error as [o|]; [reflexivity|].
    exfalso. apply Hnot. repeat split; congruence.
  - intros exe db. split; [apply backslashes_no_slash|].
    split; [apply backslashes_length|].
    unfold oauth_command.
    set (exe_cmd := if Py.contains " " exe then dq ++ exe ++ dq else exe).
    replace ("start cmd /k " ++ dq ++ exe_cmd ++ " init-db --force --database "
               ++ backslashes db ++ " --backend evernote" ++ dq)
      with (("start cmd /k " ++ dq ++ exe_cmd ++ " init-db --force --database ")
              ++ backslashes db ++ (" --backend evernote" ++ dq))
      by (now rewrite !append_assoc).
    apply contains_app.
Qed.

End TokenCheck.

Lemma exe_check_oauth_token_witness :
  Exe.is_logged_in
    (ExeLogin.app
       (fst (ExeLogin.check_oauth_token
               (ExeLogin.config [("access_token", ExeLogin.Text "S=s1:U=abc")])
               (ExeLogin.initial (Some "evernote-backup.exe") "db" "out"))))
  = true
  /\ fst (ExeLogin.check_oauth_token
            (ExeLogin.config [("access_token", ExeLogin.Text "");
                              ("oauth_token", ExeLogin.Text "S=s1:U=abc")])
            (ExeLogin.initial (Some "evernote-backup.exe") "db" "out"))
     = ExeLogin.initial (Some "evernote-backup.exe") "db" "out".
Proof.
  split.
  - refine (proj1 (proj1 (exe_check_oauth_token _ _) _)).
    eexists _, _. repeat split; reflexivity.
  - refine (proj2 (proj2 (exe_check_oauth_token _ _)) _ _ eq_refl _ _);
      reflexivity.
Defined.

Lemma exe_start_oauth_terminal_witness :
  exists cmd,
    In (ExeLogin.os_system cmd)
       (snd (ExeLogin.start_oauth_terminal None None
               (ExeLogin.initial (Some "C:\Program Files\evernote-backup.exe")
                                 "C:/EvernoteDB/evernote_backup.db" "out"))).
Proof.
  refine (proj2 (proj1 (exe_start_oauth_terminal None None
    (ExeLogin.initial (Some "C:\Program Files\evernote-backup.exe")
                      "C:/EvernoteDB/evernote_backup.db" "out"))) _).
  repeat split; discriminate.
Defined.

(** ** The window as a whole: the login steps and the backup button *)

Section Window.

Import ExeLogin.

Lemma exe_sync_line_account output w :
  Exe.evernote_exe (Exe.app (Exe.sync_line output w)) = Exe.evernote_exe (Exe.app w)
  /\ Exe.is_logged_in (Exe.app (Exe.sync_line output w))
     = Exe.is_logged_in (Exe.app w).
Proof. unfold Exe.sync_line. split_ifs; split; reflexivity. Qed.

Lemma exe_export_line_account output w :
  Exe.evernote_exe (Exe.app (Exe.export_line output w)) = Exe.evernote_exe (Exe.app w)
  /\ Exe.is_logged_in (Exe.app (Exe.export_line output w))
     = Exe.is_logged_in (Exe.app w).
Proof. unfold Exe.export_line. split_ifs; split; reflexivity. Qed.

Lemma exe_sync_loop_account lines w :
  Exe.evernote_exe (Exe.app (Exe.sync_loop lines w)) = Exe.evernote_exe (Exe.app w)
  /\ Exe.is_logged_in (Exe.app (Exe.sync_loop lines w))
     = Exe.is_logged_in (Exe.app w).
Proof.
  unfold Exe.sync_loop. revert w.
  induction lines as [|l lines IH]; intros w; simpl; [split; reflexivity|].
  destruct (IH (Exe.sync_line l w)) as [-> ->]. apply exe_sync_line_account.
Qed.

Lemma exe_export_loop_account lines w :
  Exe.evernote_exe (Exe.app (Exe.export_loop lines w)) = Exe.evernote_exe (Exe.app w)
  /\ Exe.is_logged_in (Exe.app (Exe.export_loop lines w))
     = Exe.is_logged_in (Exe.app w).
Proof.
  unfold Exe.export_loop. revert w.
  induction lines as [|l lines IH]; intros w; simpl; [split; reflexivity|].
  destruct (IH (Exe.export_line l w)) as [-> ->]. apply exe_export_line_account.
Qed.

Lemma exe_end_export_app rc v : Exe.app (Exe.end_export rc v) = Exe.app v.
Proof. unfold Exe.end_export. destruct (negb (rc =? 0)); reflexivity. Qed.

Lemma exe_backup_task_account sync sync_rc export export_rc a :
  let w := Exe.backup_task sync sync_rc export export_rc a in
  Exe.evernote_exe (Exe.app w) = Exe.evernote_exe a
  /\ Exe.is_logged_in (Exe.app w) = Exe.is_logged_in a.
Proof.
  cbn zeta. unfold Exe.backup_task. rewrite exe_end_export_app.
  destruct (exe_export_loop_account export
              (Exe.begin_export (Exe.sync_loop sync (Exe.begin_sync a)))) as [-> ->].
  unfold Exe.begin_export.
  destruct (Exe.failed_notes (Exe.sync_loop sync (Exe.begin_sync a)));
    cbn [Exe.app Exe.emit Exe.on_app Exe.set_sync_phase Exe.set_current_note
         Exe.evernote_exe Exe.is_logged_in];
    destruct (exe_sync_loop_account sync (Exe.begin_sync a)) as [-> ->];
    split; reflexivity.
Qed.

Lemma exe_run_callback_account cb a :
  Exe.evernote_exe (fst (Exe.run_callback cb a)) = Exe.evernote_exe a
  /\ Exe.is_logged_in (fst (Exe.run_callback cb a)) = Exe.is_logged_in a.
Proof. destruct cb; cbn [Exe.run_callback]; split_ifs; split; reflexivity. Qed.

Lemma exe_drain_account acts : forall a,
  Exe.evernote_exe (fst (Exe.drain acts a)) = Exe.evernote_exe a
  /\ Exe.is_logged_in (fst (Exe.drain acts a)) = Exe.is_logged_in a.
Proof.
  induction acts as [|x acts IH]; intros a; [split; reflexivity|].
  destruct x as [msg|cb| | |d| |]; cbn [Exe.drain]; try apply IH.
  - specialize (IH a). destruct (Exe.drain acts a). exact IH.
  - destruct (exe_run_callback_account cb a) as [H1 H2].
    destruct (Exe.run_callback cb a) as [a1 u1]. cbn [fst] in H1, H2.
    specialize (IH a1). destruct (Exe.drain acts a1). cbn [fst] in *.
    destruct IH as [-> ->]. auto.
  - specialize (IH a). destruct (Exe.drain acts a). exact IH.
Qed.

Lemma button_after_app us vs b :
  button_after (us ++ vs) b = button_after vs (button_after us b).
Proof. unfold button_after. apply fold_left_app. Qed.

(** The end of a job, seen from the window: the flag is cleared, the backup
  button is as it was before the job, everything else is untouched. *)
Lemma finish_job_result sync sync_rc export export_rc g :
  let g' := finish_job sync sync_rc export export_rc g in
  Exe.is_working (app g') = false
  /\ Exe.evernote_exe (app g') = Exe.evernote_exe (app g)
  /\ Exe.is_logged_in (app g') = Exe.is_logged_in (app g)
  /\ btn_backup g' = mkBtn true "🚀 백업 시작"
  /\ oauth_url g' = oauth_url g /\ dialog g' = dialog g
  /\ btn_terminal g' = btn_terminal g /\ btn_copy g' = btn_copy g
  /\ btn_browser g' = btn_browser g /\ btn_complete g' = btn_complete g.
Proof.
  cbn zeta. unfold finish_job.
  set (w := Exe.backup_task sync sync_rc export export_rc (app g)).
  assert (Hout : exists pre, Exe.out w = (pre ++ [Exe.after0 Exe.backup_ui_finish])%list).
  { subst w. unfold Exe.backup_task. rewrite end_export_out.
    eexists. rewrite app_assoc. reflexivity. }
  destruct Hout as [pre Hout].
  destruct (exe_drain_account (Exe.out w) (Exe.app w)) as [He Hl].
  destruct (exe_backup_task_account sync sync_rc export export_rc (app g))
    as [He' Hl']. fold w in He', Hl'.
  pose proof (drain_is_working_after_finish pre (Exe.app w)) as Hw.
  rewrite <- Hout in Hw.
  assert (Hb : forall b, button_after (snd (Exe.drain (Exe.out w) (Exe.app w))) b
                         = mkBtn true "🚀 백업 시작").
  { intros b. rewrite Hout, drain_app.
    destruct (Exe.drain pre (Exe.app w)) as [a1 u1].
    cbn [Exe.drain Exe.run_callback snd].
    rewrite button_after_app. reflexivity. }
  specialize (Hb (btn_backup g)).
  destruct (Exe.drain (Exe.out w) (Exe.app w)) as [a us].
  cbn [fst snd] in *. cbn.
  repeat split; congruence.
Qed.

Lemma url_accepted_known url :
  url_accepted url = true -> url_known (Some url) = Some url.
Proof.
  unfold url_accepted, url_known.
  destruct (String.eqb url ""); [discriminate|reflexivity].
Qed.

Ltac open_gui g :=
  destruct g as [[exe li wk dbp outp tn cn ph] u [t tl] [c cl] [b bl] [k kl]
                   [bk bkl] d].

Ltac stage_bits Hs :=
  unfold stage_of, buttons in Hs; cbn in Hs;
  repeat match type of Hs with
         | context [match ?x with _ => _ end] => is_var x; destruct x
         end;
  try discriminate Hs; try (injection Hs as <-).

(** An event moves the window to the same stage or to the next one. *)
Lemma step_stage e g s :
  at_stage s g ->
  exists s', at_stage s' (step e g) /\ (rank s <= rank s' <= S (rank s))%nat.
Proof.
  intros [Hs Hok].
  assert (Hstay : exists s', at_stage s' g
                             /\ (rank s <= rank s' <= S (rank s))%nat).
  { exists s. split; [split; assumption|lia]. }
  destruct e as [de oe|clip|content| |oe|db|cf me|sy src ex erc|dp op];
    cbn [step].
  - (* click_terminal *)
    destruct (negb (dialog g) && enabled (btn_terminal g)) eqn:Eg; [|exact Hstay].
    unfold start_oauth_terminal.
    destruct (Exe.evernote_exe (app g)) as [x|] eqn:Ex; [|exact Hstay].
    destruct (Exe.is_working (app g)) eqn:Ew; [exact Hstay|].
    destruct de; [exact Hstay|]. destruct oe; [exact Hstay|].
    clear Hstay. open_gui g. cbn in Ex, Ew, Eg. subst. stage_bits Hs;
      try (destruct d; cbn in Eg; discriminate Eg).
    exists step2. unfold at_stage, stage_ok, has_exe, has_url in *. cbn in *.
    destruct d; [discriminate|]. split; [split; reflexivity|lia].
  - (* click_copy *)
    destruct (negb (dialog g) && enabled (btn_copy g)) eqn:Eg; [|exact Hstay].
    clear Hstay. open_gui g. cbn in Eg. stage_bits Hs;
      try (destruct d; cbn in Eg; discriminate Eg).
    exists step2. unfold at_stage, stage_ok, has_exe, has_url in *. cbn in *.
    destruct d; [discriminate|]. split; [split; [reflexivity|exact Hok]|lia].
  - (* press_confirm *)
    destruct (dialog g) eqn:Ed; [|exact Hstay].
    unfold on_confirm.
    destruct (url_accepted (Py.strip (content ++ newline))) eqn:Eu;
      [|exact Hstay].
    clear Hstay. apply url_accepted_known in Eu.
    open_gui g. cbn in Ed. subst d.
    unfold stage_ok in Hok. cbn in Hok.
    destruct s; try discriminate Hok.
    stage_bits Hs.
    exists step3. unfold at_stage, stage_ok, has_exe, has_url in *. cbn in *.
    rewrite Eu. split; [split; [reflexivity|]|lia].
    now rewrite Bool.andb_true_r in *.
  - (* press_cancel *)
    destruct (dialog g) eqn:Ed; [|exact Hstay].
    clear Hstay. open_gui g. cbn in Ed. subst d.
    unfold stage_ok in Hok. cbn in Hok.
    destruct s; try discriminate Hok.
    stage_bits Hs.
    exists step2. unfold at_stage, stage_ok, has_exe, has_url in *. cbn in *.
    split; [split; [reflexivity|exact Hok]|lia].
  - (* click_browser *)
    destruct (negb (dialog g) && enabled (btn_browser g)) eqn:Eg; [|exact Hstay].
    unfold open_browser.
    destruct (url_known (oauth_url g)) as [url|] eqn:Eu; [|exact Hstay].
    destruct oe; [exact Hstay|].
    clear Hstay. open_gui g. cbn in Eg, Eu. stage_bits Hs;
      try (destruct d; cbn in Eg; discriminate Eg).
    exists step4. unfold at_stage, stage_ok, has_exe, has_url in *. cbn in *.
    destruct d; [discriminate|]. split; [split; [reflexivity|exact Hok]|lia].
  - (* click_complete *)
    destruct (negb (dialog g) && enabled (btn_complete g)) eqn:Eg; [|exact Hstay].
    unfold check_oauth_token. destruct db as [|x|rows]; try exact Hstay.
    destruct (access_token_row rows) as [v|]; [|exact Hstay].
    destruct (truth v); [|exact Hstay].
    clear Hstay. open_gui g. cbn in Eg. stage_bits Hs;
      try (destruct d; cbn in Eg; discriminate Eg).
    exists ready. unfold at_stage, stage_ok, has_exe, has_url in *. cbn in *.
    destruct d; [discriminate|]. split; [split; [reflexivity|exact Hok]|lia].
  - (* click_backup *)
    destruct (negb (dialog g) && enabled (btn_backup g)) eqn:Eg; [|exact Hstay].
    clear Hstay. open_gui g. cbn in Eg. stage_bits Hs;
      try (destruct d; cbn in Eg; discriminate Eg).
    destruct d; [discriminate|].
    unfold at_stage, stage_ok, has_exe, has_url in *. cbn in Hok.
    destruct exe as [x|]; [|discriminate].
    unfold press_backup, Exe.start_backup. cbn.
    destruct cf; cbn; [destruct me; cbn|].
    + exists ready. split; [split; [reflexivity|exact Hok]|cbn; lia].
    + exists working. split; [split; [reflexivity|exact Hok]|cbn; lia].
    + exists ready. split; [split; [reflexivity|exact Hok]|cbn; lia].
  - (* job_done *)
    destruct (Exe.is_working (app g)) eqn:Ew; [|exact Hstay].
    clear Hstay.
    destruct (finish_job_result sy src ex erc g)
      as (R1 & R2 & R3 & R4 & R5 & R6 & R7 & R8 & R9 & R10).
    exists ready.
    unfold at_stage, stage_of, stage_ok, buttons, has_exe, has_url.
    rewrite R1, R2, R3, R4, R5, R6, R7, R8, R9, R10.
    open_gui g. cbn in Ew. subst wk. stage_bits Hs.
    unfold stage_ok, has_exe, has_url in Hok. cbn in *.
    split; [split; [reflexivity|exact Hok]|lia].
  - (* choose_paths *)
    destruct (dialog g) eqn:Ed; [exact Hstay|].
    clear Hstay. exists s. split; [|lia].
    open_gui g. split; [exact Hs|exact Hok].
Qed.

Lemma run_snoc events e g : run (events ++ [e]) g = step e (run events g).
Proof. unfold run. now rewrite fold_left_app. Qed.

Lemma run_app xs ys g : run (xs ++ ys) g = run ys (run xs g).
Proof. unfold run. apply fold_left_app. Qed.

Lemma run_stage events : forall g s,
  at_stage s g ->
  exists s', at_stage s' (run events g)
             /\ (rank s <= rank s' <= rank s + length events)%nat.
Proof.
  induction events as [|e events IH]; intros g s H.
  - exists s. split; [exact H|cbn; lia].
  - destruct (step_stage e g s H) as (s1 & H1 & L1).
    destruct (IH (step e g) s1 H1) as (s2 & H2 & L2).
    exists s2. split; [exact H2|cbn [length]; lia].
Qed.

Lemma initial_stage exe dbp outp : at_stage step1 (initial exe dbp outp).
Proof. split; reflexivity. Qed.

(** Whatever is pressed and whatever the outside answers, the window of the
  controller in use is always at one of six stages: exactly one of the four
  login buttons is enabled and the user is not logged in, or the login is done
  and only the backup button is enabled, or a job runs and no button is
  enabled.  The URL dialog is open only while step 2 is due, the executable is
  known from step 2 on and a non-empty URL is stored from step 3 on. *)
Theorem window_stage
    (events : list Event) (exe : option string) (dbp outp : string) :
  exists s, stage_of (run events (initial exe dbp outp)) = Some s
            /\ stage_ok s (run events (initial exe dbp outp)) = true.
Proof.
  destruct (run_stage events _ _ (initial_stage exe dbp outp)) as (s & H & _).
  exists s. exact H.
Qed.

(** The window never goes back: between two moments of a session the stage
  does not decrease (a finished job returns to the ready stage, of the same
  rank), and it advances by at most one step for each event. *)
Theorem window_never_goes_back
    (before after : list Event) (exe : option string) (dbp outp : string) :
  exists s s',
    stage_of (run before (initial exe dbp outp)) = Some s
    /\ stage_of (run (before ++ after) (initial exe dbp outp)) = Some s'
    /\ (rank s <= rank s' <= rank s + length after)%nat.
Proof.
  destruct (run_stage before _ _ (initial_stage exe dbp outp)) as (s & H & _).
  destruct (run_stage after _ _ H) as (s' & H' & L).
  exists s, s'. rewrite run_app.
  split; [apply H|]. split; [apply H'|exact L].
Qed.

Lemma step_logged_in e g :
  Exe.is_logged_in (app (step e g)) = true ->
  Exe.is_logged_in (app g) = true \/ found_token e = true.
Proof.
  destruct e as [de oe|clip|content| |oe|db|cf me|sy src ex erc|dp op];
    cbn [step found_token].
  - destruct (negb (dialog g) && enabled (btn_terminal g)); [|auto].
    unfold start_oauth_terminal. split_ifs; cbn; auto.
  - destruct (negb (dialog g) && enabled (btn_copy g)); cbn; auto.
  - destruct (dialog g); [|auto]. unfold on_confirm. split_ifs; cbn; auto.
  - destruct (dialog g); cbn; auto.
  - destruct (negb (dialog g) && enabled (btn_browser g)); [|auto].
    unfold open_browser. split_ifs; cbn; auto.
  - destruct (negb (dialog g) && enabled (btn_complete g)); [|auto].
    unfold check_oauth_token. destruct db as [|x|rows]; cbn; auto.
    destruct (access_token_row rows) as [v|]; cbn; auto.
    destruct (truth v); cbn; auto.
  - destruct (negb (dialog g) && enabled (btn_backup g)); [|auto].
    unfold press_backup, Exe.start_backup. split_ifs; cbn; auto.
  - destruct (Exe.is_working (app g)); [|auto].
    destruct (finish_job_result sy src ex erc g) as (_ & _ & -> & _). auto.
  - destruct (dialog g); cbn; auto.
Qed.

(** The user counts as logged in only after a press on the fourth button
  that found a token in the database: a row named [access_token], or else
  the first row whose name contains [token] or [oauth], with a value that
  Python takes as true. *)
Theorem logged_in_needs_token
    (events : list Event) (exe : option string) (dbp outp : string) :
  Exe.is_logged_in (app (run events (initial exe dbp outp))) = true ->
  existsb found_token events = true.
Proof.
  induction events as [|e events IH] using rev_ind; [discriminate|].
  rewrite run_snoc, existsb_app. intros H.
  destruct (step_logged_in _ _ H) as [H1|H1].
  - now rewrite IH.
  - cbn. rewrite H1. now rewrite Bool.orb_true_r.
Qed.

End Window.

Lemma logged_in_needs_token_witness :
  Exe.is_logged_in
    (ExeLogin.app (ExeLogin.run login_session
                     (ExeLogin.initial (Some "evernote-backup.exe") "db" "out")))
  = true
  /\ existsb ExeLogin.found_token login_session = true.
Proof.
  assert (H : Exe.is_logged_in
                (ExeLogin.app (ExeLogin.run login_session
                   (ExeLogin.initial (Some "evernote-backup.exe") "db" "out")))
              = true) by reflexivity.
  split; [exact H|].
  exact (logged_in_needs_token login_session (Some "evernote-backup.exe")
           "db" "out" H).
Defined.

(** A whole session: the four steps, a job and its end. *)
Example login_then_backup :
  let g := ExeLogin.run login_session
             (ExeLogin.initial (Some "evernote-backup.exe") "db" "out") in
  ExeLogin.stage_of g = Some ExeLogin.ready
  /\ ExeLogin.stage_of (ExeLogin.step (ExeLogin.click_backup true None) g)
     = Some ExeLogin.working
  /\ ExeLogin.stage_of
       (ExeLogin.run [ExeLogin.click_backup true None;
                      ExeLogin.job_done ["2 notes to download"] 0
                                        ["export file a"] 0] g)
     = Some ExeLogin.ready.
Proof. vm_compute. repeat split. Qed.
